(** * bast: the master/worker process supervisor

    A shallow embedding of the process-lifecycle code of package [bast]
    (mode dispatch, worker spawning and monitoring, pid-file and
    instance-registry bookkeeping, stop/reload) and of [logs.ClearLogger],
    followed by the properties of that code.

    Layout: the Go library functions the code calls, the data model, the
    operations (one definition per source function, under the source's
    name), then the lemmas and theorems. *)

From Stdlib Require Import ZArith List String Ascii Bool Lia.
From Stdlib Require Import Decimal DecimalString DecimalZ DecimalPos.
From stdpp Require Import base gmap strings.
Import ListNotations.
Open Scope string_scope.
Open Scope list_scope.

(** ** The Go library functions used by the code *)

Module Go.

(** [error]: a Go error value is its message; [None] is [nil]. *)
Definition error := option string.

(** Line feed, and the one-character string holding it. *)
Definition LF : ascii := ascii_of_nat 10.
Definition nl : string := String LF "".

(** *** strconv *)

(** [int] is taken to be 64 bits wide. *)
Definition inInt (z : Z) : bool := ((- 2 ^ 63 <=? z) && (z <? 2 ^ 63))%Z.

(** [strconv.Itoa]: decimal digits, a leading minus sign for negatives. *)
Definition Itoa (z : Z) : string := NilZero.string_of_int (Z.to_int z).

(** [strconv.Atoi]: an optional sign, then one or more decimal digits and
    nothing else; a value outside [int] is an error. *)
Definition Atoi (s : string) : option Z :=
  let parsed :=
    match s with
    | String "+" t => option_map Pos (NilZero.uint_of_string t)
    | _ => NilZero.int_of_string s
    end in
  match parsed with
  | Some d => if inInt (Z.of_int d) then Some (Z.of_int d) else None
  | None => None
  end.

(** [strconv.ParseBool]. *)
Definition ParseBool (s : string) : option bool :=
  if existsb (String.eqb s) ["1"; "t"; "T"; "TRUE"; "true"; "True"] then Some true
  else if existsb (String.eqb s) ["0"; "f"; "F"; "FALSE"; "false"; "False"] then Some false
  else None.

(** *** strings *)

(** [strings.Split(s, sep)] for a one-byte separator, which is what both
    call sites pass.  The result is never empty: splitting the empty string
    gives one empty field. *)
Fixpoint Split (s : string) (sep : ascii) : list string :=
  match s with
  | "" => [""]
  | String c t =>
      if Ascii.eqb c sep then "" :: Split t sep
      else match Split t sep with
           | h :: r => String c h :: r
           | [] => [String c ""]
           end
  end.

(** [strings.Contains] for one byte. *)
Fixpoint contains (c : ascii) (s : string) : bool :=
  match s with
  | "" => false
  | String a t => Ascii.eqb a c || contains c t
  end.

(** [strings.Join]. *)
Fixpoint join (sep : string) (xs : list string) : string :=
  match xs with
  | [] => ""
  | [x] => x
  | x :: r => x +:+ sep +:+ join sep r
  end.

(** [strings.HasPrefix]. *)
Definition HasPrefix (s pre : string) : bool := String.prefix pre s.

(** White space in the ASCII range: tab, line feed, vertical tab, form
    feed, carriage return, space. *)
Definition isSpace (c : ascii) : bool :=
  let n := nat_of_ascii c in
  ((9 <=? n)%nat && (n <=? 13)%nat) || (n =? 32)%nat.

(** The white space above the ASCII range, by its UTF-8 encoding: in two
    bytes U+0085 and U+00A0, in three bytes U+1680, U+2000 to U+200A,
    U+2028, U+2029, U+202F, U+205F and U+3000 (the table of
    [unicode.IsSpace]). *)
Definition isSpace2 (c1 c2 : ascii) : bool :=
  let n1 := nat_of_ascii c1 in
  let n2 := nat_of_ascii c2 in
  (n1 =? 194)%nat && ((n2 =? 133)%nat || (n2 =? 160)%nat).

Definition isSpace3 (c1 c2 c3 : ascii) : bool :=
  let n1 := nat_of_ascii c1 in
  let n2 := nat_of_ascii c2 in
  let n3 := nat_of_ascii c3 in
  ((n1 =? 225)%nat && (n2 =? 154)%nat && (n3 =? 128)%nat) ||
  ((n1 =? 226)%nat && (n2 =? 128)%nat &&
   (((128 <=? n3)%nat && (n3 <=? 138)%nat) ||
    (n3 =? 168)%nat || (n3 =? 169)%nat || (n3 =? 175)%nat)) ||
  ((n1 =? 226)%nat && (n2 =? 129)%nat && (n3 =? 159)%nat) ||
  ((n1 =? 227)%nat && (n2 =? 128)%nat && (n3 =? 128)%nat).

(** [s] is the encoding of one white-space character above the ASCII
    range. *)
Definition isSpaceRune (s : string) : bool :=
  match s with
  | String c1 (String c2 "") => isSpace2 c1 c2
  | String c1 (String c2 (String c3 "")) => isSpace3 c1 c2 c3
  | _ => false
  end.

(** [strings.TrimLeftFunc(s, unicode.IsSpace)]: the characters are decoded
    from the front; a byte sequence that is not the encoding of a white-space
    character ends the trimming. *)
Fixpoint trimLeft (s : string) : string :=
  match s with
  | "" => ""
  | String c1 t1 =>
      if isSpace c1 then trimLeft t1
      else match t1 with
           | "" => s
           | String c2 t2 =>
               if isSpace2 c1 c2 then trimLeft t2
               else match t2 with
                    | "" => s
                    | String c3 t3 =>
                        if isSpace3 c1 c2 c3 then trimLeft t3 else s
                    end
           end
  end.

(** [strings.TrimRightFunc(s, unicode.IsSpace)]: the characters are decoded
    from the back.  What is left of [String c t] once [t] is trimmed to [r]
    is trimmed further only when [c] is a white-space byte before an empty
    [r], or when [c] and [r] together are the encoding of one white-space
    character. *)
Fixpoint trimRight (s : string) : string :=
  match s with
  | "" => ""
  | String c t =>
      match trimRight t with
      | "" => if isSpace c then "" else String c ""
      | r => if isSpaceRune (String c r) then "" else String c r
      end
  end.

(** [strings.TrimSpace] on a string held as its bytes (UTF-8): white space,
    as [unicode.IsSpace] defines it, is taken off both ends.  A byte that
    does not begin the encoding of a white-space character, an invalid byte
    included, ends the trimming on its side. *)
Definition TrimSpace (s : string) : string := trimRight (trimLeft s).

(** *** bufio *)

(** The successive results of [Reader.ReadString('\n')] on a reader over
    [s], up to and including the one returned with [io.EOF]: every line keeps
    its delimiter, the last fragment (what follows the last line feed,
    possibly empty) has none.  [cur] is the part of the current line already
    read. *)
Fixpoint readStrings (cur s : string) : list string :=
  match s with
  | "" => [cur]
  | String c t =>
      if Ascii.eqb c LF then (cur +:+ nl) :: readStrings "" t
      else readStrings (cur +:+ String c "") t
  end.

End Go.

Import Go.

(** ** Command-line flags *)

(** The variables bound to the flag set in [parseCommandLine]. *)
Record Flags := mkFlags {
  flagDevelop : bool;
  flagStart : bool;
  flagStop : bool;
  flagReload : bool;
  flagDaemon : bool;
  isInstall : bool;
  isUninstall : bool;
  isForce : bool;
  flagService : bool;
  isMaster : bool;
  flagConf : string;
  flagName : string;
  flagAppKey : string;
  flagPipe : string;
  flagPPid : Z
}.

(** The defaults given to [BoolVar], [StringVar] and [IntVar]. *)
Definition defaultFlags : Flags :=
  mkFlags false false false false false false false false false false
          "" "" "" "" 0%Z.

Definition set_flagStart (b : bool) (f : Flags) : Flags :=
  mkFlags (flagDevelop f) b (flagStop f) (flagReload f) (flagDaemon f)
          (isInstall f) (isUninstall f) (isForce f) (flagService f) (isMaster f)
          (flagConf f) (flagName f) (flagAppKey f) (flagPipe f) (flagPPid f).

Definition set_flagDaemon (b : bool) (f : Flags) : Flags :=
  mkFlags (flagDevelop f) (flagStart f) (flagStop f) (flagReload f) b
          (isInstall f) (isUninstall f) (isForce f) (flagService f) (isMaster f)
          (flagConf f) (flagName f) (flagAppKey f) (flagPipe f) (flagPPid f).

Definition set_isInstall (b : bool) (f : Flags) : Flags :=
  mkFlags (flagDevelop f) (flagStart f) (flagStop f) (flagReload f) (flagDaemon f)
          b (isUninstall f) (isForce f) (flagService f) (isMaster f)
          (flagConf f) (flagName f) (flagAppKey f) (flagPipe f) (flagPPid f).

Definition set_isMaster (b : bool) (f : Flags) : Flags :=
  mkFlags (flagDevelop f) (flagStart f) (flagStop f) (flagReload f) (flagDaemon f)
          (isInstall f) (isUninstall f) (isForce f) (flagService f) b
          (flagConf f) (flagName f) (flagAppKey f) (flagPipe f) (flagPPid f).

(** *** The flag set (Go's [flag] package)

    [f.Parse] reads flags of the forms [-name], [--name], [-name=value] and,
    for a flag that is not boolean, [-name value]; it stops at the first
    argument that is not a flag and at [--].  The set is built with
    [ContinueOnError] and a [Usage] that prints the help and exits with code
    0, so every parse error (an undefined flag, [-h], [-help], a bad value)
    ends the process: the model returns [None] there. *)

Section FlagSet.

(** The conversion behind an [IntVar] ([strconv.ParseInt] with base 0). *)
Variable ParseInt : string -> option Z.

(** Storing [value] in the variable bound to [name]; [None] for a name that
    is not defined or a value that does not convert. *)
Definition setFlag (name value : string) (f : Flags) : option Flags :=
  let setBool (k : bool -> Flags) := option_map k (ParseBool value) in
  if name =? "develop" then setBool (fun b =>
    mkFlags b (flagStart f) (flagStop f) (flagReload f) (flagDaemon f)
            (isInstall f) (isUninstall f) (isForce f) (flagService f) (isMaster f)
            (flagConf f) (flagName f) (flagAppKey f) (flagPipe f) (flagPPid f))
  else if name =? "start" then setBool (fun b => set_flagStart b f)
  else if name =? "stop" then setBool (fun b =>
    mkFlags (flagDevelop f) (flagStart f) b (flagReload f) (flagDaemon f)
            (isInstall f) (isUninstall f) (isForce f) (flagService f) (isMaster f)
            (flagConf f) (flagName f) (flagAppKey f) (flagPipe f) (flagPPid f))
  else if name =? "reload" then setBool (fun b =>
    mkFlags (flagDevelop f) (flagStart f) (flagStop f) b (flagDaemon f)
            (isInstall f) (isUninstall f) (isForce f) (flagService f) (isMaster f)
            (flagConf f) (flagName f) (flagAppKey f) (flagPipe f) (flagPPid f))
  else if name =? "daemon" then setBool (fun b => set_flagDaemon b f)
  else if name =? "uninstall" then setBool (fun b =>
    mkFlags (flagDevelop f) (flagStart f) (flagStop f) (flagReload f) (flagDaemon f)
            (isInstall f) b (isForce f) (flagService f) (isMaster f)
            (flagConf f) (flagName f) (flagAppKey f) (flagPipe f) (flagPPid f))
  else if name =? "force" then setBool (fun b =>
    mkFlags (flagDevelop f) (flagStart f) (flagStop f) (flagReload f) (flagDaemon f)
            (isInstall f) (isUninstall f) b (flagService f) (isMaster f)
            (flagConf f) (flagName f) (flagAppKey f) (flagPipe f) (flagPPid f))
  else if name =? "install" then setBool (fun b => set_isInstall b f)
  else if name =? "service" then setBool (fun b =>
    mkFlags (flagDevelop f) (flagStart f) (flagStop f) (flagReload f) (flagDaemon f)
            (isInstall f) (isUninstall f) (isForce f) b (isMaster f)
            (flagConf f) (flagName f) (flagAppKey f) (flagPipe f) (flagPPid f))
  else if name =? "master" then setBool (fun b => set_isMaster b f)
  else if name =? "name" then Some
    (mkFlags (flagDevelop f) (flagStart f) (flagStop f) (flagReload f) (flagDaemon f)
            (isInstall f) (isUninstall f) (isForce f) (flagService f) (isMaster f)
            (flagConf f) value (flagAppKey f) (flagPipe f) (flagPPid f))
  else if name =? "conf" then Some
    (mkFlags (flagDevelop f) (flagStart f) (flagStop f) (flagReload f) (flagDaemon f)
            (isInstall f) (isUninstall f) (isForce f) (flagService f) (isMaster f)
            value (flagName f) (flagAppKey f) (flagPipe f) (flagPPid f))
  else if name =? "appkey" then Some
    (mkFlags (flagDevelop f) (flagStart f) (flagStop f) (flagReload f) (flagDaemon f)
            (isInstall f) (isUninstall f) (isForce f) (flagService f) (isMaster f)
            (flagConf f) (flagName f) value (flagPipe f) (flagPPid f))
  else if name =? "pipe" then Some
    (mkFlags (flagDevelop f) (flagStart f) (flagStop f) (flagReload f) (flagDaemon f)
            (isInstall f) (isUninstall f) (isForce f) (flagService f) (isMaster f)
            (flagConf f) (flagName f) (flagAppKey f) value (flagPPid f))
  else if name =? "pid" then option_map (fun n =>
    mkFlags (flagDevelop f) (flagStart f) (flagStop f) (flagReload f) (flagDaemon f)
            (isInstall f) (isUninstall f) (isForce f) (flagService f) (isMaster f)
            (flagConf f) (flagName f) (flagAppKey f) (flagPipe f) n) (ParseInt value)
  else None.

(** The flags registered with [BoolVar]. *)
Definition isBoolFlag (name : string) : bool :=
  existsb (String.eqb name)
    ["develop"; "start"; "stop"; "reload"; "daemon"; "uninstall"; "force";
     "install"; "service"; "master"].

(** [name=value] cut at the first equals sign (which cannot be the first
    character). *)
Fixpoint cutEq (s : string) : string * option string :=
  match s with
  | "" => ("", None)
  | String c t =>
      if Ascii.eqb c "=" then ("", Some t)
      else let (n, v) := cutEq t in (String c n, v)
  end.

(** [f.Parse]: the flags after the arguments are consumed, [None] when the
    flag set reports an error (usage, exit 0). *)
Fixpoint flagParse (args : list string) (f : Flags) : option Flags :=
  match args with
  | [] => Some f
  | s :: rest =>
      match s with
      | String "-" (String c0 t0 as body) =>
          if (c0 =? "-")%char && (t0 =? "") then Some f            (* "--" *)
          else
            let name0 := if (c0 =? "-")%char then t0 else body in
            match name0 with
            | "" => None
            | String c t =>
                if (c =? "-")%char || (c =? "=")%char then None     (* bad flag syntax *)
                else
                  let (n, v) := cutEq t in
                  let name := String c n in
                  if isBoolFlag name then
                    match setFlag name (default "true" v) f with
                    | Some f' => flagParse rest f'
                    | None => None
                    end
                  else
                    match v with
                    | Some value =>
                        match setFlag name value f with
                        | Some f' => flagParse rest f'
                        | None => None
                        end
                    | None =>
                        match rest with
                        | value :: rest' =>
                            match setFlag name value f with
                            | Some f' => flagParse rest' f'
                            | None => None
                            end
                        | [] => None                                (* flag needs an argument *)
                        end
                    end
            end
      | _ => Some f                                                 (* not a flag *)
      end
  end.

(** The adjustments [parseCommandLine] makes once [f.Parse] has run;
    [args] is [os.Args[1:]]. *)
Definition resolveFlags (args : list string) (f : Flags) : Flags :=
  let f := if (length args =? 0)%nat then set_flagStart true f else f in
  let f := if negb (flagName f =? "") then set_isInstall true f else f in
  let f := if negb (isInstall f)
           then (if existsb (fun k => HasPrefix k "-install") args
                 then set_isInstall true f else f)
           else f in
  let f := if isInstall f then set_flagDaemon false f else f in
  let f := if flagDevelop f || flagStop f || flagReload f || flagDaemon f
              || isInstall f || isUninstall f || flagService f
           then set_flagStart false f else f in
  let f := if flagService f then set_isMaster (flagService f) f else f in
  f.

(** [parseCommandLine] on [os.Args[1:]]; [None] when the usage text is
    printed and the process exits with code 0.  The closing call of
    [confParse] belongs to the configuration loader. *)
Definition parseCommandLine (args : list string) : option Flags :=
  match args with
  | [a] => if (a =? "h") || (a =? "help") then None
           else option_map (resolveFlags args) (flagParse args defaultFlags)
  | _ => option_map (resolveFlags args) (flagParse args defaultFlags)
  end.

End FlagSet.

(** The branch that [Command] takes. *)
Inductive Mode :=
  | Start | Service | Stop | Reload | Daemon | Install | Uninstall
  | Foreground.   (* no branch: [Command] returns true and [Run] serves *)

Definition Command_mode (f : Flags) : Mode :=
  if flagStart f then Start
  else if flagService f then Service
  else if flagStop f then Stop
  else if flagReload f then Reload
  else if flagDaemon f then Daemon
  else if isInstall f then Install
  else if isUninstall f then Uninstall
  else Foreground.

(** ** Data model *)

(** One configured application unit, as [Confs] lists them (the loader is
    the configuration collaborator; only the key is used here). *)
Record AppConf := mkAppConf { Key : string }.

(** [exec.Cmd]: the arguments it was built with, [Process] (set by a
    successful [Start], [nil] otherwise; the model keeps its pid) and
    [ProcessState] (set by [Wait] once the process has exited; the model
    keeps its exit code). *)
Record Cmd := mkCmd {
  Args : list string;
  Process : option Z;
  ProcessState : option Z
}.

(** [work]; [cmd] is a pointer, modelled as an index in the store of
    commands. *)
Record work := mkWork {
  key : string;
  cmd : nat;
  runing : bool;
  exitCount : Z
}.

(** The fields of [App] the supervisor uses. *)
Record App := mkApp {
  pipeName : string;
  app_Daemon : bool;
  app_isCallCommand : bool;
  app_runing : bool;
  app_cmd : list work
}.

Inductive Signal := SIGINT | SIGKILL | SIGTERM.

(** What the process does to the outside world, in order. *)
Inductive Effect :=
  | EPrintln (line : string)              (* fmt.Println *)
  | ELogError (msg : string)              (* logs.Error, logs.Err *)
  | ELogInfo (msg : string)               (* logs.Info *)
  | EStartProcess (argv : list string)    (* exec.Cmd.Start *)
  | ESignal (pid : Z) (sig : Signal)      (* os.Process.Signal *)
  | EKill (pid : Z)                       (* os.Process.Kill *)
  | ESleep (ms : Z)                       (* time.Sleep *)
  | EClearLogger                          (* logs.ClearLogger *)
  | EIDClear                              (* ids.IDClear *)
  | ERemove (path : string).              (* os.Remove *)

(** What the run cannot change: its own executable and pid, the platform,
    the configuration, and how the operating system answers. *)
Record Env := mkEnv {
  Args0 : string;                 (* os.Args[0] *)
  Getpid : Z;                     (* os.Getpid() *)
  GOOS : string;                  (* runtime.GOOS *)
  Confs : list AppConf;           (* Confs() *)
  ConfPath : string;              (* ConfPath() *)
  procStart : nat -> option Z;    (* Start of the n-th command built: its pid, or failure *)
  openDenied : string -> bool;    (* opening this path for writing fails *)
  writeFails : string -> bool;    (* writing to this path fails *)
  findFails : Z -> bool;          (* Windows: the process cannot be opened *)
  signalFails : Z -> bool         (* the signal cannot be delivered *)
}.

(** The package-level variables and the files. *)
Record State := mkState {
  flags : Flags;
  isClear : bool;
  app : App;
  cmds : list Cmd;                (* every exec.Cmd built so far *)
  logger : bool;                  (* logs: logger != nil *)
  fs : gmap string string;        (* path to content *)
  trace : list Effect
}.

Definition set_app (a : App) (s : State) : State :=
  mkState (flags s) (isClear s) a (cmds s) (logger s) (fs s) (trace s).
Definition set_cmds (c : list Cmd) (s : State) : State :=
  mkState (flags s) (isClear s) (app s) c (logger s) (fs s) (trace s).
Definition set_fs (m : gmap string string) (s : State) : State :=
  mkState (flags s) (isClear s) (app s) (cmds s) (logger s) m (trace s).
Definition set_isClear (b : bool) (s : State) : State :=
  mkState (flags s) b (app s) (cmds s) (logger s) (fs s) (trace s).
Definition set_logger (b : bool) (s : State) : State :=
  mkState (flags s) (isClear s) (app s) (cmds s) b (fs s) (trace s).
Definition emit (e : Effect) (s : State) : State :=
  mkState (flags s) (isClear s) (app s) (cmds s) (logger s) (fs s) (trace s ++ [e]).

Definition set_pipeName (p : string) (a : App) : App :=
  mkApp p (app_Daemon a) (app_isCallCommand a) (app_runing a) (app_cmd a).
Definition set_app_runing (b : bool) (a : App) : App :=
  mkApp (pipeName a) (app_Daemon a) (app_isCallCommand a) b (app_cmd a).
Definition set_app_cmd (c : list work) (a : App) : App :=
  mkApp (pipeName a) (app_Daemon a) (app_isCallCommand a) (app_runing a) c.

(** ** Control: results, panics, exits *)

(** How a call ends: it returns, it panics, the process exits
    ([os.Exit]), or it is still waiting on the completion channel when the
    schedule ends. *)
Inductive Result (A : Type) :=
  | Ret (a : A) (s : State)
  | Panic (msg : string) (s : State)
  | Exit (code : Z) (s : State)
  | Blocked (s : State).
Arguments Ret {A} a s.
Arguments Panic {A} msg s.
Arguments Exit {A} code s.
Arguments Blocked {A} s.

Definition M (A : Type) : Type := State -> Result A.

Definition ret {A} (a : A) : M A := fun s => Ret a s.

Definition bind {A B} (m : M A) (k : A -> M B) : M B :=
  fun s =>
    match m s with
    | Ret a s' => k a s'
    | Panic msg s' => Panic msg s'
    | Exit c s' => Exit c s'
    | Blocked s' => Blocked s'
    end.

Notation "x <- m ;; k" := (bind m (fun x => k))
  (at level 100, m at next level, right associativity).
Notation "m ;;; k" := (bind m (fun _ => k))
  (at level 100, right associativity).

Definition modify (f : State -> State) : M unit := fun s => Ret tt (f s).
Definition do (e : Effect) : M unit := modify (emit e).
Definition osExit {A} (code : Z) : M A := fun s => Exit code s.
Definition panic {A} (msg : string) : M A := fun s => Panic msg s.

(** The state a call leaves behind, however it ends. *)
Definition final {A} (r : Result A) : State :=
  match r with
  | Ret _ s | Panic _ s | Exit _ s | Blocked s => s
  end.

(** [for _, x := range xs { body x }]. *)
Fixpoint forEach {A} (xs : list A) (body : A -> M unit) : M unit :=
  match xs with
  | [] => ret tt
  | x :: r => body x ;;; forEach r body
  end.

Definition gets {A} (f : State -> A) : M A := fun s => Ret (f s) s.

(** ** The operations *)

Section Operations.

Variable e : Env.

(** [os.Args[0] + ".pid"] and [os.Args[0] + ".mgr"]. *)
Definition pidFilePath : string := Args0 e +:+ ".pid".
Definition mgrFilePath : string := Args0 e +:+ ".mgr".

(** *** logs *)

Definition logs_Info (msg : string) : M unit :=
  fun s => if logger s then Ret tt (emit (ELogInfo msg) s) else Ret tt s.

Definition logs_Error (msg : string) : M unit :=
  fun s => if logger s then Ret tt (emit (ELogError msg) s) else Ret tt s.

Definition logs_Err (msg : string) (err : error) : M unit :=
  let msg := if msg =? "" then "发生错误" else msg in
  let msg := match err with
             | Some m => msg +:+ "，详情：" +:+ m
             | None => msg
             end in
  logs_Error msg.

(** [logs.ClearLogger]: the logger becomes [nil]. *)
Definition ClearLogger : M unit :=
  modify (fun s => emit EClearLogger (set_logger false s)).

(** *** os *)

(** [os.FindProcess]: on Unix systems it always succeeds; on Windows it
    opens the process and can fail. *)
Definition FindProcess (pid : Z) : bool :=
  negb ((GOOS e =? "windows") && findFails e pid).

(** [os.Remove] of a file. *)
Definition os_Remove (path : string) : M error :=
  fun s =>
    match fs s !! path with
    | Some _ => Ret None (emit (ERemove path) (set_fs (delete path (fs s)) s))
    | None => Ret (Some ("remove " +:+ path +:+ ": no such file or directory"))
                  (emit (ERemove path) s)
    end.

(** *** Signalling and cleanup *)

Definition sendSignal (sig : Signal) (pid : Z) : M error :=
  if negb (FindProcess pid) then ret (Some "os: process not found")
  else if GOOS e =? "windows" then
    do (EKill pid) ;;; ret None
  else
    do (ESignal pid sig) ;;;
    if signalFails e pid then ret (Some "os: process already finished")
    else ret None.

Definition removePid : M error := os_Remove pidFilePath.

Definition clear : M unit :=
  fun s =>
    if isClear s then Ret tt s
    else (modify (set_isClear true) ;;;
          ClearLogger ;;;
          do EIDClear ;;;
          _ <- removePid ;;
          ret tt) s.

(** *** The pid file *)

(** The loop of [getWorkPids] over the fields. *)
Fixpoint atoiAll (cs : list string) : list Z :=
  match cs with
  | [] => []
  | v :: r =>
      match Atoi v with
      | Some vv => vv :: atoiAll r
      | None => atoiAll r
      end
  end.

(** [getWorkPids]; the [nil] result is the empty list.  When the file
    cannot be opened, [ReadAll] fails on the nil file and the result is
    [nil]. *)
Definition getWorkPids : M (list Z) :=
  fun s =>
    match fs s !! pidFilePath with
    | None => Ret [] s
    | Some c =>
        let cs := Split c ":" in
        match cs !! 1%nat with
        | None => Panic "index out of range [1] with length 1" s
        | Some c =>
            let cs := Split c "," in
            Ret (atoiAll cs) s
        end
    end.

(** The loop of [logPid] over [app.cmd], from position [index] on; [None]
    when a running entry's command has no [Process] (the nil pointer
    dereference of [p.cmd.Process.Pid]). *)
Fixpoint pidList (heap : list Cmd) (index : nat) (ws : list work) (pids : string)
  : option string :=
  match ws with
  | [] => Some pids
  | p :: r =>
      if runing p then
        let pids := if (0 <? index)%nat then pids +:+ "," else pids in
        match heap !! cmd p with
        | Some (mkCmd _ (Some pid) _) => pidList heap (S index) r (pids +:+ Itoa pid)
        | _ => None
        end
      else pidList heap (S index) r pids
  end.

Definition logPid : M error :=
  fun s =>
    if openDenied e pidFilePath then Ret (Some "cannot be created pid file") s
    else
      let s := set_fs (<[pidFilePath := ""]> (fs s)) s in      (* O_CREATE|O_TRUNC *)
      let pids := Itoa (Getpid e) +:+ "|" +:+ pipeName (app s) +:+ ":" in
      match pidList (cmds s) 0 (app_cmd (app s)) pids with
      | None => Panic "invalid memory address or nil pointer dereference" s
      | Some pids =>
          if writeFails e pidFilePath then Ret (Some "cannot be write pid file") s
          else Ret None (set_fs (<[pidFilePath := pids]> (fs s)) s)
      end.

(** *** The instance registry *)

(** The reading loop of [mgrList] over the lines the reader returns. *)
Fixpoint collectLines (rs : list string) : list string :=
  match rs with
  | [] => []
  | line :: r =>
      let line := TrimSpace line in
      if line =? "" then collectLines r else line :: collectLines r
  end.

(** [mgrList]; the [nil] result is the empty list. *)
Definition mgrList : M (list string) :=
  fun s =>
    if isForce (flags s) then Ret [] s
    else match fs s !! mgrFilePath with
         | None => Ret [] s
         | Some c => Ret (collectLines (readStrings "" c)) s
         end.

Definition logMgr : M error :=
  let cf := ConfPath e in
  mls <- mgrList ;;
  if existsb (fun v => v =? cf) mls then ret None
  else fun s =>
    if openDenied e mgrFilePath then Ret (Some "创建mgrFile文件失败") s
    else
      let old := if isForce (flags s) then ""                  (* O_CREATE|O_TRUNC *)
                 else default "" (fs s !! mgrFilePath) in      (* O_CREATE|O_APPEND *)
      let s := set_fs (<[mgrFilePath := old]> (fs s)) s in
      if writeFails e mgrFilePath then Ret (Some "写如mgrFile文件失败") s
      else Ret None (set_fs (<[mgrFilePath := old +:+ cf +:+ nl]> (fs s)) s).

Definition syncMgr (appList : list string) : M error :=
  let cf := fold_left (fun cf v => cf +:+ v +:+ nl) appList "" in
  fun s =>
    match fs s !! mgrFilePath with
    | None => Ret (Some "同步mgrFile文件失败") s               (* no O_CREATE *)
    | Some _ =>
        if openDenied e mgrFilePath then Ret (Some "同步mgrFile文件失败") s
        else
          let s := set_fs (<[mgrFilePath := ""]> (fs s)) s in  (* O_TRUNC *)
          if writeFails e mgrFilePath then Ret (Some "同步mgrFile文件失败") s
          else Ret None (set_fs (<[mgrFilePath := cf]> (fs s)) s)
    end.

(** *** Spawning *)

(** The arguments of a worker's command. *)
Definition workerArgs (k : string) (s : State) : list string :=
  [Args0 e; "-daemon"; "-appkey=" +:+ k; "-pipe=" +:+ pipeName (app s);
   "-pid=" +:+ Itoa (Getpid e); "-appkey=" +:+ flagAppKey (flags s);
   "-conf=" +:+ ConfPath e].

(** [exec.Command] followed by [cmd.Start()], whose error is dropped: the
    new command's index in the store. *)
Definition startCommand (argv : list string) : M nat :=
  fun s =>
    let h := length (cmds s) in
    Ret h (emit (EStartProcess argv)
             (set_cmds (cmds s ++ [mkCmd argv (procStart e h) None]) s)).

(** The body of the loop of [doStart]: build and start the command of
    unit [c], append its entry to [app.cmd]. *)
Definition spawnOne (c : AppConf) : M unit :=
  argv <- gets (workerArgs (Key c)) ;;
  h <- startCommand argv ;;
  modify (fun s => set_app (set_app_cmd (app_cmd (app s) ++ [mkWork (Key c) h true 0]) (app s)) s).

Definition doStart : M error :=
  let path := ConfPath e in
  let pid := Itoa (Getpid e) in
  modify (fun s => set_app (set_pipeName pid (app s)) s) ;;;
  service <- gets (fun s => flagService (flags s)) ;;
  (if service then logs_Info ("service=" +:+ path +:+ ",master pid=" +:+ pid)
   else do (EPrintln ("start=" +:+ path +:+ ",master pid=" +:+ pid))) ;;;
  modify (fun s => set_app (set_app_cmd [] (app s)) s) ;;;
  forEach (Confs e) spawnOne ;;;
  err <- logPid ;;
  match err with
  | Some msg =>
      logs_Err "start error log pid," err ;;;
      if negb service then do (EPrintln msg) else ret tt
  | None => ret tt
  end ;;;
  ret None.

(** Modelled from the spec: [ConfWithKey], the configuration loader's
    [unitByKey(key)], is not part of the sources; it is taken to return the
    configured unit with that key, if there is one. *)
Definition ConfWithKey (k : string) : option AppConf :=
  find (fun c => Key c =? k) (Confs e).

(** [startWork]; the result is the new command, [None] for [nil]. *)
Definition startWork (index : nat) : M (option nat) :=
  ws <- gets (fun s => app_cmd (app s)) ;;
  match ws !! index with
  | None => panic "index out of range"
  | Some w =>
      match ConfWithKey (key w) with
      | Some c =>
          argv <- gets (workerArgs (Key c)) ;;
          h <- startCommand argv ;;
          modify (fun s => set_app (set_app_cmd (<[index := mkWork (Key c) h true 0]> (app_cmd (app s))) (app s)) s) ;;;
          _ <- logPid ;;
          ret (Some h)
      | None => ret None
      end
  end.

(** *** Stopping from the service manager *)

Definition serviceStop : M unit :=
  pids <- getWorkPids ;;
  forEach pids (fun pid => _ <- sendSignal SIGINT pid ;; ret tt) ;;;
  clear.

(** [daemonExecutable.Stop]. *)
Definition daemonExecutable_Stop : M unit :=
  modify (fun s => set_app (set_app_runing false (app s)) s) ;;;
  serviceStop.

End Operations.

(** ** Monitoring *)

(** What happens around the supervisor while it waits: a worker process
    exits, or the service manager calls [daemonExecutable.Stop]. *)
Inductive Event :=
  | Exited (h : nat) (code : Z)
  | StopCallback.

(** A schedule gives, for each receive on the completion channel in turn,
    the events that happen before that receive completes. *)
Definition Schedule := list (list Event).

(** [Wait] on a waiter's command records the exit in [ProcessState], once. *)
Definition setExit (h : nat) (code : Z) (heap : list Cmd) : list Cmd :=
  match heap !! h with
  | Some (mkCmd argv (Some pid) None) => <[h := mkCmd argv (Some pid) (Some code)]> heap
  | _ => heap
  end.

(** The waiter of command [h] has sent (or is ready to send) on the
    channel: [Wait] has returned, either because the process exited or, for a
    command that never started, at once with an error. *)
Definition waiterDone (heap : list Cmd) (h : nat) : bool :=
  match heap !! h with
  | Some (mkCmd _ (Some _) None) => false
  | _ => true
  end.

Section Monitoring.

Variable e : Env.

(** An event; only the commands in [waiters] have a goroutine in [Wait]. *)
Definition happen (waiters : list nat) (ev : Event) : M unit :=
  match ev with
  | Exited h code =>
      modify (fun s => if existsb (Nat.eqb h) waiters
                       then set_cmds (setExit h code (cmds s)) s else s)
  | StopCallback => daemonExecutable_Stop e
  end.

(** The body of the second loop of [checkWorkProcess], after the receive. *)
Definition monitorBody (i : nat) : M unit :=
  ws <- gets (fun s => app_cmd (app s)) ;;
  match ws !! i with
  | None => panic "index out of range"
  | Some w =>
      heap <- gets cmds ;;
      match heap !! cmd w with
      | None => panic "invalid memory address or nil pointer dereference"
      | Some c =>
          let exitCode := match ProcessState c with
                          | Some code => Itoa code
                          | None => ""
                          end in
          service <- gets (fun s => flagService (flags s)) ;;
          (if service then logs_Error ("has work process exited,exit code=" +:+ exitCode)
           else do (EPrintln ("has work process exited,exit code=" +:+ exitCode))) ;;;
          (* w.runing = false: [w] is the loop's own copy of app.cmd[i] *)
          let w := mkWork (key w) (cmd w) false (exitCount w) in
          ret tt
      end
  end.

(** The second loop of [checkWorkProcess] from iteration [i], with [n]
    iterations left. *)
Fixpoint monitorLoop (waiters : list nat) (i n : nat) (sched : Schedule) : M unit :=
  match n with
  | O => ret tt
  | S n' =>
      match sched with
      | [] => fun s => Blocked s
      | evs :: sched' =>
          forEach evs (happen waiters) ;;;
          heap <- gets cmds ;;
          if (length (List.filter (waiterDone heap) waiters) <=? i)%nat
          then (fun s => Blocked s)                               (* <-c *)
          else
            monitorBody i ;;;
            running <- gets (fun s => app_runing (app s)) ;;
            if running then monitorLoop waiters (S i) n' sched'
            else ret tt                                           (* break *)
      end
  end.

Definition checkWorkProcess (sched : Schedule) : M unit :=
  ws <- gets (fun s => app_cmd (app s)) ;;
  let waiters := map cmd (List.filter runing ws) in
  let l := length waiters in
  monitorLoop waiters 0 l sched ;;;
  clear e.

(** *** Start, reload, stop *)

Definition start (sched : Schedule) : M (bool * error) :=
  master <- gets (fun s => isMaster (flags s)) ;;
  if master then
    _ <- doStart e ;;
    checkWorkProcess sched ;;;
    ret (false, None)
  else
    do (EStartProcess [Args0 e; "-master"; "-start"; "-conf=" +:+ ConfPath e]) ;;;
    osExit 0.

Definition reload (sched : Schedule) : M unit :=
  pids <- getWorkPids e ;;
  forEach pids (fun pid => _ <- sendSignal e SIGINT pid ;; ret tt) ;;;
  do (ESleep 30) ;;;
  _ <- start sched ;;
  ret tt.

Definition stop : M unit :=
  pids <- getWorkPids e ;;
  forEach pids (fun pid => _ <- sendSignal e SIGINT pid ;; ret tt) ;;;
  do (ESleep 30) ;;;
  osExit 0.

End Monitoring.

(** A process at [init]: nothing spawned, the master flag [runing] set. *)
Definition initApp : App := mkApp "" false false true [].

Definition initState (f : Flags) (files : gmap string string) : State :=
  mkState f false initApp [] true files [].

(** A Unix host on which every system call succeeds. *)
Definition unixEnv (exe : string) (pid : Z) (confs : list string) (conf : string)
    (pids : nat -> option Z) : Env :=
  mkEnv exe pid "linux" (map mkAppConf confs) conf pids
        (fun _ => false) (fun _ => false) (fun _ => false) (fun _ => false).

(** ** Vocabulary of the statements *)

(** *** Characters of decimal numbers *)

Definition isDigit (c : ascii) : bool :=
  let n := nat_of_ascii c in ((48 <=? n) && (n <=? 57))%nat.

Definition isNumChar (c : ascii) : bool := isDigit c || Ascii.eqb c "-".

Fixpoint allChars (P : ascii -> bool) (s : string) : bool :=
  match s with
  | "" => true
  | String a t => P a && allChars P t
  end.

(** *** The pid record *)

(** The pid of the process behind an entry, when its command started. *)
Definition procPid (heap : list Cmd) (w : work) : option Z :=
  match heap !! cmd w with
  | Some c => Process c
  | None => None
  end.

(** The pids of the running entries of the registry, in registry order;
    [None] when a running entry has no process. *)
Fixpoint workerPids (heap : list Cmd) (ws : list work) : option (list Z) :=
  match ws with
  | [] => Some []
  | p :: r =>
      if runing p then
        match procPid heap p with
        | Some pid => option_map (cons pid) (workerPids heap r)
        | None => None
        end
      else workerPids heap r
  end.

(** Every pid preceded by a comma. *)
Fixpoint commaList (l : list Z) : string :=
  match l with
  | [] => ""
  | p :: r => "," +:+ Itoa p +:+ commaList r
  end.

(** The record format [masterPid|pipeName:pid1,pid2,...]. *)
Definition pidRecord (master : Z) (pipe : string) (pids : list Z) : string :=
  Itoa master +:+ "|" +:+ pipe +:+ ":" +:+ join "," (map Itoa pids).

(** Write, then read: [logPid] followed by [getWorkPids]. *)
Definition readBack (e : Env) (s : State) : option (list Z) :=
  match logPid e s with
  | Ret None s' =>
      match getWorkPids e s' with
      | Ret pids _ => Some pids
      | _ => None
      end
  | _ => None
  end.

(** *** Traces *)

(** The state with more effects recorded. *)
Definition emitAll (es : list Effect) (s : State) : State :=
  mkState (flags s) (isClear s) (app s) (cmds s) (logger s) (fs s) (trace s ++ es).

(** What [sendSignal] does to one pid. *)
Definition signalEffects (e : Env) (sig : Signal) (pid : Z) : list Effect :=
  if negb (FindProcess e pid) then []
  else if GOOS e =? "windows" then [EKill pid]
  else [ESignal pid sig].

(** The three steps of the final cleanup. *)
Definition isTeardown (x : Effect) : bool :=
  match x with
  | EClearLogger | EIDClear | ERemove _ => true
  | _ => false
  end.

Definition teardowns (t : list Effect) : list Effect := List.filter isTeardown t.

Definition cleanup (e : Env) : list Effect :=
  [EClearLogger; EIDClear; ERemove (pidFilePath e)].

(** The cleanup steps were taken once if [isClear] is set, and not at all
    otherwise. *)
Definition cleanedOnce (e : Env) (s : State) : Prop :=
  teardowns (trace s) = if isClear s then cleanup e else [].

(** A call keeps [cleanedOnce], however it ends. *)
Definition keeps {A} (e : Env) (m : M A) : Prop :=
  forall s, cleanedOnce e s -> cleanedOnce e (final (m s)).

(** *** Monitoring *)

(** The schedule in which the completions arrive one by one in the given
    order, each worker exiting with the given code just before its
    completion is received. *)
Definition arrival (order : list (nat * Z)) : Schedule :=
  map (fun hc => [Exited (fst hc) (snd hc)]) order.

(** The line written for one drained completion. *)
Definition exitReport (service : bool) (code : string) : Effect :=
  if service then ELogError ("has work process exited,exit code=" +:+ code)
  else EPrintln ("has work process exited,exit code=" +:+ code).

(** Every entry of the registry points to a command of the store. *)
Definition wfStore (s : State) : Prop :=
  Forall (fun w => (cmd w < length (cmds s))%nat) (app_cmd (app s)).


(** What the loop of [doStart] adds to the registry and to the store,
    the first new command being stored at [base]. *)
Fixpoint spawnedWorks (base : nat) (confs : list AppConf) : list work :=
  match confs with
  | [] => []
  | c :: r => mkWork (Key c) base true 0 :: spawnedWorks (S base) r
  end.

Fixpoint spawnedCmds (e : Env) (s : State) (base : nat) (confs : list AppConf) : list Cmd :=
  match confs with
  | [] => []
  | c :: r => mkCmd (workerArgs e (Key c) s) (procStart e base) None
              :: spawnedCmds e s (S base) r
  end.

(** *** The instance registry *)

(** The file holding the entries [vs], one per line. *)
Fixpoint registryLines (vs : list string) : string :=
  match vs with
  | [] => ""
  | v :: r => v +:+ nl +:+ registryLines r
  end.

(** [s] begins with a white-space character. *)
Definition startsWithSpace (s : string) : bool :=
  match s with
  | "" => false
  | String c1 t1 =>
      isSpace c1 ||
      match t1 with
      | "" => false
      | String c2 t2 =>
          isSpace2 c1 c2 ||
          match t2 with
          | "" => false
          | String c3 _ => isSpace3 c1 c2 c3
          end
      end
  end.

Definition rune2 (a b : ascii) : string := String a (String b "").
Definition rune3 (a b c : ascii) : string := String a (String b (String c "")).

(** The white-space characters of Unicode, in UTF-8. *)
Definition whiteSpace : list string :=
  map (fun c => String c "") ["009"; "010"; "011"; "012"; "013"; " "]%char ++
  [rune2 "194" "133"; rune2 "194" "160"; rune3 "225" "154" "128"] ++
  map (rune3 "226" "128")
      ["128"; "129"; "130"; "131"; "132"; "133"; "134"; "135"; "136"; "137";
       "138"; "168"; "169"; "175"]%char ++
  [rune3 "226" "129" "159"; rune3 "227" "128" "128"].

(** A path that reads back as itself: not empty, no white space at either
    end, no line feed. *)
Definition cleanPath (v : string) : bool :=
  negb (v =? "") && (TrimSpace v =? v) && negb (contains LF v).

(** The registry file holds exactly the entries [vs] (a missing file holds
    none). *)
Definition holds (e : Env) (s : State) (vs : list string) : Prop :=
  fs s !! mgrFilePath e = Some (registryLines vs) \/
  (fs s !! mgrFilePath e = None /\ vs = []).

(** [n] calls in a row, results dropped. *)
Fixpoint repeatM {A} (n : nat) (m : M A) : M unit :=
  match n with
  | O => ret tt
  | S n' => _ <- m ;; repeatM n' m
  end.

(** The entries after one append of [cf]. *)
Definition appended (cf : string) (vs : list string) : list string :=
  if existsb (fun v => v =? cf) vs then vs else vs ++ [cf].

(** *** Modes *)

(** No mode flag other than start is set. *)
Definition noOtherMode (f : Flags) : Prop :=
  flagDevelop f = false /\ flagStop f = false /\ flagReload f = false /\
  flagDaemon f = false /\ isInstall f = false /\ isUninstall f = false /\
  flagService f = false.

(** Install is requested: by the flag, by a name, or by an argument that
    begins with [-install]. *)
Definition installed (args : list string) (raw : Flags) : bool :=
  isInstall raw || negb (flagName raw =? "") ||
  existsb (fun k => HasPrefix k "-install") args.

(** *** Sample runs *)

(** A master with pid 1234 and units a, b, c whose workers get the pids
    2001, 2002, 2003. *)
Definition exEnv : Env :=
  unixEnv "/opt/app" 1234 ["a"; "b"; "c"] "app.conf"
          (fun n => Some (2001 + Z.of_nat n)%Z).

(** The same program run as master 4321. *)
Definition exEnv2 : Env :=
  unixEnv "/opt/app" 4321 ["a"; "b"; "c"] "app.conf"
          (fun n => Some (2001 + Z.of_nat n)%Z).

(** The same host, where the second command cannot be started. *)
Definition exEnvFail : Env :=
  unixEnv "/opt/app" 1234 ["a"; "b"] "app.conf"
          (fun n => if (n =? 1)%nat then None else Some 2001%Z).

(** A Windows host. *)
Definition exEnvWin : Env :=
  mkEnv "C:/app.exe" 1234 "windows" [mkAppConf "a"] "app.conf"
        (fun n => Some 2001%Z)
        (fun _ => false) (fun _ => false) (fun _ => false) (fun _ => false).

(** A configuration path that ends with a space. *)
Definition exEnvPad : Env :=
  unixEnv "/opt/app" 1234 [] "a.conf " (fun _ => None).

(** The flags of the re-executed master, [-master -start]. *)
Definition masterFlags : Flags := set_isMaster true (set_flagStart true defaultFlags).

(** The master once [doStart] has spawned its three workers. *)
Definition exStarted : State := final (doStart exEnv (initState masterFlags ∅)).
Definition exStarted2 : State := final (doStart exEnv2 (initState masterFlags ∅)).

(** A registry of one running worker with pid 7 under a pipe name that
    holds a colon. *)
Definition exColon : State :=
  mkState masterFlags false
          (mkApp "a:5" false false true [mkWork "a" 0 true 0])
          [mkCmd [] (Some 7%Z) None] true ∅ [].

(** A [-stop] or [-reload] invocation that finds the pid file
    [1234|abc:2001,2002]. *)
Definition exPidFile (e : Env) : State :=
  initState defaultFlags {[ pidFilePath e := "1234|abc:2001,2002" ]}.

(** A pid file that is empty. *)
Definition exEmptyPidFile : State :=
  initState defaultFlags {[ pidFilePath exEnv := "" ]}.

(** The flags [f.Parse] leaves for [-install -daemon -name=svc -service]. *)
Definition exRaw : Flags :=
  mkFlags false false false false true true false false true false
          "" "svc" "" "" 0%Z.

(** Unit b exits first with code 7, then a with 0, then c with 3. *)
Definition exOrder : list (nat * Z) := [(1%nat, 7%Z); (0%nat, 0%Z); (2%nat, 3%Z)].

(** Unit b exits, then the service manager asks the master to stop. *)
Definition exStopSched : Schedule := [[Exited 1 7; StopCallback]].

(** ** More of the package *)

(** *** Path names *)

(** [strings.HasSuffix]. *)
Fixpoint HasSuffix (s suffix : string) : bool :=
  (s =? suffix) ||
  match s with
  | "" => false
  | String _ t => HasSuffix t suffix
  end.

(** [s] without its suffix [suffix], when it ends with it. *)
Fixpoint dropSuffix (s suffix : string) : option string :=
  if s =? suffix then Some ""
  else match s with
       | "" => None
       | String c t => option_map (String c) (dropSuffix t suffix)
       end.

(** [strings.TrimSuffix]. *)
Definition TrimSuffix (s suffix : string) : string :=
  default s (dropSuffix s suffix).

(** The loop of [path.Base] that strips the trailing slashes. *)
Fixpoint stripSlashes (s : string) : string :=
  match s with
  | "" => ""
  | String c t =>
      match stripSlashes t with
      | "" => if Ascii.eqb c "/" then "" else String c ""
      | r => String c r
      end
  end.

(** What follows the last slash. *)
Fixpoint afterLastSlash (s : string) : string :=
  match s with
  | "" => ""
  | String c t =>
      if contains "/" t then afterLastSlash t
      else if Ascii.eqb c "/" then t else s
  end.

(** [path.Base]. *)
Definition path_Base (p : string) : string :=
  if p =? "" then "."
  else
    let p := afterLastSlash (stripSlashes p) in
    if p =? "" then "/" else p.

(** [path.Ext]: the suffix that begins at the last dot of the last element,
    empty when that element has no dot. *)
Fixpoint path_Ext (p : string) : string :=
  match p with
  | "" => ""
  | String c t =>
      match path_Ext t with
      | "" => if contains "/" t then ""
              else if Ascii.eqb c "." then p else ""
      | ext => ext
      end
  end.

(** [AppName]. *)
Definition AppName (e : Env) : string :=
  let fn := path_Base (Args0 e) in
  let fileSuffix := path_Ext fn in
  TrimSuffix fn fileSuffix.

(** *** Choosing an instance: [mgrPath] *)

(** The prompts of [mgrPath]. *)
Definition promptList : string := "位置列表：" +:+ nl.
Definition promptAsk : string := "请输入位置序号：".
Definition promptAgain : string := "请输入正确位置序号：".

(** The listing loop of [mgrPath]: positions are shown from 1. *)
Fixpoint listEntries (i : nat) (mls : list string) : list string :=
  match mls with
  | [] => []
  | v :: r => ("    " +:+ Itoa (Z.of_nat i + 1) +:+ "：") :: (v +:+ nl)
              :: listEntries (S i) r
  end.

(** The reading loop of [mgrPath].  [inputs] holds the results of the
    successive calls of [fmt.Scanf("%d", &pos)]: the number read, or [None]
    when the call fails.  The result is the position, counted from 0, and the
    prompts written meanwhile; [None] when the input ends before a position
    in range is read (the loop then never ends). *)
Fixpoint scanPos (lg : nat) (inputs : list (option Z)) (out : list string)
  : option (nat * list string) :=
  match inputs with
  | [] => None
  | i :: r =>
      match i with
      | Some pos =>
          if (pos <=? 0)%Z || (Z.of_nat lg <? pos)%Z
          then scanPos lg r (out ++ [promptAgain])
          else Some (Z.to_nat (pos - 1), out)
      | None => scanPos lg r (out ++ [promptAgain])
      end
  end.

(** [mgrPath].  The result comes with what the function writes to the
    standard output with [fmt.Print] and [fmt.Printf], in order. *)
Definition mgrPath (e : Env) (inputs : list (option Z)) : M (string * list string) :=
  mls <- mgrList e ;;
  match mls with
  | [] => _ <- syncMgr e mls ;; ret ("", [])
  | [v] => _ <- syncMgr e [] ;; ret (v, [])
  | _ =>
      let lg := length mls in
      let out := promptList :: listEntries 0 mls ++ [promptAsk] in
      match scanPos lg inputs out with
      | None => fun s => Blocked s
      | Some (pos, out) =>
          match mls !! pos with
          | None => panic "index out of range"
          | Some path =>
              _ <- syncMgr e (firstn pos mls ++ skipn (S pos) mls) ;;
              ret (path, out)
          end
      end
  end.

(** *** Request handling: [doHandle] and [NoLookDirHandler] *)

(** What a handler sees of a request. *)
Record Request := mkRequest {
  Method : string;
  RequestURI : string;
  URLPath : string;         (* r.URL.Path *)
  RawQuery : string;        (* r.URL.RawQuery *)
  Origin : string           (* r.Header.Get("Origin") *)
}.

(** The calls made on the response writer, in order. *)
Inductive RespOp :=
  | HeaderSet (k v : string)
  | HeaderAdd (k v : string)
  | WriteHeader (code : Z)
  | Fprint (body : string)
  | NotFound                 (* http.NotFound(w, r) *)
  | ServeHTTP.               (* the wrapped handler serves the request *)

(** How a function supplied by the application ends. *)
Inductive Ending :=
  | Returns (err : error)
  | Panics (value : string).

(** A function supplied by the application (a handler, the [Before] or the
    [After] hook): what it writes to the response and how it ends. *)
Definition Callback := Request -> list RespOp * Ending.

(** [http.StatusText] for the codes used. *)
Definition StatusText (code : Z) : string :=
  if (code =? 404)%Z then "Not Found"
  else if (code =? 405)%Z then "Method Not Allowed"
  else if (code =? 500)%Z then "Internal Server Error"
  else "".

(** The headers set for a request that carries an origin. *)
Definition corsHeaders (r : Request) : list RespOp :=
  if Origin r =? "" then []
  else [HeaderSet "Access-Control-Allow-Origin" (Origin r);
        HeaderSet "Access-Control-Allow-Methods" "POST, GET, OPTIONS, PUT, DELETE";
        HeaderSet "Access-Control-Allow-Headers"
          "Origin, Authorization,Access-Control-Allow-Origin,Content-Length,Content-Type,BaseUrl";
        HeaderSet "Access-Control-Max-Age" "1728000";
        HeaderSet "Access-Control-Allow-Credentials" "true"].

(** The part of the handler that runs under the deferred [recover]: the
    hooks around [f].  The result is what was written and the value of the
    panic, if one was raised. *)
Definition hooked (before after : option Callback) (f : Callback) (r : Request)
  : M (list RespOp * option string) :=
  let logEnd := logs_Info (Method r +:+ ":" +:+ RequestURI r +:+ "->end") in
  let run (ops : list RespOp) : M (list RespOp * option string) :=
    match f r with
    | (o1, Panics v) => ret (ops ++ o1, Some v)
    | (o1, Returns _) =>
        match after with
        | Some a =>
            match a r with
            | (o2, Panics v) => ret (ops ++ o1 ++ o2, Some v)
            | (o2, Returns _) => logEnd ;;; ret (ops ++ o1 ++ o2, None)
            end
        | None => logEnd ;;; ret (ops ++ o1, None)
        end
    end in
  match before with
  | Some b =>
      match b r with
      | (o, Panics v) => ret (o, Some v)
      | (o, Returns (Some _)) => logEnd ;;; ret (o, None)
      | (o, Returns None) => run o
      end
  | None => run []
  end.

(** The function that [doHandle] registers for [method] and [pattern];
    [f] is [None] for a nil handler, [before] and [after] are [app.Before]
    and [app.After]. *)
Definition doHandle (before after : option Callback)
    (method pattern : string) (f : option Callback) (r : Request)
  : M (list RespOp) :=
  logs_Info (Method r +:+ ":" +:+ RequestURI r +:+ "->start") ;;;
  let cors := corsHeaders r in
  if Method r =? "OPTIONS" then ret cors
  else if (pattern =? "/") && negb (URLPath r =? pattern) then
    ret (cors ++ [WriteHeader 404; Fprint (StatusText 404)])
  else if Method r =? method then
    match f with
    | Some f =>
        res <- hooked before after f r ;;
        match res with
        | (ops, Some errMsg) =>
            logs_Error (Method r +:+ ":" +:+ RequestURI r +:+ "->error=" +:+ errMsg) ;;;
            ret (cors ++ ops ++ [WriteHeader 500; Fprint (StatusText 500)])
        | (ops, None) => ret (cors ++ ops)
        end
    | None => ret cors
    end
  else
    logs_Info (Method r +:+ ":" +:+ RequestURI r +:+ "->end=notAllowed") ;;;
    ret (cors ++ [WriteHeader 405; Fprint (StatusText 405)]).

(** [strings.Index(s, sub) >= 0]. *)
Fixpoint hasSubstring (s sub : string) : bool :=
  String.prefix sub s ||
  match s with
  | "" => false
  | String _ t => hasSubstring t sub
  end.

(** The double quote. *)
Definition dquote : string := String (ascii_of_nat 34) "".

(** [NoLookDirHandler]; [rawName] is [r.Form["rawName"]] once the form is
    parsed ([None] for nil).  The result is [None] when the handler panics
    (on the first element of an empty list). *)
Definition NoLookDirHandler (rawName : option (list string)) (r : Request)
  : option (list RespOp) :=
  if HasSuffix (URLPath r) "/" then Some [NotFound]
  else if hasSubstring (RawQuery r) "download" then
    match rawName with
    | Some fn =>
        match fn with
        | [] => None
        | fn0 :: _ =>
            Some [HeaderAdd "Content-Type" "application/octet-stream";
                  HeaderAdd "Content-Type" "application/octet-stream";
                  HeaderAdd "Content-Disposition"
                    ("attachment;filename=" +:+ dquote +:+ fn0 +:+ dquote);
                  ServeHTTP]
        end
    | None => Some [HeaderAdd "Content-Type" "application/octet-stream"; ServeHTTP]
    end
  else Some [ServeHTTP].

(** ** Vocabulary of the further statements *)

(** The pids the operating system gives to the commands of [confs] when
    they are started in turn, the first being stored at [base]; [None] when
    one of them does not start. *)
Fixpoint startPids (e : Env) (base : nat) (confs : list AppConf) : option (list Z) :=
  match confs with
  | [] => Some []
  | _ :: r =>
      match procStart e base with
      | Some pid => option_map (cons pid) (startPids e (S base) r)
      | None => None
      end
  end.

(** The line with which [doStart] announces itself. *)
Definition announce (e : Env) (s : State) : list Effect :=
  if flagService (flags s) then
    if logger s
    then [ELogInfo ("service=" +:+ ConfPath e +:+ ",master pid=" +:+ Itoa (Getpid e))]
    else []
  else [EPrintln ("start=" +:+ ConfPath e +:+ ",master pid=" +:+ Itoa (Getpid e))].

(** The command line of the worker of unit [k] under master [e]. *)
Definition workerCommand (e : Env) (s : State) (k : string) : Effect :=
  EStartProcess
    [Args0 e; "-daemon"; "-appkey=" +:+ k; "-pipe=" +:+ Itoa (Getpid e);
     "-pid=" +:+ Itoa (Getpid e); "-appkey=" +:+ flagAppKey (flags s);
     "-conf=" +:+ ConfPath e].

(** How [doStart] reports that the pid file could not be written. *)
Definition pidFileReport (s : State) (msg : string) : list Effect :=
  (if logger s then [ELogError ("start error log pid," +:+ "，详情：" +:+ msg)] else [])
  ++ (if flagService (flags s) then [] else [EPrintln msg]).

(** An answer that [mgrPath] refuses: a failed read, or a position out of
    range. *)
Definition refused (lg : nat) (i : option Z) : bool :=
  match i with
  | Some pos => (pos <=? 0)%Z || (Z.of_nat lg <? pos)%Z
  | None => true
  end.

(** The request reaches the handler [f] registered for [method] and
    [pattern]. *)
Definition routed (method pattern : string) (r : Request) : Prop :=
  Method r = method /\ Method r <> "OPTIONS" /\
  (pattern = "/" -> URLPath r = "/").

(** More sample runs. *)

(** A host on which the pid file cannot be opened for writing. *)
Definition exEnvDenied : Env :=
  mkEnv "/opt/app" 1234 "linux" [mkAppConf "a"] "app.conf"
        (fun n => Some 2001%Z)
        (fun _ => true) (fun _ => false) (fun _ => false) (fun _ => false).

(** A master without configured units. *)
Definition exEnvEmpty : Env :=
  unixEnv "/opt/app" 1234 [] "app.conf" (fun _ => None).

(** A Windows host on which process 2001 cannot be opened. *)
Definition exEnvWinLocked : Env :=
  mkEnv "C:/app.exe" 1234 "windows" [mkAppConf "a"] "app.conf"
        (fun n => Some 2001%Z)
        (fun _ => false) (fun _ => false)
        (fun pid => (pid =? 2001)%Z) (fun _ => false).

(** A registry of three instances. *)
Definition exRegistry : State :=
  initState defaultFlags
    {[ mgrFilePath exEnv := registryLines ["a.conf"; "b.conf"; "c.conf"] ]}.

(** A handler that writes a body and returns, one that fails half way, and
    a hook that refuses the request. *)
Definition exHandler : Callback := fun _ => ([Fprint "hello"], Returns None).
Definition exCrash : Callback := fun _ => ([Fprint "hel"], Panics "boom").
Definition exRefuse : Callback := fun _ => ([WriteHeader 401], Returns (Some "denied")).
Definition exGet : Request := mkRequest "GET" "/items?x=1" "/items" "x=1" "http://a.example".

(** The master of [exStarted] once its running flag is cleared. *)
Definition exFlagCleared : State :=
  set_app (set_app_runing false (app exStarted)) exStarted.

(** A registry of one instance, and the registry of [exRegistry] under
    [-force]. *)
Definition exOneEntry : State :=
  initState defaultFlags {[ mgrFilePath exEnv := registryLines ["a.conf"] ]}.
Definition exForced : State :=
  initState (mkFlags false false false false false false true true false false
                     "" "" "" "" 0%Z)
            {[ mgrFilePath exEnv := registryLines ["a.conf"; "b.conf"; "c.conf"] ]}.

(** A pid file whose record holds a second colon. *)
Definition exTwoColons : State :=
  initState defaultFlags {[ pidFilePath exEnv := "1234|abc:2001,2002:2003" ]}.

(** The flags [f.Parse] leaves for [-uninstall -name=svc] and for
    [-install=false -daemon]. *)
Definition exUninstallRaw : Flags :=
  mkFlags false false false false false false true false false false
          "" "svc" "" "" 0%Z.
Definition exDaemonRaw : Flags :=
  mkFlags false false false false true false false false false false
          "" "" "" "" 0%Z.

(** A request for a directory of the static files. *)
Definition exDir : Request := mkRequest "GET" "/static/" "/static/" "" "".

(** * Properties *)

#[local] Arguments append (s1 s2)%_string_scope : simpl nomatch.

(** ** Strings and numbers *)

Lemma app_nil_r_s (s : string) : s +:+ "" = s.
Proof. induction s; simpl; congruence. Qed.

Lemma app_assoc_s (a b c : string) : (a +:+ b) +:+ c = a +:+ (b +:+ c).
Proof. induction a; simpl; congruence. Qed.

Lemma contains_app c a b : contains c (a +:+ b) = contains c a || contains c b.
Proof. induction a; simpl; [reflexivity|]. rewrite IHa. apply orb_assoc. Qed.

(** A string without the separator is one field. *)
Lemma Split_none s sep : contains sep s = false -> Split s sep = [s].
Proof.
  induction s as [|c t IH]; simpl; [reflexivity|].
  intros H. apply orb_false_iff in H as [Hc Ht].
  rewrite Hc, (IH Ht). reflexivity.
Qed.

(** The first field ends at the first separator. *)
Lemma Split_app a b sep :
  contains sep a = false ->
  Split (a +:+ String sep b) sep = a :: Split b sep.
Proof.
  induction a as [|c t IH]; simpl; intros H.
  - rewrite Ascii.eqb_refl. reflexivity.
  - apply orb_false_iff in H as [Hc Ht]. rewrite Hc, (IH Ht). reflexivity.
Qed.

Lemma uint_digits d : allChars isDigit (NilEmpty.string_of_uint d) = true.
Proof. induction d; simpl; auto. Qed.

Lemma allChars_contains P c s :
  P c = false -> allChars P s = true -> contains c s = false.
Proof.
  intros Hc. induction s as [|a t IH]; simpl; [reflexivity|].
  intros H. apply andb_true_iff in H as [Ha Ht].
  rewrite (IH Ht), orb_false_r.
  destruct (Ascii.eqb_spec a c); [congruence | reflexivity].
Qed.

Lemma allChars_impl (P Q : ascii -> bool) s :
  (forall c, P c = true -> Q c = true) -> allChars P s = true -> allChars Q s = true.
Proof.
  intros HPQ. induction s as [|a t IH]; simpl; [reflexivity|].
  intros H. apply andb_true_iff in H as [Ha Ht].
  rewrite (HPQ _ Ha), (IH Ht). reflexivity.
Qed.

Lemma Itoa_chars z : allChars isNumChar (Itoa z) = true.
Proof.
  assert (Hu : forall d, allChars isNumChar (NilZero.string_of_uint d) = true).
  { intros d. destruct d; try reflexivity;
      apply (allChars_impl isDigit); try apply (uint_digits (_ _));
      intros c Hc; unfold isNumChar; rewrite Hc; reflexivity. }
  unfold Itoa. destruct (Z.to_int z); simpl; auto.
Qed.

(** A decimal number holds digits and a minus sign only. *)
Lemma Itoa_no c z : isNumChar c = false -> contains c (Itoa z) = false.
Proof. intros H. apply (allChars_contains isNumChar); [exact H | apply Itoa_chars]. Qed.

(** [Atoi] reads back what [Itoa] writes, for every [int]. *)
Lemma Atoi_Itoa z : inInt z = true -> Atoi (Itoa z) = Some z.
Proof.
  intros Hr. unfold Atoi, Itoa.
  assert (Hp : NilZero.int_of_string (NilZero.string_of_int (Z.to_int z)) = Some (Z.to_int z)).
  { apply NilZero.isi; destruct z; simpl; try discriminate;
      intros [= H]; exact (Unsigned.to_uint_nonnil _ H). }
  assert (Hplus : match NilZero.string_of_int (Z.to_int z) with
                  | String "+" _ => False | _ => True end).
  { pose proof (Itoa_chars z) as Hc. unfold Itoa in Hc.
    destruct (NilZero.string_of_int (Z.to_int z)) as [|a t]; [exact I|].
    simpl in Hc. apply andb_true_iff in Hc as [Ha _].
    destruct a as [[] [] [] [] [] [] [] []]; try exact I; discriminate Ha. }
  destruct (NilZero.string_of_int (Z.to_int z)) as [|a t] eqn:E.
  - discriminate Hp.
  - destruct a as [[] [] [] [] [] [] [] []]; try contradiction;
      rewrite Hp, DecimalZ.of_to, Hr; reflexivity.
Qed.

(** ** Writing and reading the pid record *)

Lemma contains_cons c a t : contains c (String a t) = Ascii.eqb a c || contains c t.
Proof. reflexivity. Qed.

(** After its first position the loop of [logPid] writes a comma before
    every pid. *)
Lemma pidList_pos heap ws : forall index pids,
  (0 < index)%nat ->
  pidList heap index ws pids =
  option_map (fun l => pids +:+ commaList l) (workerPids heap ws).
Proof.
  induction ws as [|p r IH]; intros index pids Hi; simpl.
  - rewrite app_nil_r_s. reflexivity.
  - destruct (runing p).
    + apply Nat.ltb_lt in Hi as Hb. rewrite Hb. unfold procPid.
      destruct (heap !! cmd p) as [[argv [pid|] st]|]; simpl; try reflexivity.
      rewrite IH by lia.
      destruct (workerPids heap r); simpl; [|reflexivity].
      rewrite !app_assoc_s. reflexivity.
    + apply IH. lia.
Qed.

Lemma Split_Itoa_commaList p l :
  Split (Itoa p +:+ commaList l) "," = Itoa p :: map Itoa l.
Proof.
  revert p. induction l as [|q l IH]; intros p; simpl.
  - rewrite app_nil_r_s. apply Split_none, Itoa_no. reflexivity.
  - rewrite Split_app by (apply Itoa_no; reflexivity).
    rewrite IH. reflexivity.
Qed.

Lemma Split_commaList l : Split (commaList l) "," = "" :: map Itoa l.
Proof.
  destruct l as [|p l]; simpl; [reflexivity|].
  rewrite Split_Itoa_commaList. reflexivity.
Qed.

Lemma Split_join l :
  l <> [] -> Split (join "," (map Itoa l)) "," = map Itoa l.
Proof.
  induction l as [|p l IH]; intros Hl; [contradiction|].
  destruct l as [|q l].
  - simpl. apply Split_none, Itoa_no. reflexivity.
  - change (join "," (map Itoa (p :: q :: l)))
      with (Itoa p +:+ String "," (join "," (map Itoa (q :: l)))).
    rewrite Split_app by (apply Itoa_no; reflexivity).
    rewrite IH by discriminate. reflexivity.
Qed.

Lemma atoiAll_Itoa l :
  forallb inInt l = true -> atoiAll (map Itoa l) = l.
Proof.
  induction l as [|p l IH]; simpl; [reflexivity|].
  intros H. apply andb_true_iff in H as [Hp Hl].
  rewrite (Atoi_Itoa _ Hp), (IH Hl). reflexivity.
Qed.

Lemma contains_commaList c l :
  isNumChar c = false -> Ascii.eqb "," c = false -> contains c (commaList l) = false.
Proof.
  intros Hc Hk. induction l as [|p l IH]; [reflexivity|].
  change (commaList (p :: l)) with (String "," (Itoa p +:+ commaList l)).
  rewrite contains_cons, Hk, contains_app, (Itoa_no _ _ Hc), IH. reflexivity.
Qed.

Lemma contains_join c l :
  isNumChar c = false -> Ascii.eqb "," c = false ->
  contains c (join "," (map Itoa l)) = false.
Proof.
  intros Hc Hk. induction l as [|p l IH]; [reflexivity|].
  destruct l as [|q l]; [apply Itoa_no, Hc|].
  change (join "," (map Itoa (p :: q :: l)))
    with (Itoa p +:+ String "," (join "," (map Itoa (q :: l)))).
  rewrite contains_app, (Itoa_no _ _ Hc), contains_cons, Hk. exact IH.
Qed.

(** Reading a file of the form [head:body]. *)
Lemma getWorkPids_body e s head body :
  fs s !! pidFilePath e = Some (head +:+ ":" +:+ body) ->
  contains ":" head = false ->
  contains ":" body = false ->
  getWorkPids e s = Ret (atoiAll (Split body ",")) s.
Proof.
  intros Hf Hh Hb. unfold getWorkPids. rewrite Hf.
  change (head +:+ ":" +:+ body) with (head +:+ String ":" body).
  rewrite (Split_app _ _ _ Hh), (Split_none _ _ Hb). reflexivity.
Qed.

(** Reading a record in the documented format. *)
Lemma getWorkPids_record e s master pipe pids :
  fs s !! pidFilePath e = Some (pidRecord master pipe pids) ->
  contains ":" pipe = false ->
  forallb inInt pids = true ->
  getWorkPids e s = Ret pids s.
Proof.
  intros Hf Hp Hr. unfold pidRecord in Hf.
  rewrite <- !app_assoc_s in Hf. rewrite app_assoc_s in Hf.
  rewrite (getWorkPids_body e s _ _ Hf).
  - destruct pids as [|p l]; [reflexivity|].
    rewrite Split_join by discriminate. rewrite atoiAll_Itoa by exact Hr. reflexivity.
  - rewrite !contains_app, Hp, Itoa_no by reflexivity. reflexivity.
  - apply contains_join; reflexivity.
Qed.

(** What the loop of [logPid] appends parses back to the pids of the running
    workers: a missing first pid leaves an empty field, which [Atoi]
    rejects. *)
Lemma pidList_zero heap ws pids l :
  workerPids heap ws = Some l ->
  forallb inInt l = true ->
  exists body,
    pidList heap 0 ws pids = Some (pids +:+ body) /\
    contains ":" body = false /\
    atoiAll (Split body ",") = l.
Proof.
  intros Hw Hr. destruct ws as [|p r]; simpl in *.
  - injection Hw as <-. exists "". rewrite app_nil_r_s. auto.
  - destruct (runing p).
    + unfold procPid in Hw.
      destruct (heap !! cmd p) as [[argv [pid|] st]|]; simpl in Hw; try discriminate.
      rewrite pidList_pos by lia.
      destruct (workerPids heap r) as [l'|]; simpl in *; [|discriminate].
      injection Hw as <-. exists (Itoa pid +:+ commaList l').
      rewrite app_assoc_s, Split_Itoa_commaList.
      change (atoiAll (Itoa pid :: map Itoa l')) with (atoiAll (map Itoa (pid :: l'))).
      rewrite atoiAll_Itoa by exact Hr.
      rewrite contains_app, Itoa_no, contains_commaList by reflexivity. auto.
    + rewrite pidList_pos by lia. rewrite Hw. simpl.
      exists (commaList l). rewrite Split_commaList.
      change (atoiAll ("" :: map Itoa l)) with (atoiAll (map Itoa l)).
      rewrite atoiAll_Itoa by exact Hr.
      rewrite contains_commaList by reflexivity. auto.
Qed.

(** C3, as amended.  When the pid file can be written, the pipe name
    holds no colon (the code only ever stores the master's decimal pid
    there) and every running entry has a process, [logPid] followed by
    [getWorkPids] returns exactly the pids of the running workers, in
    registry order, for no, one or many workers.  The master pid and the
    pipe name are written but are not part of what is read back. *)
Theorem pid_record_round_trip e s pids :
  openDenied e (pidFilePath e) = false ->
  writeFails e (pidFilePath e) = false ->
  contains ":" (pipeName (app s)) = false ->
  workerPids (cmds s) (app_cmd (app s)) = Some pids ->
  forallb inInt pids = true ->
  exists s', logPid e s = Ret None s' /\ getWorkPids e s' = Ret pids s'.
Proof.
  intros Ho Hw Hp Hl Hr. unfold logPid. rewrite Ho. cbn [set_fs app cmds].
  destruct (pidList_zero (cmds s) (app_cmd (app s))
              (Itoa (Getpid e) +:+ "|" +:+ pipeName (app s) +:+ ":") pids Hl Hr)
    as (body & -> & Hb & Ha).
  rewrite Hw. eexists. split; [reflexivity|].
  rewrite <- Ha.
  apply (getWorkPids_body e _ (Itoa (Getpid e) +:+ "|" +:+ pipeName (app s)) body).
  - cbn [fs set_fs]. rewrite lookup_insert_eq. rewrite !app_assoc_s. reflexivity.
  - rewrite !contains_app, Hp, Itoa_no by reflexivity. reflexivity.
  - exact Hb.
Qed.

Lemma getWorkPids_missing e s :
  fs s !! pidFilePath e = None -> getWorkPids e s = Ret [] s.
Proof. intros Hf. unfold getWorkPids. rewrite Hf. reflexivity. Qed.

(** C10.  [getWorkPids] tolerates a missing pid file only: it then returns
    the empty result.  On every pid file that exists and holds no colon (an
    empty file, say) the split has one element, indexing its second element
    panics, and so do [stop] and [reload], which call it first. *)
Theorem getWorkPids_corrupt e s :
  (fs s !! pidFilePath e = None -> getWorkPids e s = Ret [] s) /\
  (forall content,
     fs s !! pidFilePath e = Some content ->
     contains ":" content = false ->
     (exists msg, getWorkPids e s = Panic msg s) /\
     (exists msg, stop e s = Panic msg s) /\
     (forall sched, exists msg, reload e sched s = Panic msg s)).
Proof.
  split; [apply getWorkPids_missing|].
  intros content Hf Hc.
  assert (Hg : getWorkPids e s = Panic "index out of range [1] with length 1" s).
  { unfold getWorkPids. rewrite Hf, (Split_none _ _ Hc). reflexivity. }
  split; [eauto|]. split.
  - unfold stop, bind. rewrite Hg. eauto.
  - intros sched. unfold reload, bind. rewrite Hg. eauto.
Qed.

(** ** Signals: stop and reload *)

Lemma emitAll_nil s : emitAll [] s = s.
Proof. destruct s. unfold emitAll. simpl. rewrite app_nil_r. reflexivity. Qed.

Lemma emit_emitAll x es s : emit x (emitAll es s) = emitAll (es ++ [x]) s.
Proof. unfold emit, emitAll. simpl. rewrite app_assoc. reflexivity. Qed.

Lemma emitAll_emitAll es es' s : emitAll es' (emitAll es s) = emitAll (es ++ es') s.
Proof. unfold emitAll. simpl. rewrite app_assoc. reflexivity. Qed.

Lemma sendSignal_effects e sig pid s :
  exists err, sendSignal e sig pid s = Ret err (emitAll (signalEffects e sig pid) s).
Proof.
  unfold sendSignal, signalEffects.
  destruct (negb (FindProcess e pid)).
  - rewrite emitAll_nil. eexists. reflexivity.
  - destruct (GOOS e =? "windows").
    + eexists. reflexivity.
    + unfold bind, do, modify. destruct (signalFails e pid); eexists; reflexivity.
Qed.

(** The signalling loop shared by [stop], [reload] and [serviceStop]. *)
Lemma signal_fanout e sig pids s :
  forEach pids (fun pid => _ <- sendSignal e sig pid ;; ret tt) s =
  Ret tt (emitAll (flat_map (signalEffects e sig) pids) s).
Proof.
  revert s. induction pids as [|pid r IH]; intros s; simpl.
  - rewrite emitAll_nil. reflexivity.
  - unfold bind at 1 2. destruct (sendSignal_effects e sig pid s) as [err ->].
    unfold ret at 1. rewrite IH, emitAll_emitAll. reflexivity.
Qed.

Lemma signalEffects_unix e sig pids :
  (GOOS e =? "windows") = false ->
  flat_map (signalEffects e sig) pids = map (fun pid => ESignal pid sig) pids.
Proof.
  intros Hu. induction pids as [|p r IH]; simpl; [reflexivity|].
  rewrite IH. unfold signalEffects, FindProcess. rewrite Hu. reflexivity.
Qed.

(** C5, as amended.  On a host that is not Windows, for every pid file
    holding a record [masterPid|pipeName:pid1,...], [stop] sends one
    interrupt signal to each listed pid, in order, and nothing else, sleeps
    30 milliseconds and exits with code 0, whatever became of the signalled
    processes. *)
Theorem stop_signals e s master pipe pids :
  (GOOS e =? "windows") = false ->
  fs s !! pidFilePath e = Some (pidRecord master pipe pids) ->
  contains ":" pipe = false ->
  forallb inInt pids = true ->
  stop e s = Exit 0 (emitAll (map (fun pid => ESignal pid SIGINT) pids ++ [ESleep 30]) s).
Proof.
  intros Hu Hf Hp Hr. unfold stop.
  unfold bind at 1. rewrite (getWorkPids_record e s master pipe pids Hf Hp Hr).
  unfold bind at 1. rewrite signal_fanout, (signalEffects_unix _ _ _ Hu).
  unfold bind, do, modify, osExit. rewrite emit_emitAll. reflexivity.
Qed.

(** C4, as amended.  On a host that is not Windows, for every pid file
    holding a record, [reload] sends one interrupt signal per recorded pid,
    in order, and none to any other pid, sleeps 30 milliseconds, and then
    runs [start] exactly once; when the invocation is not the master, that
    [start] re-executes the program as master once and exits with code 0. *)
Theorem reload_signals e sched s master pipe pids :
  (GOOS e =? "windows") = false ->
  fs s !! pidFilePath e = Some (pidRecord master pipe pids) ->
  contains ":" pipe = false ->
  forallb inInt pids = true ->
  reload e sched s =
    (_ <- start e sched ;; ret tt)
      (emitAll (map (fun pid => ESignal pid SIGINT) pids ++ [ESleep 30]) s) /\
  (isMaster (flags s) = false ->
   reload e sched s =
     Exit 0 (emitAll (map (fun pid => ESignal pid SIGINT) pids ++
                      [ESleep 30;
                       EStartProcess [Args0 e; "-master"; "-start"; "-conf=" +:+ ConfPath e]]) s)).
Proof.
  intros Hu Hf Hp Hr.
  assert (H1 : reload e sched s =
    (_ <- start e sched ;; ret tt)
      (emitAll (map (fun pid => ESignal pid SIGINT) pids ++ [ESleep 30]) s)).
  { unfold reload.
    unfold bind at 1. rewrite (getWorkPids_record e s master pipe pids Hf Hp Hr).
    unfold bind at 1. rewrite signal_fanout, (signalEffects_unix _ _ _ Hu).
    unfold bind at 1. unfold do at 1, modify at 1. rewrite emit_emitAll. reflexivity. }
  split; [exact H1|].
  intros Hm. rewrite H1. unfold bind at 1, start.
  unfold bind at 1, gets at 1. cbn [flags emitAll]. rewrite Hm.
  unfold bind, do, modify, osExit. rewrite emit_emitAll, <- app_assoc. reflexivity.
Qed.

(** C8, as amended.  [removePid] always leaves the pid file absent, and a
    repeated call changes no file; but it returns the error of [os.Remove]:
    the call succeeds exactly when the file was there, so every call on a
    missing file, and every repeated call, returns an error. *)
Theorem removePid_twice e s :
  exists err s1,
    removePid e s = Ret err s1 /\
    fs s1 !! pidFilePath e = None /\
    (err = None <-> is_Some (fs s !! pidFilePath e)) /\
    exists msg s2, removePid e s1 = Ret (Some msg) s2 /\ fs s2 = fs s1.
Proof.
  unfold removePid, os_Remove.
  destruct (fs s !! pidFilePath e) as [c|] eqn:Hf.
  - eexists _, _. split; [reflexivity|]. cbn [fs emit set_fs].
    rewrite lookup_delete_eq. split; [reflexivity|]. split.
    + split; [eauto | reflexivity].
    + eexists _, _. split; reflexivity.
  - eexists _, _. split; [reflexivity|]. cbn [fs emit set_fs].
    rewrite Hf. split; [reflexivity|]. split.
    + split; [discriminate | intros [x Hx]; discriminate].
    + eexists _, _. split; reflexivity.
Qed.

(** ** Cleanup happens once *)

Create HintDb keep.

Lemma keeps_ret {A} e (a : A) : keeps e (ret a).
Proof. intros s H. exact H. Qed.

Lemma keeps_bind {A B} e (m : M A) (k : A -> M B) :
  keeps e m -> (forall a, keeps e (k a)) -> keeps e (bind m k).
Proof.
  intros Hm Hk s H. unfold bind. specialize (Hm s H).
  destruct (m s); simpl in *; auto. apply Hk, Hm.
Qed.

Lemma keeps_gets {A} e (f : State -> A) : keeps e (gets f).
Proof. intros s H. exact H. Qed.

Lemma keeps_panic {A} e msg : keeps e (@panic A msg).
Proof. intros s H. exact H. Qed.

Lemma keeps_blocked {A} e : keeps e (fun s => @Blocked A s).
Proof. intros s H. exact H. Qed.

Lemma keeps_osExit {A} e c : keeps e (@osExit A c).
Proof. intros s H. exact H. Qed.

Lemma keeps_modify e (f : State -> State) :
  (forall s, isClear (f s) = isClear s /\ trace (f s) = trace s) ->
  keeps e (modify f).
Proof.
  intros Hf s H. unfold cleanedOnce, modify in *. simpl.
  destruct (Hf s) as [-> ->]. exact H.
Qed.

Lemma keeps_do e x : isTeardown x = false -> keeps e (do x).
Proof.
  intros Hx s H. unfold cleanedOnce, do, modify, teardowns in *. simpl.
  rewrite List.filter_app. simpl. rewrite Hx, app_nil_r. exact H.
Qed.

Lemma keeps_if {A} e (b : bool) (m1 m2 : M A) :
  keeps e m1 -> keeps e m2 -> keeps e (if b then m1 else m2).
Proof. destruct b; auto. Qed.

Lemma keeps_logs_Error e msg : keeps e (logs_Error msg).
Proof.
  intros s H. unfold logs_Error. destruct (logger s); [|exact H].
  apply (keeps_do e (ELogError msg) eq_refl s H).
Qed.

Lemma keeps_getWorkPids e : keeps e (getWorkPids e).
Proof.
  intros s H. unfold getWorkPids.
  destruct (fs s !! pidFilePath e); [|exact H].
  destruct (Split s0 ":" !! 1%nat); exact H.
Qed.

Lemma keeps_sendSignal e sig pid : keeps e (sendSignal e sig pid).
Proof.
  intros s H. destruct (sendSignal_effects e sig pid s) as [err ->]. simpl.
  unfold cleanedOnce, teardowns, emitAll in *. simpl. rewrite List.filter_app.
  replace (List.filter isTeardown (signalEffects e sig pid)) with (@nil Effect);
    [rewrite app_nil_r; exact H|].
  unfold signalEffects. destruct (negb _); [reflexivity|].
  destruct (GOOS e =? "windows"); reflexivity.
Qed.

Lemma keeps_forEach {A} e (xs : list A) (body : A -> M unit) :
  (forall x, keeps e (body x)) -> keeps e (forEach xs body).
Proof.
  intros Hb. induction xs as [|x r IH]; simpl.
  - apply keeps_ret.
  - apply keeps_bind; auto.
Qed.

(** [clear] in closed form. *)
Lemma clear_spec e s :
  clear e s =
  Ret tt (if isClear s then s
          else emit (ERemove (pidFilePath e))
                 (set_fs (delete (pidFilePath e) (fs s))
                    (emitAll [EClearLogger; EIDClear] (set_logger false (set_isClear true s))))).
Proof.
  unfold clear. destruct (isClear s) eqn:Hc; [reflexivity|].
  unfold bind, modify, ClearLogger, do, removePid, os_Remove, ret. cbn.
  destruct (fs s !! pidFilePath e) eqn:Hf.
  - unfold emit, set_fs, emitAll. cbn. rewrite <- !app_assoc. reflexivity.
  - unfold emit, set_fs, emitAll. cbn. rewrite <- !app_assoc.
    rewrite (delete_id _ _ Hf). reflexivity.
Qed.

Lemma keeps_clear e : keeps e (clear e).
Proof.
  intros s H. rewrite clear_spec. simpl.
  unfold cleanedOnce in *. destruct (isClear s) eqn:Hc; [rewrite Hc; exact H|].
  cbn. unfold teardowns in *. rewrite !List.filter_app, H. reflexivity.
Qed.

Lemma clear_sets e s s' : clear e s = Ret tt s' -> isClear s' = true.
Proof.
  rewrite clear_spec. intros [= <-]. destruct (isClear s) eqn:Hc; auto.
Qed.

Lemma clear_twice e s :
  exists s1, clear e s = Ret tt s1 /\ isClear s1 = true /\ clear e s1 = Ret tt s1.
Proof.
  eexists. split; [apply clear_spec|].
  assert (H : isClear (if isClear s then s
          else emit (ERemove (pidFilePath e))
                 (set_fs (delete (pidFilePath e) (fs s))
                    (emitAll [EClearLogger; EIDClear] (set_logger false (set_isClear true s))))) = true).
  { destruct (isClear s) eqn:Hc; auto. }
  split; [exact H|]. rewrite clear_spec, H. reflexivity.
Qed.

#[local] Hint Resolve keeps_ret keeps_gets keeps_panic keeps_blocked keeps_osExit
  keeps_logs_Error keeps_getWorkPids keeps_sendSignal keeps_clear : keep.

Lemma keeps_serviceStop e : keeps e (serviceStop e).
Proof.
  unfold serviceStop. apply keeps_bind; [auto with keep|]. intros pids.
  apply keeps_bind; [|auto with keep].
  apply keeps_forEach. intros pid. apply keeps_bind; auto with keep.
Qed.

Lemma keeps_Stop e : keeps e (daemonExecutable_Stop e).
Proof.
  unfold daemonExecutable_Stop. apply keeps_bind.
  - apply keeps_modify. intros s. split; reflexivity.
  - intros _. apply keeps_serviceStop.
Qed.

Lemma keeps_happen e waiters ev : keeps e (happen e waiters ev).
Proof.
  destruct ev as [h code|]; simpl; [|apply keeps_Stop].
  apply keeps_modify. intros s. destruct (existsb _ _); split; reflexivity.
Qed.

Lemma keeps_monitorBody e i : keeps e (monitorBody i).
Proof.
  unfold monitorBody. apply keeps_bind; [auto with keep|]. intros ws.
  destruct (ws !! i); [|auto with keep].
  apply keeps_bind; [auto with keep|]. intros heap.
  destruct (heap !! cmd w); [|auto with keep].
  apply keeps_bind; [auto with keep|]. intros service.
  apply keeps_bind; [|auto with keep].
  apply keeps_if; [auto with keep|]. apply keeps_do. reflexivity.
Qed.

Lemma keeps_monitorLoop e waiters n : forall i sched,
  keeps e (monitorLoop e waiters i n sched).
Proof.
  induction n as [|n IH]; intros i sched; simpl; [auto with keep|].
  destruct sched as [|evs sched]; [auto with keep|].
  apply keeps_bind.
  - apply keeps_forEach. intros ev. apply keeps_happen.
  - intros _. apply keeps_bind; [auto with keep|]. intros heap.
    apply keeps_if; [auto with keep|].
    apply keeps_bind; [apply keeps_monitorBody|]. intros _.
    apply keeps_bind; [auto with keep|]. intros running.
    apply keeps_if; auto with keep.
Qed.

Lemma keeps_checkWorkProcess e sched : keeps e (checkWorkProcess e sched).
Proof.
  unfold checkWorkProcess. apply keeps_bind; [auto with keep|]. intros ws.
  apply keeps_bind; [apply keeps_monitorLoop | auto with keep].
Qed.

Lemma checkWorkProcess_returns_cleared e sched s s' :
  checkWorkProcess e sched s = Ret tt s' -> isClear s' = true.
Proof.
  unfold checkWorkProcess. unfold bind at 1, gets at 1.
  unfold bind. destruct (monitorLoop _ _ _ _ _ s) as [[] s1| | |]; try discriminate.
  apply clear_sets.
Qed.

(** ** The monitoring loop *)

Lemma setExit_length h code heap : length (setExit h code heap) = length heap.
Proof.
  unfold setExit. destruct (heap !! h) as [[argv [pid|] [st|]]|]; try reflexivity.
  apply length_insert.
Qed.

Lemma waiterDone_setExit_same h code heap : waiterDone (setExit h code heap) h = true.
Proof.
  unfold setExit. destruct (heap !! h) as [[argv [pid|] [st|]]|] eqn:Hh;
    try (unfold waiterDone; rewrite Hh; reflexivity).
  unfold waiterDone. rewrite list_lookup_insert_eq; [reflexivity|].
  eapply lookup_lt_Some; eauto.
Qed.

Lemma waiterDone_setExit_mono h code heap h' :
  waiterDone heap h' = true -> waiterDone (setExit h code heap) h' = true.
Proof.
  intros H. destruct (Nat.eq_dec h h') as [<-|Hne]; [apply waiterDone_setExit_same|].
  unfold setExit. destruct (heap !! h) as [[argv [pid|] [st|]]|]; try exact H.
  unfold waiterDone. rewrite list_lookup_insert_ne by exact Hne. exact H.
Qed.

(** Distinct waiters that are done are counted among the done waiters. *)
Lemma done_count (P : nat -> bool) d waiters :
  List.NoDup d -> incl d waiters -> (forall h, In h d -> P h = true) ->
  (length d <= length (List.filter P waiters))%nat.
Proof.
  intros Hn Hi Hp. apply NoDup_incl_length.
  - exact Hn.
  - intros h Hh. apply List.filter_In. split; [apply Hi, Hh | apply Hp, Hh].
Qed.

Lemma existsb_eqb_In h l : In h l -> existsb (Nat.eqb h) l = true.
Proof.
  intros H. apply existsb_exists. exists h. split; [exact H | apply Nat.eqb_refl].
Qed.

Lemma monitorBody_report i s w c :
  app_cmd (app s) !! i = Some w ->
  cmds s !! cmd w = Some c ->
  (flagService (flags s) = true -> logger s = true) ->
  monitorBody i s =
  Ret tt (emit (exitReport (flagService (flags s))
                  (match ProcessState c with Some code => Itoa code | None => "" end)) s).
Proof.
  intros Hw Hc Hl. unfold monitorBody.
  unfold bind at 1, gets at 1. rewrite Hw.
  unfold bind at 1, gets at 1. rewrite Hc.
  unfold bind at 1, gets at 1. unfold exitReport.
  destruct (flagService (flags s)) eqn:Hs.
  - unfold bind, logs_Error. rewrite (Hl eq_refl). reflexivity.
  - reflexivity.
Qed.

(** When the completions arrive one by one, the loop is never left waiting:
    the [i] workers received so far, and the one that just exited, are done,
    so more than [i] waiters have sent. *)
Lemma monitorLoop_arrival e waiters : forall order i s done,
  List.NoDup waiters ->
  List.NoDup (done ++ map fst order) ->
  incl (done ++ map fst order) waiters ->
  length done = i ->
  (forall h, In h done -> waiterDone (cmds s) h = true) ->
  app_runing (app s) = true ->
  (i + length order <= length (app_cmd (app s)))%nat ->
  wfStore s ->
  (flagService (flags s) = true -> logger s = true) ->
  exists lines s',
    monitorLoop e waiters i (length order) (arrival order) s = Ret tt s' /\
    trace s' = trace s ++ lines /\
    length lines = length order /\
    Forall (fun x => exists c, x = exitReport (flagService (flags s)) c) lines /\
    flags s' = flags s /\ isClear s' = isClear s /\ app s' = app s /\
    logger s' = logger s /\ fs s' = fs s.
Proof.
  induction order as [|[h code] rest IH]; intros i s done Hw Hn Hi Hd Hdone Hr Hlen Hwf Hlog.
  - exists [], s. simpl. rewrite app_nil_r. repeat split; auto.
  - simpl length. simpl arrival. cbn [monitorLoop].
    assert (Hin : In h waiters).
    { apply Hi. apply in_or_app. right. left. reflexivity. }
    unfold bind at 1. cbn [forEach fst snd]. unfold bind at 1. cbn [happen].
    unfold modify at 1. rewrite (existsb_eqb_In _ _ Hin). unfold ret at 1.
    set (s1 := set_cmds (setExit h code (cmds s)) s).
    unfold bind at 1, gets at 1.
    assert (Hcount : (length (List.filter (waiterDone (cmds s1)) waiters) <=? i)%nat = false).
    { apply Nat.leb_gt.
      assert (Hl : (length (done ++ [h]) <= length (List.filter (waiterDone (cmds s1)) waiters))%nat).
      { apply done_count.
        - change (map fst ((h, code) :: rest)) with ([h] ++ map fst rest) in Hn.
          rewrite app_assoc in Hn. exact (NoDup_app_remove_r _ _ Hn).
        - intros x Hx. apply Hi. simpl. apply in_app_or in Hx as [Hx|[<-|[]]];
            apply in_or_app; [left; exact Hx | right; left; reflexivity].
        - intros x Hx. subst s1. cbn [cmds set_cmds].
          apply in_app_or in Hx as [Hx|[<-|[]]].
          + apply waiterDone_setExit_mono, Hdone, Hx.
          + apply waiterDone_setExit_same. }
      rewrite length_app in Hl. subst s1. simpl in *. lia. }
    rewrite Hcount.
    assert (Hlt : (i < length (app_cmd (app s1)))%nat) by (subst s1; simpl in *; lia).
    destruct (lookup_lt_is_Some_2 _ _ Hlt) as [w Hwi].
    assert (Hcw : is_Some (cmds s1 !! cmd w)).
    { apply lookup_lt_is_Some_2. subst s1. cbn [cmds set_cmds].
      rewrite setExit_length. unfold wfStore in Hwf.
      rewrite Forall_forall in Hwf. apply Hwf.
      eapply list_elem_of_lookup_2. exact Hwi. }
    destruct Hcw as [c Hc].
    unfold bind at 1. rewrite (monitorBody_report i s1 w c Hwi Hc Hlog).
    assert (Hr' : forall x, app_runing (app (emit x s1)) = true) by (intros x; exact Hr).
    unfold bind at 1, gets at 1. rewrite Hr'.
    set (s2 := emit _ s1).
    destruct (IH (S i) s2 (done ++ [h])) as (lines & s' & Hrun & Htr & Hll & Hf & Hfl & Hic & Hap & Hlg & Hfs).
    + exact Hw.
    + rewrite <- app_assoc. exact Hn.
    + rewrite <- app_assoc. exact Hi.
    + rewrite length_app. simpl. lia.
    + intros x Hx. subst s2 s1. cbn [cmds emit set_cmds].
      apply in_app_or in Hx as [Hx|[<-|[]]].
      * apply waiterDone_setExit_mono, Hdone, Hx.
      * apply waiterDone_setExit_same.
    + exact Hr.
    + subst s2 s1. simpl in *. lia.
    + subst s2 s1. unfold wfStore in *. cbn [cmds emit set_cmds app].
      rewrite setExit_length. exact Hwf.
    + exact Hlog.
    + exists (exitReport (flagService (flags s))
                (match ProcessState c with Some code => Itoa code | None => "" end) :: lines), s'.
      split; [exact Hrun|]. split.
      { rewrite Htr. subst s2 s1. cbn [trace emit set_cmds flags]. rewrite <- app_assoc. reflexivity. }
      split; [simpl; lia|]. split.
      { constructor; [eexists; reflexivity | exact Hf]. }
      auto.
Qed.

(** ** The instance registry *)

(** Reading one line that holds no line feed. *)
Lemma readStrings_line v : forall cur rest,
  contains LF v = false ->
  readStrings cur (v +:+ String LF rest) = (cur +:+ v +:+ nl) :: readStrings "" rest.
Proof.
  induction v as [|c t IH]; intros cur rest H.
  - reflexivity.
  - rewrite contains_cons in H. apply orb_false_iff in H as [Hc Ht].
    change (String c t +:+ String LF rest) with (String c (t +:+ String LF rest)).
    cbn [readStrings]. rewrite Hc, (IH _ _ Ht), app_assoc_s. reflexivity.
Qed.

Lemma cleanPath_spec v :
  cleanPath v = true -> v <> "" /\ TrimSpace v = v /\ contains LF v = false.
Proof.
  unfold cleanPath. intros H.
  apply andb_true_iff in H as [H H3]. apply andb_true_iff in H as [H1 H2].
  apply negb_true_iff in H1, H3. apply String.eqb_neq in H1. apply String.eqb_eq in H2.
  auto.
Qed.

Lemma readStrings_lines vs :
  forallb cleanPath vs = true ->
  readStrings "" (registryLines vs) = map (fun v => v +:+ nl) vs ++ [""].
Proof.
  induction vs as [|v r IH]; simpl; [reflexivity|].
  intros H. apply andb_true_iff in H as [Hv Hr].
  destruct (cleanPath_spec v Hv) as (_ & _ & Hn).
  change (v +:+ nl +:+ registryLines r) with (v +:+ String LF (registryLines r)).
  rewrite (readStrings_line v "" _ Hn), (IH Hr). reflexivity.
Qed.

Lemma trimLeft_cases s :
  (startsWithSpace s = false /\ trimLeft s = s) \/
  (startsWithSpace s = true /\
   exists t, trimLeft s = trimLeft t /\ (String.length t < String.length s)%nat).
Proof.
  destruct s as [|c1 t1]; [left; split; reflexivity|].
  cbn [trimLeft startsWithSpace].
  destruct (isSpace c1).
  { right. split; [reflexivity|]. exists t1. split; [reflexivity|]. simpl. lia. }
  destruct t1 as [|c2 t2]; [left; split; reflexivity|].
  destruct (isSpace2 c1 c2).
  { right. split; [reflexivity|]. exists t2. split; [reflexivity|]. simpl. lia. }
  destruct t2 as [|c3 t3]; [left; split; reflexivity|].
  destruct (isSpace3 c1 c2 c3).
  { right. split; [reflexivity|]. exists t3. split; [reflexivity|]. simpl. lia. }
  left. split; reflexivity.
Qed.

Lemma trimLeft_facts n : forall s,
  (String.length s <= n)%nat ->
  (String.length (trimLeft s) <= String.length s)%nat /\
  startsWithSpace (trimLeft s) = false.
Proof.
  induction n as [|n IH]; intros s Hn.
  - destruct s; [split; [simpl; lia|reflexivity]|simpl in Hn; lia].
  - destruct (trimLeft_cases s) as [[Hs ->]|[_ (t & -> & Hl)]].
    + split; [lia|exact Hs].
    + destruct (IH t ltac:(lia)) as [H1 H2]. split; [lia|exact H2].
Qed.

Lemma trimLeft_length s : (String.length (trimLeft s) <= String.length s)%nat.
Proof. exact (proj1 (trimLeft_facts _ s (le_n _))). Qed.

Lemma trimLeft_clean s : startsWithSpace (trimLeft s) = false.
Proof. exact (proj2 (trimLeft_facts _ s (le_n _))). Qed.

Lemma trimLeft_fixed s : startsWithSpace s = false -> trimLeft s = s.
Proof.
  intros H. destruct (trimLeft_cases s) as [[_ Hs]|[Hs _]]; [exact Hs|congruence].
Qed.

Lemma trimLeft_fixed_inv s : trimLeft s = s -> startsWithSpace s = false.
Proof.
  intros H. destruct (trimLeft_cases s) as [[Hs _]|[_ (t & Ht & Hl)]]; [exact Hs|].
  pose proof (trimLeft_length t) as H1. rewrite <- Ht, H in H1. lia.
Qed.

Lemma trimRight_length s : (String.length (trimRight s) <= String.length s)%nat.
Proof.
  induction s as [|c t IH]; [simpl; lia|].
  cbn [trimRight]. destruct (trimRight t) as [|c' r].
  - destruct (isSpace c); simpl; lia.
  - destruct (isSpaceRune (String c (String c' r))); simpl in *; lia.
Qed.

Lemma trimRight_head c t :
  trimRight (String c t) = "" \/ trimRight (String c t) = String c (trimRight t).
Proof.
  cbn [trimRight]. destruct (trimRight t) as [|c' r].
  - destruct (isSpace c); auto.
  - destruct (isSpaceRune (String c (String c' r))); auto.
Qed.

Lemma trimRight_idem s : trimRight (trimRight s) = trimRight s.
Proof.
  induction s as [|c t IH]; [reflexivity|].
  cbn [trimRight]. destruct (trimRight t) as [|c' r] eqn:Ht.
  - destruct (isSpace c) eqn:Hc; [reflexivity|].
    cbn [trimRight]. rewrite Hc. reflexivity.
  - destruct (isSpaceRune (String c (String c' r))) eqn:Hr; [reflexivity|].
    change (trimRight (String c (String c' r)))
      with (match trimRight (String c' r) with
            | "" => if isSpace c then "" else String c ""
            | r0 => if isSpaceRune (String c r0) then "" else String c r0
            end).
    rewrite IH. cbv beta iota zeta. rewrite Hr. reflexivity.
Qed.

(** Appending a white-space character does not change what is left after
    trimming on the right. *)
Lemma trimRight_app_space sp v :
  trimRight sp = "" -> trimRight (v +:+ sp) = trimRight v.
Proof.
  intros Hsp. induction v as [|c t IH]; [exact Hsp|].
  cbn [append trimRight]. rewrite IH. reflexivity.
Qed.

Lemma trimRight_line v : trimRight (v +:+ nl) = trimRight v.
Proof. apply trimRight_app_space. reflexivity. Qed.

Lemma isSpace2_LF c : isSpace2 c LF = false.
Proof. unfold isSpace2. cbn. apply andb_false_r. Qed.

Lemma isSpace3_LF c1 c2 : isSpace3 c1 c2 LF = false.
Proof.
  unfold isSpace3. cbn. rewrite !andb_false_r. reflexivity.
Qed.

Lemma startsWithSpace_line v :
  v <> "" -> startsWithSpace v = false -> startsWithSpace (v +:+ nl) = false.
Proof.
  destruct v as [|c1 [|c2 [|c3 t3]]]; [contradiction| | |]; intros _ H;
    cbn [append startsWithSpace] in *.
  - rewrite orb_false_r in H. rewrite H. cbn [nl]. rewrite isSpace2_LF. reflexivity.
  - apply orb_false_iff in H as [H1 H2]. rewrite orb_false_r in H2.
    rewrite H1, H2. cbn [nl]. rewrite isSpace3_LF. reflexivity.
  - exact H.
Qed.

(** Trimming the line of a clean entry gives the entry back. *)
Lemma TrimSpace_line v : v <> "" -> TrimSpace v = v -> TrimSpace (v +:+ nl) = v.
Proof.
  unfold TrimSpace. intros Hne H.
  assert (Hl : trimLeft v = v).
  { destruct (trimLeft_cases v) as [[_ Hs]|[_ (t & Ht & Hlt)]]; [exact Hs|].
    exfalso. pose proof (trimRight_length (trimLeft v)) as H1.
    pose proof (trimLeft_length t) as H2. rewrite H in H1. rewrite Ht in H1. lia. }
  rewrite (trimLeft_fixed (v +:+ nl)).
  - rewrite trimRight_line. rewrite Hl in H. exact H.
  - apply startsWithSpace_line; [exact Hne|]. apply trimLeft_fixed_inv. exact Hl.
Qed.

Lemma startsWithSpace_trimRight s :
  startsWithSpace s = false -> startsWithSpace (trimRight s) = false.
Proof.
  destruct s as [|c1 t1]; [reflexivity|]. intros H.
  destruct (trimRight_head c1 t1) as [-> | ->]; [reflexivity|].
  destruct t1 as [|c2 t2]; [exact H|].
  cbn [startsWithSpace] in H. apply orb_false_iff in H as [H1 H].
  destruct (trimRight_head c2 t2) as [-> | ->];
    [cbn [startsWithSpace]; rewrite H1; reflexivity|].
  destruct t2 as [|c3 t3]; [cbn [startsWithSpace trimRight] in *; rewrite H1, H; reflexivity|].
  apply orb_false_iff in H as [H2 H3].
  destruct (trimRight_head c3 t3) as [-> | ->];
    cbn [startsWithSpace]; rewrite H1, H2, ?H3; reflexivity.
Qed.

(** Trimming twice is trimming once. *)
Lemma TrimSpace_idem s : TrimSpace (TrimSpace s) = TrimSpace s.
Proof.
  unfold TrimSpace.
  rewrite (trimLeft_fixed (trimRight (trimLeft s))).
  - apply trimRight_idem.
  - apply startsWithSpace_trimRight, trimLeft_clean.
Qed.

Lemma TrimSpace_fixed v : TrimSpace v = v -> trimLeft v = v /\ trimRight v = v.
Proof.
  unfold TrimSpace. intros H.
  assert (Hl : trimLeft v = v).
  { destruct (trimLeft_cases v) as [[_ Hs]|[_ (t & Ht & Hlt)]]; [exact Hs|].
    exfalso. pose proof (trimRight_length (trimLeft v)) as H1.
    pose proof (trimLeft_length t) as H2. rewrite H in H1. rewrite Ht in H1. lia. }
  split; [exact Hl|]. rewrite Hl in H. exact H.
Qed.

Lemma collectLines_lines vs :
  forallb cleanPath vs = true ->
  collectLines (map (fun v => v +:+ nl) vs ++ [""]) = vs.
Proof.
  induction vs as [|v r IH]; [reflexivity|].
  intros H. simpl in H. apply andb_true_iff in H as [Hv Hr].
  destruct (cleanPath_spec v Hv) as (Hne & Ht & _).
  simpl. rewrite (TrimSpace_line v Hne Ht).
  apply String.eqb_neq in Hne. rewrite Hne, (IH Hr). reflexivity.
Qed.

(** Whatever the lines, the entries kept are not empty and trimmed. *)
Lemma collectLines_entries rs :
  Forall (fun v => v <> "" /\ TrimSpace v = v) (collectLines rs).
Proof.
  induction rs as [|line r IH]; [constructor|].
  cbn [collectLines]. destruct (TrimSpace line =? "") eqn:He; [exact IH|].
  constructor; [|exact IH]. split.
  - apply String.eqb_neq. exact He.
  - apply TrimSpace_idem.
Qed.

(** [mgrList] reads a registry of clean entries back as it is. *)
Lemma mgrList_holds e s vs :
  isForce (flags s) = false ->
  forallb cleanPath vs = true ->
  holds e s vs ->
  mgrList e s = Ret vs s.
Proof.
  intros Hf Hc [H|[H ->]]; unfold mgrList; rewrite Hf, H; [|reflexivity].
  rewrite (readStrings_lines vs Hc), (collectLines_lines vs Hc). reflexivity.
Qed.

Lemma registryLines_app vs cf :
  registryLines vs +:+ cf +:+ nl = registryLines (vs ++ [cf]).
Proof.
  induction vs as [|v r IH].
  - reflexivity.
  - cbn [registryLines List.app]. rewrite <- IH, !app_assoc_s. reflexivity.
Qed.

Lemma existsb_eqb_str cf vs :
  existsb (fun v => v =? cf) vs = true <-> In cf vs.
Proof.
  rewrite existsb_exists. split.
  - intros (x & Hx & He). apply String.eqb_eq in He. subst. exact Hx.
  - intros H. exists cf. split; [exact H | apply String.eqb_refl].
Qed.

(** One [logMgr] without force appends the path unless it is listed. *)
Lemma logMgr_step e s vs :
  isForce (flags s) = false ->
  openDenied e (mgrFilePath e) = false ->
  writeFails e (mgrFilePath e) = false ->
  forallb cleanPath vs = true ->
  holds e s vs ->
  exists s', logMgr e s = Ret None s' /\ holds e s' (appended (ConfPath e) vs) /\
             flags s' = flags s.
Proof.
  intros Hf Ho Hw Hc Hh. unfold logMgr, appended.
  unfold bind. rewrite (mgrList_holds e s vs Hf Hc Hh).
  destruct (existsb _ vs) eqn:Hex.
  - exists s. auto.
  - rewrite Ho, Hf. cbn [fs set_fs]. rewrite Hw.
    eexists. split; [reflexivity|]. split; [|reflexivity].
    left. cbn [fs set_fs]. rewrite lookup_insert_eq. f_equal.
    destruct Hh as [H|[H ->]]; rewrite H; simpl.
    + apply registryLines_app.
    + reflexivity.
Qed.

Lemma appended_NoDup cf vs : List.NoDup vs -> List.NoDup (appended cf vs).
Proof.
  intros H. unfold appended. destruct (existsb _ vs) eqn:Hex; [exact H|].
  apply NoDup_rev in H. rewrite <- (rev_involutive (vs ++ [cf])).
  apply NoDup_rev. rewrite rev_app_distr. simpl. constructor; [|exact H].
  intros Hin. apply in_rev in Hin. apply existsb_eqb_str in Hin. congruence.
Qed.

Lemma appended_clean cf vs :
  cleanPath cf = true -> forallb cleanPath vs = true ->
  forallb cleanPath (appended cf vs) = true.
Proof.
  intros Hc Hv. unfold appended. destruct (existsb _ vs); [exact Hv|].
  rewrite forallb_app, Hv. simpl. rewrite Hc. reflexivity.
Qed.

Lemma appended_In cf vs : In cf (appended cf vs).
Proof.
  unfold appended. destruct (existsb _ vs) eqn:Hex.
  - apply existsb_eqb_str, Hex.
  - apply in_or_app. right. left. reflexivity.
Qed.

Lemma logMgr_repeat e n : forall s vs,
  isForce (flags s) = false ->
  openDenied e (mgrFilePath e) = false ->
  writeFails e (mgrFilePath e) = false ->
  cleanPath (ConfPath e) = true ->
  forallb cleanPath vs = true ->
  List.NoDup vs ->
  holds e s vs ->
  exists s' vs',
    repeatM n (logMgr e) s = Ret tt s' /\
    holds e s' vs' /\ List.NoDup vs' /\ forallb cleanPath vs' = true /\
    isForce (flags s') = false /\
    ((0 < n)%nat -> In (ConfPath e) vs').
Proof.
  induction n as [|n IH]; intros s vs Hf Ho Hw Hc Hv Hn Hh.
  - exists s, vs. simpl. repeat split; auto. lia.
  - destruct (logMgr_step e s vs Hf Ho Hw Hv Hh) as (s1 & Hrun & Hh1 & Hfl).
    destruct n as [|n'].
    + exists s1, (appended (ConfPath e) vs). simpl. unfold bind. rewrite Hrun.
      repeat split; auto using appended_NoDup, appended_clean, appended_In.
      congruence.
    + destruct (IH s1 (appended (ConfPath e) vs)) as (s' & vs' & Hr & Hh' & Hn' & Hc' & Hf' & Hin);
        auto using appended_NoDup, appended_clean; [congruence|].
      exists s', vs'. cbn [repeatM]. unfold bind at 1. rewrite Hrun.
      repeat split; auto. intros _. apply Hin. lia.
Qed.

Lemma fold_lines appList : forall acc,
  fold_left (fun cf v => cf +:+ v +:+ nl) appList acc = acc +:+ registryLines appList.
Proof.
  induction appList as [|v r IH]; intros acc; simpl.
  - rewrite app_nil_r_s. reflexivity.
  - rewrite IH. rewrite !app_assoc_s. reflexivity.
Qed.

Lemma syncMgr_rewrites e s appList c :
  fs s !! mgrFilePath e = Some c ->
  openDenied e (mgrFilePath e) = false ->
  writeFails e (mgrFilePath e) = false ->
  exists s', syncMgr e appList s = Ret None s' /\
             fs s' !! mgrFilePath e = Some (registryLines appList).
Proof.
  intros Hf Ho Hw. unfold syncMgr. rewrite Hf, Ho. cbn [fs set_fs]. rewrite Hw.
  eexists. split; [reflexivity|]. cbn [fs set_fs].
  rewrite lookup_insert_eq, fold_lines. reflexivity.
Qed.

Lemma logMgr_force e s :
  isForce (flags s) = true ->
  openDenied e (mgrFilePath e) = false ->
  writeFails e (mgrFilePath e) = false ->
  exists s', logMgr e s = Ret None s' /\
             fs s' !! mgrFilePath e = Some (ConfPath e +:+ nl).
Proof.
  intros Hf Ho Hw. unfold logMgr, bind, mgrList. rewrite Hf. simpl existsb. cbv iota.
  rewrite Ho. cbn [fs set_fs]. rewrite Hw.
  eexists. split; [reflexivity|]. cbn [fs set_fs]. rewrite lookup_insert_eq, Hf. reflexivity.
Qed.

(** The check works for a path that reads back as itself.  For every
    configuration path that is not empty, has no white space at either end
    and no line feed, and every registry file of such entries without
    duplicates: without force, any number of [logMgr] calls leaves a
    registry without duplicates, which holds the path once a call was made.
    With force, the check is skipped, [logMgr] truncates the file to that
    one path, and a following [syncMgr] rewrites it from the list it is
    given and nothing else. *)
Theorem registry_no_duplicates e s vs n :
  openDenied e (mgrFilePath e) = false ->
  writeFails e (mgrFilePath e) = false ->
  cleanPath (ConfPath e) = true ->
  forallb cleanPath vs = true ->
  List.NoDup vs ->
  holds e s vs ->
  (isForce (flags s) = false ->
   exists s' vs',
     repeatM n (logMgr e) s = Ret tt s' /\
     holds e s' vs' /\ List.NoDup vs' /\ mgrList e s' = Ret vs' s' /\
     ((0 < n)%nat -> In (ConfPath e) vs')) /\
  (isForce (flags s) = true ->
   exists s1,
     logMgr e s = Ret None s1 /\
     fs s1 !! mgrFilePath e = Some (ConfPath e +:+ nl) /\
     forall appList, exists s2,
       syncMgr e appList s1 = Ret None s2 /\
       fs s2 !! mgrFilePath e = Some (registryLines appList)).
Proof.
  intros Ho Hw Hc Hv Hn Hh. split; intros Hf.
  - destruct (logMgr_repeat e n s vs Hf Ho Hw Hc Hv Hn Hh)
      as (s' & vs' & Hr & Hh' & Hn' & Hc' & Hf' & Hin).
    exists s', vs'. repeat split; auto. apply mgrList_holds; auto.
  - destruct (logMgr_force e s Hf Ho Hw) as (s1 & Hr & Hfs).
    exists s1. repeat split; auto.
    intros appList. apply (syncMgr_rewrites e s1 appList _ Hfs Ho Hw).
Qed.

(** A path that trimming changes is never found among the entries read
    back, so [logMgr] without force appends it, whatever the registry
    holds. *)
Lemma logMgr_untrimmed e s :
  TrimSpace (ConfPath e) <> ConfPath e ->
  isForce (flags s) = false ->
  openDenied e (mgrFilePath e) = false ->
  writeFails e (mgrFilePath e) = false ->
  exists s',
    logMgr e s = Ret None s' /\
    fs s' !! mgrFilePath e =
      Some (default "" (fs s !! mgrFilePath e) +:+ ConfPath e +:+ nl) /\
    flags s' = flags s.
Proof.
  intros Ht Hf Ho Hw.
  assert (Hm : exists mls, mgrList e s = Ret mls s /\
                           existsb (fun v => v =? ConfPath e) mls = false).
  { unfold mgrList. rewrite Hf.
    destruct (fs s !! mgrFilePath e) as [c|]; [|exists []; split; reflexivity].
    eexists. split; [reflexivity|].
    destruct (existsb _ _) eqn:E; [|reflexivity]. exfalso.
    apply existsb_eqb_str in E.
    pose proof (collectLines_entries (readStrings "" c)) as Hall.
    rewrite List.Forall_forall in Hall. destruct (Hall _ E) as [_ Hfix].
    exact (Ht Hfix). }
  destruct Hm as (mls & Hm & Hex).
  unfold logMgr, bind. rewrite Hm, Hex, Ho, Hf. cbn [fs set_fs]. rewrite Hw.
  eexists. split; [reflexivity|]. cbn [fs set_fs flags].
  rewrite lookup_insert_eq. split; reflexivity.
Qed.

(** C7.  The check of [logMgr] against duplicates compares the entries as
    [mgrList] returns them, trimmed, with the configuration path as it is.
    For a path that trimming changes (white space at either end), without
    force, the check never finds the path: every call appends it once more,
    whatever the registry holds, and after [n] calls the registry file ends
    with [n] lines that hold the same path. *)
Theorem registry_untrimmed_path_duplicates e n : forall s,
  TrimSpace (ConfPath e) <> ConfPath e ->
  isForce (flags s) = false ->
  openDenied e (mgrFilePath e) = false ->
  writeFails e (mgrFilePath e) = false ->
  exists s',
    repeatM (S n) (logMgr e) s = Ret tt s' /\
    fs s' !! mgrFilePath e =
      Some (default "" (fs s !! mgrFilePath e)
            +:+ registryLines (repeat (ConfPath e) (S n))).
Proof.
  induction n as [|n IH]; intros s Ht Hf Ho Hw;
    destruct (logMgr_untrimmed e s Ht Hf Ho Hw) as (s1 & H1 & Hfs & Hfl).
  - exists s1. split.
    + cbn [repeatM]. unfold bind. rewrite H1. reflexivity.
    + rewrite Hfs. cbn [repeat registryLines]. rewrite app_nil_r_s. reflexivity.
  - rewrite <- Hfl in Hf.
    destruct (IH s1 Ht Hf Ho Hw) as (s' & Hr & Hfs').
    exists s'. split.
    + change (repeatM (S (S n)) (logMgr e)) with (_ <- logMgr e ;; repeatM (S n) (logMgr e)).
      unfold bind at 1. rewrite H1. exact Hr.
    + rewrite Hfs', Hfs. change (default "" (Some ?x)) with x.
      cbn [repeat registryLines]. rewrite !app_assoc_s. reflexivity.
Qed.

Lemma waiterDone_setExit_other h code heap h' :
  h <> h' -> waiterDone (setExit h code heap) h' = waiterDone heap h'.
Proof.
  intros Hne. unfold setExit.
  destruct (heap !! h) as [[argv [pid|] [st|]]|]; try reflexivity.
  unfold waiterDone. rewrite list_lookup_insert_ne by exact Hne. reflexivity.
Qed.

(** One iteration of the loop of [checkWorkProcess] on the exit of a
    waiter's process. *)
Lemma monitorLoop_step e waiters i n h code sched s done :
  List.NoDup (done ++ [h]) ->
  incl (done ++ [h]) waiters ->
  length done = i ->
  (forall x, In x done -> waiterDone (cmds s) x = true) ->
  (i < length (app_cmd (app s)))%nat ->
  wfStore s ->
  (flagService (flags s) = true -> logger s = true) ->
  exists c,
    monitorLoop e waiters i (S n) ([Exited h code] :: sched) s =
    (running <- gets (fun s => app_runing (app s)) ;;
     if running then monitorLoop e waiters (S i) n sched else ret tt)
      (emit (exitReport (flagService (flags s)) c)
         (set_cmds (setExit h code (cmds s)) s)).
Proof.
  intros Hn Hi Hd Hdone Hlen Hwf Hlog.
  cbn [monitorLoop].
  assert (Hin : In h waiters) by (apply Hi, in_or_app; right; left; reflexivity).
  unfold bind at 1. cbn [forEach]. unfold bind at 1. cbn [happen].
  unfold modify at 1. rewrite (existsb_eqb_In _ _ Hin). unfold ret at 1.
  set (s1 := set_cmds (setExit h code (cmds s)) s).
  unfold bind at 1, gets at 1.
  assert (Hcount : (length (List.filter (waiterDone (cmds s1)) waiters) <=? i)%nat = false).
  { apply Nat.leb_gt.
    assert (Hl : (length (done ++ [h]) <= length (List.filter (waiterDone (cmds s1)) waiters))%nat).
    { apply done_count; [exact Hn | exact Hi |].
      intros x Hx. subst s1. cbn [cmds set_cmds].
      apply in_app_or in Hx as [Hx|[<-|[]]].
      - apply waiterDone_setExit_mono, Hdone, Hx.
      - apply waiterDone_setExit_same. }
    rewrite length_app in Hl. subst s1. simpl in *. lia. }
  rewrite Hcount.
  destruct (lookup_lt_is_Some_2 (app_cmd (app s1)) i Hlen) as [w Hwi].
  assert (Hcw : is_Some (cmds s1 !! cmd w)).
  { apply lookup_lt_is_Some_2. subst s1. cbn [cmds set_cmds].
    rewrite setExit_length. unfold wfStore in Hwf.
    rewrite Forall_forall in Hwf. apply Hwf.
    eapply list_elem_of_lookup_2. exact Hwi. }
  destruct Hcw as [c Hc].
  unfold bind at 1. rewrite (monitorBody_report i s1 w c Hwi Hc Hlog).
  eexists. reflexivity.
Qed.

(** While completions arrive one by one and some are still missing, the
    loop goes on, and it is left waiting when the schedule ends. *)
Lemma monitorLoop_short e waiters : forall order i n s done,
  List.NoDup (done ++ map fst order) ->
  incl (done ++ map fst order) waiters ->
  length done = i ->
  (forall x, In x done -> waiterDone (cmds s) x = true) ->
  app_runing (app s) = true ->
  (i + n <= length (app_cmd (app s)))%nat ->
  (length order < n)%nat ->
  wfStore s ->
  (flagService (flags s) = true -> logger s = true) ->
  exists lines s',
    monitorLoop e waiters i n (arrival order) s = Blocked s' /\
    trace s' = trace s ++ lines /\
    length lines = length order /\
    isClear s' = isClear s /\ fs s' = fs s /\ app s' = app s /\
    (forall x, waiterDone (cmds s') x = true <->
               waiterDone (cmds s) x = true \/ In x (map fst order)).
Proof.
  induction order as [|[h code] rest IH]; intros i n s done Hn Hi Hd Hdone Hr Hlen Hlt Hwf Hlog.
  - destruct n as [|n]; [simpl in Hlt; lia|].
    exists [], s. simpl. rewrite app_nil_r. repeat split; auto. intros [H|[]]. exact H.
  - destruct n as [|n]; [simpl in Hlt; lia|].
    change (map fst ((h, code) :: rest)) with ([h] ++ map fst rest) in Hn, Hi.
    rewrite app_assoc in Hn, Hi.
    destruct (monitorLoop_step e waiters i n h code (arrival rest) s done)
      as (c & Hstep).
    + exact (NoDup_app_remove_r _ _ Hn).
    + intros x Hx. apply Hi, in_or_app. left. exact Hx.
    + exact Hd.
    + exact Hdone.
    + simpl in Hlen. lia.
    + exact Hwf.
    + exact Hlog.
    + cbn [arrival map fst snd]. fold (arrival rest). rewrite Hstep.
      unfold bind at 1, gets at 1. cbn [app emit set_cmds]. rewrite Hr.
      set (s2 := emit _ _).
      destruct (IH (S i) n s2 (done ++ [h]))
        as (lines & s' & Hrun & Htr & Hll & Hic & Hfs & Hap & Hdn).
      * exact Hn.
      * exact Hi.
      * rewrite length_app. simpl. lia.
      * intros x Hx. subst s2. cbn [cmds emit set_cmds].
        apply in_app_or in Hx as [Hx|[<-|[]]].
        -- apply waiterDone_setExit_mono, Hdone, Hx.
        -- apply waiterDone_setExit_same.
      * exact Hr.
      * subst s2. simpl in *. lia.
      * simpl in Hlt. lia.
      * subst s2. unfold wfStore in *. cbn [cmds emit set_cmds app].
        rewrite setExit_length. exact Hwf.
      * exact Hlog.
      * eexists (_ :: lines), s'. split; [exact Hrun|].
        split. { rewrite Htr. subst s2. cbn [trace emit set_cmds]. rewrite <- app_assoc. reflexivity. }
        split; [simpl; lia|]. split; [exact Hic|]. split; [exact Hfs|]. split; [exact Hap|].
        intros x. rewrite Hdn. subst s2. cbn [cmds emit set_cmds]. simpl.
        destruct (Nat.eq_dec h x) as [<-|Hne].
        -- rewrite waiterDone_setExit_same. tauto.
        -- rewrite (waiterDone_setExit_other _ _ _ _ Hne). tauto.
Qed.

(** Monitoring ends when the completions of all running entries arrive one
    by one, in any order. *)
Lemma checkWorkProcess_arrival e s order :
  app_runing (app s) = true ->
  wfStore s ->
  Permutation (map fst order) (map cmd (List.filter runing (app_cmd (app s)))) ->
  List.NoDup (map fst order) ->
  (flagService (flags s) = true -> logger s = true) ->
  exists lines s1 s',
    checkWorkProcess e (arrival order) s = Ret tt s' /\
    length lines = length (List.filter runing (app_cmd (app s))) /\
    Forall (fun x => exists c, x = exitReport (flagService (flags s)) c) lines /\
    trace s1 = trace s ++ lines /\
    isClear s1 = isClear s /\
    clear e s1 = Ret tt s'.
Proof.
  intros Hr Hwf Hp Hn Hlog.
  assert (Hlen : length order = length (List.filter runing (app_cmd (app s)))).
  { apply Permutation_length in Hp. rewrite !length_map in Hp. exact Hp. }
  destruct (monitorLoop_arrival e (map cmd (List.filter runing (app_cmd (app s))))
              order 0%nat s []) as (lines & s1 & Hrun & Htr & Hll & Hf & Hfl & Hic & Hap & Hlg & Hfs).
  - eapply Permutation_NoDup; eauto.
  - exact Hn.
  - intros h Hh. eapply Permutation_in; eauto.
  - reflexivity.
  - intros h [].
  - exact Hr.
  - rewrite Hlen. simpl. apply List.filter_length_le.
  - exact Hwf.
  - exact Hlog.
  - destruct (clear_twice e s1) as (s' & Hc & _).
    exists lines, s1, s'. unfold checkWorkProcess.
    unfold bind at 1, gets at 1. rewrite length_map, <- Hlen.
    unfold bind. rewrite Hrun. repeat split; auto.
Qed.

(** The body of the loop returns for every position of the registry, and
    leaves the registry and the store as they are. *)
Lemma monitorBody_returns i s :
  (i < length (app_cmd (app s)))%nat ->
  wfStore s ->
  exists s', monitorBody i s = Ret tt s' /\ app s' = app s /\ cmds s' = cmds s.
Proof.
  intros Hi Hwf.
  destruct (lookup_lt_is_Some_2 (app_cmd (app s)) i Hi) as [w Hw].
  assert (Hc : is_Some (cmds s !! cmd w)).
  { apply lookup_lt_is_Some_2. unfold wfStore in Hwf.
    rewrite Forall_forall in Hwf. apply Hwf.
    eapply list_elem_of_lookup_2. exact Hw. }
  destruct Hc as [c Hc]. unfold monitorBody.
  unfold bind at 1, gets at 1. rewrite Hw.
  unfold bind at 1, gets at 1. rewrite Hc.
  unfold bind at 1, gets at 1.
  destruct (flagService (flags s)).
  - unfold bind, logs_Error. destruct (logger s); eexists; (split; [reflexivity|]);
      split; reflexivity.
  - eexists. split; [reflexivity|]. split; reflexivity.
Qed.

Lemma clear_keeps e s s' :
  clear e s = Ret tt s' -> app s' = app s /\ cmds s' = cmds s.
Proof.
  rewrite clear_spec. intros [= <-]. destruct (isClear s); split; reflexivity.
Qed.

(** The loop is left at the first receive once the running flag is
    cleared: monitoring then goes to the cleanup and returns. *)
Lemma checkWorkProcess_break e s evs rest s1 h :
  forEach evs (happen e (map cmd (List.filter runing (app_cmd (app s))))) s = Ret tt s1 ->
  In h (map cmd (List.filter runing (app_cmd (app s)))) ->
  waiterDone (cmds s1) h = true ->
  app_runing (app s1) = false ->
  app_cmd (app s1) = app_cmd (app s) ->
  wfStore s1 ->
  exists s', checkWorkProcess e (evs :: rest) s = Ret tt s' /\ app s' = app s1.
Proof.
  intros Hev Hin Hd Hr Hcmd Hwf.
  unfold checkWorkProcess. unfold bind at 1, gets at 1.
  set (waiters := map cmd (List.filter runing (app_cmd (app s)))) in *.
  assert (Hpos : (0 < length waiters)%nat) by (destruct waiters; [destruct Hin | simpl; lia]).
  destruct (length waiters) as [|n] eqn:Hl; [lia|].
  assert (Hlen : (0 < length (app_cmd (app s1)))%nat).
  { rewrite Hcmd. subst waiters. rewrite length_map in Hl.
    pose proof (List.filter_length_le runing (app_cmd (app s))). lia. }
  assert (Hcount : (length (List.filter (waiterDone (cmds s1)) waiters) <=? 0)%nat = false).
  { apply Nat.leb_gt.
    assert (Hle : (length [h] <= length (List.filter (waiterDone (cmds s1)) waiters))%nat).
    { apply done_count.
      - constructor; [intros [] | constructor].
      - intros x [<-|[]]. exact Hin.
      - intros x [<-|[]]. exact Hd. }
    simpl in Hle. lia. }
  destruct (monitorBody_returns 0 s1 Hlen Hwf) as (s2 & Hb & Ha & _).
  assert (Hloop : monitorLoop e waiters 0 (S n) (evs :: rest) s = Ret tt s2).
  { cbn [monitorLoop]. unfold bind at 1. rewrite Hev.
    unfold bind at 1, gets at 1. rewrite Hcount.
    unfold bind at 1. rewrite Hb.
    unfold bind at 1, gets at 1. rewrite Ha, Hr. reflexivity. }
  unfold bind. rewrite Hloop.
  destruct (clear_twice e s2) as (s' & Hc & _). exists s'. split; [exact Hc|].
  destruct (clear_keeps e s2 s' Hc) as [Ha' _]. rewrite Ha', Ha. reflexivity.
Qed.

(** C9.  From a state that was not cleaned ([isClear] unset, no cleanup
    step taken): whatever the schedule, monitoring takes the cleanup steps
    (logger teardown, id teardown, pid file removal) at most once, and when
    it returns they were taken exactly once and a further [clear] changes
    nothing.  It returns, with the cleanup done once, when the completions
    of all tracked units arrive, in any order.  It waits for them: while
    fewer units have completed than are tracked, it has not returned and no
    cleanup step was taken.  The cleared running flag ends it at the next
    completion, whatever else is scheduled: when the flag was cleared
    beforehand, and when the service manager stops the master while it
    monitors, in which case the cleanup is the one of the stop and is not
    repeated.  [clear] is idempotent: a second call changes nothing. *)
Theorem cleanup_exactly_once e s sched :
  isClear s = false ->
  teardowns (trace s) = [] ->
  (teardowns (trace (final (checkWorkProcess e sched s))) = [] \/
   teardowns (trace (final (checkWorkProcess e sched s))) = cleanup e) /\
  (forall s', checkWorkProcess e sched s = Ret tt s' ->
     teardowns (trace s') = cleanup e /\ clear e s' = Ret tt s') /\
  (forall order,
     app_runing (app s) = true ->
     wfStore s ->
     Permutation (map fst order) (map cmd (List.filter runing (app_cmd (app s)))) ->
     List.NoDup (map fst order) ->
     (flagService (flags s) = true -> logger s = true) ->
     exists s', checkWorkProcess e (arrival order) s = Ret tt s' /\
                teardowns (trace s') = cleanup e) /\
  (forall order,
     app_runing (app s) = true ->
     wfStore s ->
     Forall (fun h => waiterDone (cmds s) h = false)
            (map cmd (List.filter runing (app_cmd (app s)))) ->
     List.NoDup (map fst order) ->
     incl (map fst order) (map cmd (List.filter runing (app_cmd (app s)))) ->
     (length order < length (List.filter runing (app_cmd (app s))))%nat ->
     (flagService (flags s) = true -> logger s = true) ->
     exists s', checkWorkProcess e (arrival order) s = Blocked s' /\
                isClear s' = false /\ teardowns (trace s') = []) /\
  (forall h code rest,
     app_runing (app s) = false ->
     wfStore s ->
     In h (map cmd (List.filter runing (app_cmd (app s)))) ->
     exists s', checkWorkProcess e ([Exited h code] :: rest) s = Ret tt s' /\
                teardowns (trace s') = cleanup e) /\
  (forall h code rest master pipe pids,
     wfStore s ->
     In h (map cmd (List.filter runing (app_cmd (app s)))) ->
     fs s !! pidFilePath e = Some (pidRecord master pipe pids) ->
     contains ":" pipe = false ->
     forallb inInt pids = true ->
     exists s', checkWorkProcess e ([StopCallback; Exited h code] :: rest) s = Ret tt s' /\
                teardowns (trace s') = cleanup e /\
                app_runing (app s') = false) /\
  (forall s0, exists s1, clear e s0 = Ret tt s1 /\ clear e s1 = Ret tt s1).
Proof.
  intros Hc Ht.
  assert (H0 : cleanedOnce e s) by (unfold cleanedOnce; rewrite Hc; exact Ht).
  assert (HR : forall sc s', checkWorkProcess e sc s = Ret tt s' ->
                 teardowns (trace s') = cleanup e /\ clear e s' = Ret tt s').
  { intros sc s' Hr.
    pose proof (keeps_checkWorkProcess e sc s H0) as Hk. rewrite Hr in Hk. simpl in Hk.
    pose proof (checkWorkProcess_returns_cleared e sc s s' Hr) as Hs.
    unfold cleanedOnce in Hk. rewrite Hs in Hk. split; [exact Hk|].
    rewrite clear_spec, Hs. reflexivity. }
  split; [|split; [|split; [|split; [|split; [|split]]]]].
  - pose proof (keeps_checkWorkProcess e sched s H0) as Hk. unfold cleanedOnce in Hk.
    destruct (isClear (final (checkWorkProcess e sched s))); auto.
  - apply HR.
  - intros order Hr Hwf Hp Hn Hlog.
    destruct (checkWorkProcess_arrival e s order Hr Hwf Hp Hn Hlog)
      as (lines & s1 & s' & Hrun & _).
    exists s'. split; [exact Hrun|]. apply (HR _ _ Hrun).
  - intros order Hr Hwf Hnone Hn Hi Hlt Hlog.
    destruct (monitorLoop_short e (map cmd (List.filter runing (app_cmd (app s))))
                order 0%nat (length (map cmd (List.filter runing (app_cmd (app s))))) s [])
      as (lines & s' & Hrun & _ & _ & Hic & _);
      [ exact Hn | exact Hi | reflexivity | intros x []
      | exact Hr
      | rewrite length_map; apply List.filter_length_le
      | rewrite length_map; exact Hlt
      | exact Hwf | exact Hlog | ].
    assert (Hb : checkWorkProcess e (arrival order) s = Blocked s').
    { unfold checkWorkProcess. unfold bind at 1, gets at 1. unfold bind.
      rewrite Hrun. reflexivity. }
    exists s'. split; [exact Hb|]. rewrite Hic. split; [exact Hc|].
    pose proof (keeps_checkWorkProcess e (arrival order) s H0) as Hk.
    rewrite Hb in Hk. simpl in Hk. unfold cleanedOnce in Hk.
    rewrite Hic, Hc in Hk. exact Hk.
  - intros h code rest Hr Hwf Hin.
    destruct (checkWorkProcess_break e s [Exited h code] rest
                (set_cmds (setExit h code (cmds s)) s) h) as (s' & Hrun & _).
    + cbn [forEach happen]. unfold bind, modify, ret.
      rewrite (existsb_eqb_In _ _ Hin). reflexivity.
    + exact Hin.
    + apply waiterDone_setExit_same.
    + exact Hr.
    + reflexivity.
    + unfold wfStore in *. cbn [cmds set_cmds app]. rewrite setExit_length. exact Hwf.
    + exists s'. split; [exact Hrun|]. apply (HR _ _ Hrun).
  - intros h code rest master pipe pids Hwf Hin Hfs Hpipe Hpids.
    set (s0 := set_app (set_app_runing false (app s)) s).
    set (s1 := emitAll (flat_map (signalEffects e SIGINT) pids) s0).
    destruct (clear_twice e s1) as (s2 & Hcl & _).
    destruct (clear_keeps e s1 s2 Hcl) as [Ha Hcm].
    assert (Hev : forEach [StopCallback; Exited h code]
                    (happen e (map cmd (List.filter runing (app_cmd (app s))))) s
                  = Ret tt (set_cmds (setExit h code (cmds s2)) s2)).
    { cbn [forEach happen]. unfold daemonExecutable_Stop.
      unfold bind at 1. unfold bind at 1, modify at 1. fold s0.
      unfold serviceStop. unfold bind at 1.
      rewrite (getWorkPids_record e s0 master pipe pids Hfs Hpipe Hpids).
      unfold bind at 1. rewrite signal_fanout. fold s1. rewrite Hcl.
      unfold bind, modify, ret. rewrite (existsb_eqb_In _ _ Hin). reflexivity. }
    destruct (checkWorkProcess_break e s [StopCallback; Exited h code] rest
                (set_cmds (setExit h code (cmds s2)) s2) h Hev Hin) as (s' & Hrun & Happ).
    + apply waiterDone_setExit_same.
    + cbn [app set_cmds]. rewrite Ha. reflexivity.
    + cbn [app set_cmds]. rewrite Ha. reflexivity.
    + unfold wfStore in *. cbn [cmds set_cmds app]. rewrite setExit_length, Ha, Hcm.
      exact Hwf.
    + exists s'. split; [exact Hrun|]. split; [apply (HR _ _ Hrun)|].
      rewrite Happ. cbn [app set_cmds]. rewrite Ha. reflexivity.
  - intros s0. destruct (clear_twice e s0) as (s1 & H1 & _ & H2). eauto.
Qed.

(** ** Mode resolution *)

(** The resolved flags in closed form. *)
Lemma resolveFlags_closed args raw :
  resolveFlags args raw =
  mkFlags (flagDevelop raw)
    (negb (flagDevelop raw || flagStop raw || flagReload raw ||
           (flagDaemon raw && negb (installed args raw)) ||
           installed args raw || isUninstall raw || flagService raw) &&
     ((length args =? 0)%nat || flagStart raw))
    (flagStop raw) (flagReload raw)
    (flagDaemon raw && negb (installed args raw))
    (installed args raw) (isUninstall raw) (isForce raw) (flagService raw)
    (flagService raw || isMaster raw)
    (flagConf raw) (flagName raw) (flagAppKey raw) (flagPipe raw) (flagPPid raw).
Proof.
  destruct raw as [dv st sp rl dm ins un fo sv ma cf nm ak pp pd].
  unfold resolveFlags, installed. cbn [flagName].
  generalize (length args =? 0)%nat,
    (existsb (fun k => HasPrefix k "-install") args).
  intros b0 b2.
  destruct b0; cbn [flagName set_flagStart]; generalize (nm =? ""); intros b1; cbn;
  repeat (match goal with
          | |- context [if ?b then _ else _] => is_var b; destruct b
          | |- context [orb ?b _] => is_var b; destruct b
          | |- context [andb ?b _] => is_var b; destruct b
          | |- context [negb ?b] => is_var b; destruct b
          end; cbn);
    reflexivity.
Qed.

(** C2.  Whatever the flag set holds after parsing: with no argument
    the mode is Start; a name that is not empty implies install; develop,
    stop, reload, daemon, install or service, as given or as resolved, turn
    start off; install turns daemon off; service turns master on.  The
    dispatch of [Command] then takes exactly one branch, and it is Start only
    when no other mode flag is set. *)
Theorem mode_precedence (args : list string) (raw : Flags) :
  (flagStart (resolveFlags [] defaultFlags) = true /\
   Command_mode (resolveFlags [] defaultFlags) = Start /\
   forall ParseInt, parseCommandLine ParseInt [] = Some (resolveFlags [] defaultFlags)) /\
  (flagName raw <> "" -> isInstall (resolveFlags args raw) = true) /\
  (flagDevelop raw = true \/ flagStop raw = true \/ flagReload raw = true \/
   flagDaemon raw = true \/ isInstall raw = true \/ flagService raw = true ->
   flagStart (resolveFlags args raw) = false) /\
  (flagDevelop (resolveFlags args raw) = true \/ flagStop (resolveFlags args raw) = true \/
   flagReload (resolveFlags args raw) = true \/ flagDaemon (resolveFlags args raw) = true \/
   isInstall (resolveFlags args raw) = true \/ flagService (resolveFlags args raw) = true ->
   flagStart (resolveFlags args raw) = false) /\
  (isInstall (resolveFlags args raw) = true -> flagDaemon (resolveFlags args raw) = false) /\
  (flagService (resolveFlags args raw) = true -> isMaster (resolveFlags args raw) = true) /\
  (exists! m, Command_mode (resolveFlags args raw) = m) /\
  (Command_mode (resolveFlags args raw) = Start -> noOtherMode (resolveFlags args raw)).
Proof.
  split; [repeat split|].
  rewrite resolveFlags_closed. unfold Command_mode, noOtherMode. cbn.
  split; [|split; [|split; [|split; [|split; [|split]]]]].
  - intros H. apply String.eqb_neq in H. unfold installed. rewrite H.
    destruct (isInstall raw); reflexivity.
  - intros H. apply andb_false_iff. left. apply negb_false_iff.
    assert (Hi : isInstall raw = true -> installed args raw = true)
      by (unfold installed; intros ->; reflexivity).
    destruct (installed args raw), (flagDevelop raw), (flagStop raw), (flagReload raw),
      (flagDaemon raw), (flagService raw), (isUninstall raw); try reflexivity;
      destruct H as [H|[H|[H|[H|[H|H]]]]];
      first [discriminate H | discriminate (Hi H)].
  - intros H. apply andb_false_iff. left. apply negb_false_iff.
    destruct (installed args raw), (flagDevelop raw), (flagStop raw), (flagReload raw),
      (flagDaemon raw), (flagService raw), (isUninstall raw); try reflexivity; cbn in H;
      destruct H as [H|[H|[H|[H|[H|H]]]]]; discriminate H.
  - intros ->. apply andb_false_r.
  - intros ->. reflexivity.
  - eexists. split; [reflexivity | intros m' <-; reflexivity].
  - destruct ((length args =? 0)%nat || flagStart raw), (installed args raw),
      (flagDevelop raw), (flagStop raw), (flagReload raw), (flagDaemon raw),
      (isUninstall raw), (flagService raw); cbn; intros H; try discriminate H;
      repeat split.
Qed.

(** ** Spawning *)

(** The loop of [doStart] appends one running entry and one command per
    configured unit, whether or not the command started. *)
Lemma spawn_loop e s0 confs : forall s,
  pipeName (app s) = pipeName (app s0) -> flags s = flags s0 ->
  exists s',
    forEach confs (spawnOne e) s = Ret tt s' /\
    app_cmd (app s') = app_cmd (app s) ++ spawnedWorks (length (cmds s)) confs /\
    cmds s' = cmds s ++ spawnedCmds e s0 (length (cmds s)) confs /\
    pipeName (app s') = pipeName (app s) /\ flags s' = flags s /\
    fs s' = fs s /\ isClear s' = isClear s /\ logger s' = logger s.
Proof.
  induction confs as [|c r IH]; intros s Hp Hf.
  - exists s. simpl. rewrite !app_nil_r. repeat split; reflexivity.
  - cbn [forEach]. unfold bind at 1, spawnOne at 1.
    unfold bind at 1, gets at 1. unfold bind at 1, startCommand at 1.
    unfold modify at 1.
    match goal with |- context [forEach r (spawnOne e) ?x] => set (s1 := x) end.
    destruct (IH s1) as (s' & Hrun & Ha & Hc & Hp' & Hf' & Hfs & Hic & Hlg);
      [exact Hp | exact Hf |].
    exists s'. split; [exact Hrun|].
    subst s1. cbn [app cmds set_app set_cmds emit app_cmd set_app_cmd pipeName flags fs isClear logger] in *.
    rewrite length_app in *. simpl length in *.
    replace (length (cmds s) + 1)%nat with (S (length (cmds s))) in * by lia.
    repeat split; auto.
    + rewrite Ha, <- app_assoc. reflexivity.
    + rewrite Hc, <- app_assoc. simpl.
      unfold workerArgs. rewrite Hp, Hf. reflexivity.
Qed.

Lemma workerPids_none heap ws w :
  In w ws -> runing w = true -> procPid heap w = None -> workerPids heap ws = None.
Proof.
  intros Hin Hr Hp. induction ws as [|p r IH]; [contradiction|].
  simpl. destruct Hin as [->|Hin].
  - rewrite Hr, Hp. reflexivity.
  - rewrite (IH Hin). destruct (runing p); [|reflexivity].
    destruct (procPid heap p); reflexivity.
Qed.

Lemma pidList_none heap ws : forall index pids,
  workerPids heap ws = None -> pidList heap index ws pids = None.
Proof.
  induction ws as [|p r IH]; intros index pids H; simpl in *; [discriminate|].
  destruct (runing p); [|apply IH, H].
  unfold procPid in H.
  destruct (heap !! cmd p) as [[argv [pid|] st]|]; try reflexivity.
  apply IH. destruct (workerPids heap r); [discriminate | reflexivity].
Qed.

Lemma spawnedWorks_lookup base confs i c :
  confs !! i = Some c ->
  spawnedWorks base confs !! i = Some (mkWork (Key c) (base + i) true 0).
Proof.
  revert base i. induction confs as [|c' r IH]; intros base i H; [discriminate|].
  destruct i as [|i]; simpl in *.
  - injection H as ->. rewrite Nat.add_0_r. reflexivity.
  - rewrite (IH (S base) i H). f_equal. f_equal. lia.
Qed.

Lemma spawnedCmds_lookup e s base confs i c :
  confs !! i = Some c ->
  spawnedCmds e s base confs !! i =
    Some (mkCmd (workerArgs e (Key c) s) (procStart e (base + i)) None).
Proof.
  revert base i. induction confs as [|c' r IH]; intros base i H; [discriminate|].
  destruct i as [|i]; simpl in *.
  - injection H as ->. rewrite Nat.add_0_r. reflexivity.
  - rewrite (IH (S base) i H). do 3 f_equal. lia.
Qed.

Lemma spawnedWorks_runing base confs :
  Forall (fun w => runing w = true) (spawnedWorks base confs).
Proof.
  revert base. induction confs as [|c r IH]; intros base; simpl; constructor; auto.
Qed.

Lemma spawnedWorks_keys base confs : map key (spawnedWorks base confs) = map Key confs.
Proof.
  revert base. induction confs as [|c r IH]; intros base; simpl; [reflexivity|].
  rewrite IH. reflexivity.
Qed.

(** A unit that cannot be started is recorded as running all the same, and
    the pid file is truncated; then [logPid] reads the pid of a process that
    does not exist. *)
Lemma doStart_spawn_failure e s i c :
  Confs e !! i = Some c ->
  procStart e (length (cmds s) + i) = None ->
  openDenied e (pidFilePath e) = false ->
  exists msg s',
    doStart e s = Panic msg s' /\
    map key (app_cmd (app s')) = map Key (Confs e) /\
    Forall (fun w => runing w = true) (app_cmd (app s')) /\
    fs s' !! pidFilePath e = Some "".
Proof.
  intros Hc Hp Ho. unfold doStart. cbv zeta.
  unfold bind at 1, modify at 1.
  unfold bind at 1, gets at 1.
  set (s1 := set_app _ s).
  assert (Hpre : exists s2,
    (if flagService (flags s1)
     then logs_Info ("service=" +:+ ConfPath e +:+ ",master pid=" +:+ Itoa (Getpid e))
     else do (EPrintln ("start=" +:+ ConfPath e +:+ ",master pid=" +:+ Itoa (Getpid e)))) s1
    = Ret tt s2 /\ cmds s2 = cmds s /\ flags s2 = flags s1).
  { destruct (flagService (flags s1)).
    - unfold logs_Info. destruct (logger s1); eexists; split; try reflexivity; auto.
    - eexists. split; [reflexivity|]. auto. }
  destruct Hpre as (s2 & Hrun2 & Hc2 & Hf2).
  unfold bind at 1. rewrite Hrun2.
  unfold bind at 1, modify at 1.
  set (s3 := set_app _ s2).
  destruct (spawn_loop e s3 (Confs e) s3 eq_refl eq_refl)
    as (s4 & Hrun & Ha & Hcm & Hpn & Hfl & Hfs & _).
  unfold bind at 1. rewrite Hrun.
  assert (Hlen : length (cmds s3) = length (cmds s)) by (subst s3; simpl; rewrite Hc2; reflexivity).
  assert (Hpanic : exists s', logPid e s4 =
            Panic "invalid memory address or nil pointer dereference" s' /\
            app s' = app s4 /\ fs s' !! pidFilePath e = Some "").
  { unfold logPid. rewrite Ho. cbn [cmds app set_fs].
    rewrite pidList_none.
    - eexists. split; [reflexivity|]. split; [reflexivity|].
      cbn [fs set_fs]. apply lookup_insert_eq.
    - apply (workerPids_none _ _ (mkWork (Key c) (length (cmds s3) + i) true 0)).
      + rewrite Ha. subst s3. cbn [app app_cmd set_app set_app_cmd]. simpl.
        eapply list_elem_of_In, list_elem_of_lookup_2.
        apply spawnedWorks_lookup. exact Hc.
      + reflexivity.
      + unfold procPid. cbn [cmd]. rewrite Hcm.
        rewrite lookup_app_r by lia.
        replace (length (cmds s3) + i - length (cmds s3))%nat with i by lia.
        rewrite (spawnedCmds_lookup e s3 _ _ i c Hc). cbn [Process].
        rewrite Hlen. exact Hp. }
  destruct Hpanic as (s' & Hlp & Has & Hfs').
  unfold bind at 1. rewrite Hlp.
  exists "invalid memory address or nil pointer dereference", s'.
  split; [reflexivity|]. rewrite Has, Ha.
  subst s3. cbn [app app_cmd set_app set_app_cmd]. simpl.
  split; [apply spawnedWorks_keys|]. split; [apply spawnedWorks_runing | exact Hfs'].
Qed.

(** ** The claims on the sample runs *)


Lemma exStarted_wf : wfStore exStarted.
Proof. unfold wfStore. vm_compute. repeat constructor. Qed.

Lemma exOrder_perm :
  Permutation (map fst exOrder) (map cmd (List.filter runing (app_cmd (app exStarted)))).
Proof. vm_compute. apply perm_swap. Qed.

Lemma exOrder_NoDup : List.NoDup (map fst exOrder).
Proof.
  vm_compute. repeat constructor; simpl; intuition discriminate.
Qed.



Lemma mode_precedence_witness :
  flagName exRaw <> "" /\
  flagService exRaw = true /\
  isInstall (resolveFlags ["-install"; "-daemon"; "-name=svc"; "-service"] exRaw) = true /\
  flagStart (resolveFlags ["-install"; "-daemon"; "-name=svc"; "-service"] exRaw) = false /\
  flagDaemon (resolveFlags ["-install"; "-daemon"; "-name=svc"; "-service"] exRaw) = false /\
  isMaster (resolveFlags ["-install"; "-daemon"; "-name=svc"; "-service"] exRaw) = true /\
  Command_mode (resolveFlags [] defaultFlags) = Start /\
  noOtherMode (resolveFlags [] defaultFlags).
Proof.
  pose proof (mode_precedence ["-install"; "-daemon"; "-name=svc"; "-service"] exRaw)
    as (_ & H2 & H3 & _ & H4 & H5 & _ & _).
  pose proof (mode_precedence [] defaultFlags) as ((_ & H1 & _) & _ & _ & _ & _ & _ & _ & H6).
  assert (Hn : flagName exRaw <> "") by discriminate.
  assert (Hs : flagService exRaw = true) by reflexivity.
  split; [exact Hn|]. split; [exact Hs|].
  split; [exact (H2 Hn)|].
  split; [apply H3; do 5 right; exact Hs|].
  split; [exact (H4 (H2 Hn))|].
  split; [apply H5; reflexivity|].
  split; [exact H1|]. exact (H6 H1).
Defined.

Lemma pid_record_round_trip_witness :
  openDenied exEnv (pidFilePath exEnv) = false /\
  writeFails exEnv (pidFilePath exEnv) = false /\
  contains ":" (pipeName (app exStarted)) = false /\
  workerPids (cmds exStarted) (app_cmd (app exStarted)) = Some [2001; 2002; 2003]%Z /\
  forallb inInt [2001; 2002; 2003]%Z = true /\
  exists s', logPid exEnv exStarted = Ret None s' /\
             getWorkPids exEnv s' = Ret [2001; 2002; 2003]%Z s'.
Proof.
  assert (H3 : contains ":" (pipeName (app exStarted)) = false) by (vm_compute; reflexivity).
  assert (H4 : workerPids (cmds exStarted) (app_cmd (app exStarted)) = Some [2001; 2002; 2003]%Z)
    by (vm_compute; reflexivity).
  assert (H5 : forallb inInt [2001; 2002; 2003]%Z = true) by (vm_compute; reflexivity).
  split; [reflexivity|]. split; [reflexivity|]. split; [exact H3|].
  split; [exact H4|]. split; [exact H5|].
  exact (pid_record_round_trip exEnv exStarted [2001; 2002; 2003]%Z
           eq_refl eq_refl H3 H4 H5).
Defined.

(** C3 as stated fails.  Two masters with different pids and pipe names
    read back the same thing, the worker pids alone, so nothing computed from
    what is read gives back the master pid and the pipe name; and under a
    pipe name that holds a colon, even the worker pids read back (5) are not
    those written (7). *)
Lemma round_trip_loses_master :
  readBack exEnv exStarted = Some [2001; 2002; 2003]%Z /\
  readBack exEnv2 exStarted2 = Some [2001; 2002; 2003]%Z /\
  ~ (exists decode : option (list Z) -> Z * string,
       decode (readBack exEnv exStarted) = (Getpid exEnv, pipeName (app exStarted)) /\
       decode (readBack exEnv2 exStarted2) = (Getpid exEnv2, pipeName (app exStarted2))) /\
  workerPids (cmds exColon) (app_cmd (app exColon)) = Some [7]%Z /\
  readBack exEnv exColon = Some [5]%Z.
Proof.
  assert (E1 : readBack exEnv exStarted = Some [2001; 2002; 2003]%Z) by (vm_compute; reflexivity).
  assert (E2 : readBack exEnv2 exStarted2 = Some [2001; 2002; 2003]%Z) by (vm_compute; reflexivity).
  split; [exact E1|]. split; [exact E2|]. split.
  - intros (decode & H1 & H2). rewrite E1 in H1. rewrite E2, H1 in H2.
    vm_compute in H2. discriminate H2.
  - split; vm_compute; reflexivity.
Qed.

Lemma reload_signals_witness :
  (GOOS exEnv =? "windows") = false /\
  fs (exPidFile exEnv) !! pidFilePath exEnv = Some (pidRecord 1234 "abc" [2001; 2002]%Z) /\
  contains ":" "abc" = false /\
  forallb inInt [2001; 2002]%Z = true /\
  isMaster (flags (exPidFile exEnv)) = false /\
  reload exEnv [] (exPidFile exEnv) =
    Exit 0 (emitAll [ESignal 2001 SIGINT; ESignal 2002 SIGINT; ESleep 30;
                     EStartProcess ["/opt/app"; "-master"; "-start"; "-conf=app.conf"]]
              (exPidFile exEnv)).
Proof.
  assert (H1 : (GOOS exEnv =? "windows") = false) by reflexivity.
  assert (H2 : fs (exPidFile exEnv) !! pidFilePath exEnv
               = Some (pidRecord 1234 "abc" [2001; 2002]%Z)) by (vm_compute; reflexivity).
  assert (H3 : contains ":" "abc" = false) by reflexivity.
  assert (H4 : forallb inInt [2001; 2002]%Z = true) by (vm_compute; reflexivity).
  assert (H5 : isMaster (flags (exPidFile exEnv)) = false) by reflexivity.
  split; [exact H1|]. split; [exact H2|]. split; [exact H3|]. split; [exact H4|].
  split; [exact H5|].
  exact (proj2 (reload_signals exEnv [] (exPidFile exEnv) 1234 "abc" [2001; 2002]%Z
                  H1 H2 H3 H4) H5).
Defined.

(** C4 as stated fails on Windows: for the record [1234|abc:2001,2002],
    [reload] kills the two processes and sends no interrupt signal to any
    pid. *)
Lemma reload_windows_kills :
  getWorkPids exEnvWin (exPidFile exEnvWin) = Ret [2001; 2002]%Z (exPidFile exEnvWin) /\
  exists s',
    reload exEnvWin [] (exPidFile exEnvWin) = Exit 0 s' /\
    trace s' = [EKill 2001; EKill 2002; ESleep 30;
                EStartProcess ["C:/app.exe"; "-master"; "-start"; "-conf=app.conf"]] /\
    forall pid sig, ~ In (ESignal pid sig) (trace s').
Proof.
  split; [vm_compute; reflexivity|].
  eexists. split; [vm_compute; reflexivity|]. split; [reflexivity|].
  intros pid sig H. simpl in H. intuition discriminate.
Qed.

Lemma stop_signals_witness :
  (GOOS exEnv =? "windows") = false /\
  fs (exPidFile exEnv) !! pidFilePath exEnv = Some (pidRecord 1234 "abc" [2001; 2002]%Z) /\
  contains ":" "abc" = false /\
  forallb inInt [2001; 2002]%Z = true /\
  stop exEnv (exPidFile exEnv) =
    Exit 0 (emitAll [ESignal 2001 SIGINT; ESignal 2002 SIGINT; ESleep 30] (exPidFile exEnv)).
Proof.
  assert (H1 : (GOOS exEnv =? "windows") = false) by reflexivity.
  assert (H2 : fs (exPidFile exEnv) !! pidFilePath exEnv
               = Some (pidRecord 1234 "abc" [2001; 2002]%Z)) by (vm_compute; reflexivity).
  assert (H3 : contains ":" "abc" = false) by reflexivity.
  assert (H4 : forallb inInt [2001; 2002]%Z = true) by (vm_compute; reflexivity).
  split; [exact H1|]. split; [exact H2|]. split; [exact H3|]. split; [exact H4|].
  exact (stop_signals exEnv (exPidFile exEnv) 1234 "abc" [2001; 2002]%Z H1 H2 H3 H4).
Defined.

(** C5 as stated fails on Windows: for the pid file [1234|abc:2001,2002],
    [stop] kills the two processes and sends no interrupt signal; it still
    sleeps and exits with code 0. *)
Lemma stop_windows_kills :
  getWorkPids exEnvWin (exPidFile exEnvWin) = Ret [2001; 2002]%Z (exPidFile exEnvWin) /\
  exists s',
    stop exEnvWin (exPidFile exEnvWin) = Exit 0 s' /\
    trace s' = [EKill 2001; EKill 2002; ESleep 30] /\
    forall pid sig, ~ In (ESignal pid sig) (trace s').
Proof.
  split; [vm_compute; reflexivity|].
  eexists. split; [vm_compute; reflexivity|]. split; [reflexivity|].
  intros pid sig H. simpl in H. intuition discriminate.
Qed.

(** C6 at the failing input.  Units a and b are configured and the command
    of b cannot be started: both are recorded as running, the pid file is
    truncated, and [doStart] does not return: it panics in [logPid] on the
    process that b's command does not have. *)
Theorem doStart_failed_spawn_panics :
  exists s',
    doStart exEnvFail (initState masterFlags ∅) =
      Panic "invalid memory address or nil pointer dereference" s' /\
    map (fun w => (key w, runing w)) (app_cmd (app s')) = [("a", true); ("b", true)] /\
    map Process (cmds s') = [Some 2001%Z; None] /\
    fs s' !! pidFilePath exEnvFail = Some "".
Proof.
  eexists. split; [vm_compute; reflexivity|].
  split; [reflexivity|]. split; [reflexivity|]. vm_compute. reflexivity.
Qed.

Lemma registry_no_duplicates_witness :
  openDenied exEnv (mgrFilePath exEnv) = false /\
  writeFails exEnv (mgrFilePath exEnv) = false /\
  cleanPath (ConfPath exEnv) = true /\
  forallb cleanPath [] = true /\
  List.NoDup (@nil string) /\
  holds exEnv (initState defaultFlags ∅) [] /\
  isForce (flags (initState defaultFlags ∅)) = false /\
  exists s' vs',
    repeatM 3 (logMgr exEnv) (initState defaultFlags ∅) = Ret tt s' /\
    holds exEnv s' vs' /\ List.NoDup vs' /\ mgrList exEnv s' = Ret vs' s' /\
    ((0 < 3)%nat -> In (ConfPath exEnv) vs').
Proof.
  assert (H3 : cleanPath (ConfPath exEnv) = true) by (vm_compute; reflexivity).
  assert (H6 : holds exEnv (initState defaultFlags ∅) [])
    by (right; split; reflexivity).
  split; [reflexivity|]. split; [reflexivity|]. split; [exact H3|].
  split; [reflexivity|]. split; [constructor|]. split; [exact H6|].
  split; [reflexivity|].
  exact (proj1 (registry_no_duplicates exEnv (initState defaultFlags ∅) [] 3
                  eq_refl eq_refl H3 eq_refl (List.NoDup_nil string) H6) eq_refl).
Defined.

Lemma registry_untrimmed_path_witness :
  TrimSpace (ConfPath exEnvPad) <> ConfPath exEnvPad /\
  isForce (flags (initState defaultFlags ∅)) = false /\
  openDenied exEnvPad (mgrFilePath exEnvPad) = false /\
  writeFails exEnvPad (mgrFilePath exEnvPad) = false /\
  exists s',
    repeatM 3 (logMgr exEnvPad) (initState defaultFlags ∅) = Ret tt s' /\
    fs s' !! mgrFilePath exEnvPad =
      Some (default "" (fs (initState defaultFlags ∅) !! mgrFilePath exEnvPad)
            +:+ registryLines (repeat (ConfPath exEnvPad) 3)).
Proof.
  assert (H1 : TrimSpace (ConfPath exEnvPad) <> ConfPath exEnvPad).
  { vm_compute. intros H. discriminate H. }
  assert (H2 : isForce (flags (initState defaultFlags ∅)) = false) by reflexivity.
  assert (H3 : openDenied exEnvPad (mgrFilePath exEnvPad) = false) by reflexivity.
  assert (H4 : writeFails exEnvPad (mgrFilePath exEnvPad) = false) by reflexivity.
  exact (conj H1 (conj H2 (conj H3 (conj H4
    (registry_untrimmed_path_duplicates exEnvPad 2 (initState defaultFlags ∅)
       H1 H2 H3 H4))))).
Defined.

(** For a path that ends with a space the entry read back is trimmed and
    never equals the path, so the second append writes the path again and
    [mgrList] returns the same entry twice. *)
Lemma registry_padded_path_duplicates :
  exists s',
    repeatM 2 (logMgr exEnvPad) (initState defaultFlags ∅) = Ret tt s' /\
    fs s' !! mgrFilePath exEnvPad = Some ("a.conf " +:+ nl +:+ "a.conf " +:+ nl) /\
    mgrList exEnvPad s' = Ret ["a.conf"; "a.conf"] s' /\
    ~ List.NoDup ["a.conf"; "a.conf"].
Proof.
  eexists. split; [vm_compute; reflexivity|].
  split; [vm_compute; reflexivity|]. split; [vm_compute; reflexivity|].
  intros H. inversion H as [|x l Hin _]; subst. apply Hin. left. reflexivity.
Qed.

(** C8 as stated fails: with no pid file, [removePid] returns an error. *)
Lemma removePid_missing_is_error :
  fs (initState defaultFlags ∅) !! pidFilePath exEnv = None /\
  exists msg s', removePid exEnv (initState defaultFlags ∅) = Ret (Some msg) s'.
Proof.
  split; [reflexivity|]. eexists _, _. vm_compute. reflexivity.
Qed.

Lemma cleanup_exactly_once_witness :
  isClear exStarted = false /\
  teardowns (trace exStarted) = [] /\
  (exists s', checkWorkProcess exEnv exStopSched exStarted = Ret tt s' /\
              teardowns (trace s') = cleanup exEnv /\ clear exEnv s' = Ret tt s') /\
  (exists s', checkWorkProcess exEnv (arrival exOrder) exStarted = Ret tt s' /\
              teardowns (trace s') = cleanup exEnv) /\
  (exists s', checkWorkProcess exEnv (arrival [(1%nat, 7%Z); (0%nat, 0%Z)]) exStarted
              = Blocked s' /\
              isClear s' = false /\ teardowns (trace s') = []) /\
  (exists s', checkWorkProcess exEnv ([StopCallback; Exited 1 7] :: []) exStarted
              = Ret tt s' /\
              teardowns (trace s') = cleanup exEnv /\ app_runing (app s') = false) /\
  isClear exFlagCleared = false /\
  teardowns (trace exFlagCleared) = [] /\
  (exists s', checkWorkProcess exEnv ([Exited 1 7] :: [[Exited 0 0]]) exFlagCleared
              = Ret tt s' /\
              teardowns (trace s') = cleanup exEnv).
Proof.
  assert (H1 : isClear exStarted = false) by (vm_compute; reflexivity).
  assert (H2 : teardowns (trace exStarted) = []) by (vm_compute; reflexivity).
  assert (Hr : app_runing (app exStarted) = true) by (vm_compute; reflexivity).
  assert (Hl : flagService (flags exStarted) = true -> logger exStarted = true)
    by (intros _; vm_compute; reflexivity).
  assert (Hnone : Forall (fun h => waiterDone (cmds exStarted) h = false)
                    (map cmd (List.filter runing (app_cmd (app exStarted))))).
  { vm_compute. repeat constructor. }
  assert (Hn : List.NoDup (map fst [(1%nat, 7%Z); (0%nat, 0%Z)])).
  { simpl. repeat constructor; simpl; intuition lia. }
  assert (Hi : incl (map fst [(1%nat, 7%Z); (0%nat, 0%Z)])
                 (map cmd (List.filter runing (app_cmd (app exStarted))))).
  { vm_compute. intros x [<-|[<-|[]]]; auto. }
  assert (Hlt : (length [(1%nat, 7%Z); (0%nat, 0%Z)]
                 < length (List.filter runing (app_cmd (app exStarted))))%nat).
  { vm_compute. lia. }
  assert (Hin : In 1%nat (map cmd (List.filter runing (app_cmd (app exStarted)))))
    by (vm_compute; right; left; reflexivity).
  assert (Hfs : fs exStarted !! pidFilePath exEnv
                = Some (pidRecord 1234 "1234" [2001; 2002; 2003]%Z))
    by (vm_compute; reflexivity).
  assert (Hp : contains ":" "1234" = false) by reflexivity.
  assert (Hpids : forallb inInt [2001; 2002; 2003]%Z = true) by (vm_compute; reflexivity).
  assert (G1 : isClear exFlagCleared = false) by (vm_compute; reflexivity).
  assert (G2 : teardowns (trace exFlagCleared) = []) by (vm_compute; reflexivity).
  assert (Gr : app_runing (app exFlagCleared) = false) by reflexivity.
  assert (Gw : wfStore exFlagCleared).
  { unfold wfStore. vm_compute. repeat constructor. }
  assert (Gin : In 1%nat (map cmd (List.filter runing (app_cmd (app exFlagCleared)))))
    by (vm_compute; right; left; reflexivity).
  pose proof (cleanup_exactly_once exEnv exStarted exStopSched H1 H2)
    as (_ & Hret & Hlive & Hwait & _ & Hstop & _).
  pose proof (cleanup_exactly_once exEnv exFlagCleared [] G1 G2)
    as (_ & _ & _ & _ & Hflag & _).
  split; [exact H1|]. split; [exact H2|]. split.
  { assert (Hs : exists s', checkWorkProcess exEnv exStopSched exStarted = Ret tt s')
      by (eexists; vm_compute; reflexivity).
    destruct Hs as [s' Hs]. exists s'. split; [exact Hs|]. exact (Hret s' Hs). }
  split; [exact (Hlive exOrder Hr exStarted_wf exOrder_perm exOrder_NoDup Hl)|].
  split; [exact (Hwait _ Hr exStarted_wf Hnone Hn Hi Hlt Hl)|].
  split; [exact (Hstop 1%nat 7%Z [] 1234%Z "1234" _ exStarted_wf Hin Hfs Hp Hpids)|].
  split; [exact G1|]. split; [exact G2|].
  exact (Hflag 1%nat 7%Z [[Exited 0 0]] Gr Gw Gin).
Defined.

Lemma getWorkPids_corrupt_witness :
  fs (initState defaultFlags ∅) !! pidFilePath exEnv = None /\
  getWorkPids exEnv (initState defaultFlags ∅) = Ret [] (initState defaultFlags ∅) /\
  fs exEmptyPidFile !! pidFilePath exEnv = Some "" /\
  contains ":" "" = false /\
  (exists msg, getWorkPids exEnv exEmptyPidFile = Panic msg exEmptyPidFile) /\
  (exists msg, stop exEnv exEmptyPidFile = Panic msg exEmptyPidFile) /\
  (forall sched, exists msg, reload exEnv sched exEmptyPidFile = Panic msg exEmptyPidFile).
Proof.
  assert (H2 : fs exEmptyPidFile !! pidFilePath exEnv = Some "") by (vm_compute; reflexivity).
  split; [reflexivity|].
  split; [exact (proj1 (getWorkPids_corrupt exEnv (initState defaultFlags ∅)) eq_refl)|].
  split; [exact H2|]. split; [reflexivity|].
  exact (proj2 (getWorkPids_corrupt exEnv exEmptyPidFile) "" H2 eq_refl).
Defined.

(** ** The scenarios of the specification *)

(** [-name=foo] alone resolves to install; [-install -daemon] resolves to
    install with daemon off; no argument resolves to start. *)
Example parse_scenarios :
  option_map Command_mode (parseCommandLine Atoi ["-name=foo"]) = Some Install /\
  option_map (fun f => (Command_mode f, flagDaemon f))
    (parseCommandLine Atoi ["-install"; "-daemon"]) = Some (Install, false) /\
  option_map Command_mode (parseCommandLine Atoi []) = Some Start /\
  parseCommandLine Atoi ["-bogus"] = None.
Proof. repeat split. Qed.

(** Three units, three workers, three pids in the pid file. *)
Example three_workers :
  fs exStarted !! pidFilePath exEnv = Some "1234|1234:2001,2002,2003" /\
  getWorkPids exEnv exStarted = Ret [2001; 2002; 2003]%Z exStarted.
Proof. split; vm_compute; reflexivity. Qed.

(** [-stop] against the pid file [1234|abc:2001,2002] on a Unix host. *)
Example stop_scenario :
  exists s', stop exEnv (exPidFile exEnv) = Exit 0 s' /\
             trace s' = [ESignal 2001 SIGINT; ESignal 2002 SIGINT; ESleep 30].
Proof. eexists. split; [vm_compute; reflexivity | reflexivity]. Qed.

(** * Further properties *)

(** ** Spawning, further *)

(** The loop of [doStart] starts the commands in the order of the
    configuration. *)
Lemma spawn_loop_trace e s0 confs : forall s,
  pipeName (app s) = pipeName (app s0) -> flags s = flags s0 ->
  trace (final (forEach confs (spawnOne e) s)) =
  trace s ++ map (fun c => EStartProcess (workerArgs e (Key c) s0)) confs.
Proof.
  induction confs as [|c r IH]; intros s Hp Hf.
  - simpl. rewrite app_nil_r. reflexivity.
  - cbn [forEach]. unfold bind at 1, spawnOne at 1.
    unfold bind at 1, gets at 1. unfold bind at 1, startCommand at 1.
    unfold modify at 1.
    rewrite IH by assumption.
    cbn [trace set_app emit set_cmds map]. rewrite <- app_assoc.
    unfold workerArgs. rewrite Hp, Hf. reflexivity.
Qed.

(** The rest of [doStart] once the workers are spawned. *)
Lemma doStart_spawned e s :
  exists s4,
    doStart e s =
      (err <- logPid e ;;
       match err with
       | Some msg =>
           logs_Err "start error log pid," err ;;;
           if negb (flagService (flags s)) then do (EPrintln msg) else ret tt
       | None => ret tt
       end ;;;
       ret None) s4 /\
    app_cmd (app s4) = spawnedWorks (length (cmds s)) (Confs e) /\
    cmds s4 = cmds s ++ spawnedCmds e s4 (length (cmds s)) (Confs e) /\
    pipeName (app s4) = Itoa (Getpid e) /\
    app_runing (app s4) = app_runing (app s) /\
    flags s4 = flags s /\ fs s4 = fs s /\ isClear s4 = isClear s /\
    logger s4 = logger s /\
    trace s4 = trace s ++ announce e s ++
               map (fun c => workerCommand e s (Key c)) (Confs e).
Proof.
  unfold doStart. cbv zeta.
  unfold bind at 1, modify at 1.
  unfold bind at 1, gets at 1.
  set (s1 := set_app _ s).
  assert (Hpre : exists s2,
    (if flagService (flags s1)
     then logs_Info ("service=" +:+ ConfPath e +:+ ",master pid=" +:+ Itoa (Getpid e))
     else do (EPrintln ("start=" +:+ ConfPath e +:+ ",master pid=" +:+ Itoa (Getpid e)))) s1
    = Ret tt s2 /\ cmds s2 = cmds s /\ flags s2 = flags s /\ app s2 = app s1 /\
      fs s2 = fs s /\ isClear s2 = isClear s /\ logger s2 = logger s /\
      trace s2 = trace s ++ announce e s).
  { unfold announce. change (flags s1) with (flags s).
    destruct (flagService (flags s)).
    - unfold logs_Info. change (logger s1) with (logger s).
      destruct (logger s) eqn:Hl; eexists; (split; [reflexivity|]); repeat split; auto;
        try exact Hl.
      simpl. rewrite app_nil_r. reflexivity.
    - eexists. split; [reflexivity|]. repeat split; auto. }
  destruct Hpre as (s2 & Hrun2 & Hc2 & Hf2 & Ha2 & Hfs2 & Hic2 & Hlg2 & Htr2).
  unfold bind at 1. rewrite Hrun2.
  unfold bind at 1, modify at 1.
  set (s3 := set_app _ s2).
  assert (Hp3 : pipeName (app s3) = Itoa (Getpid e)).
  { subst s3. cbn [app set_app pipeName set_app_cmd]. rewrite Ha2. reflexivity. }
  destruct (spawn_loop e s3 (Confs e) s3 eq_refl eq_refl)
    as (s4 & Hrun & Ha & Hcm & Hpn & Hfl & Hfs & Hic & Hlg).
  pose proof (spawn_loop_trace e s3 (Confs e) s3 eq_refl eq_refl) as Htr.
  rewrite Hrun in Htr. simpl final in Htr.
  unfold bind at 1. rewrite Hrun.
  exists s4. change (flagService (flags s1)) with (flagService (flags s)).
  split; [reflexivity|].
  assert (Hlen : length (cmds s3) = length (cmds s)) by (subst s3; simpl; rewrite Hc2; reflexivity).
  assert (Hargs : forall k s', pipeName (app s') = Itoa (Getpid e) -> flags s' = flags s ->
                    workerArgs e k s' = workerArgs e k s3).
  { intros k s' H1 H2. unfold workerArgs. rewrite H1, H2, Hp3.
    subst s3. cbn [flags set_app]. rewrite Hf2. reflexivity. }
  assert (Hf4 : flags s4 = flags s) by (rewrite Hfl; subst s3; simpl; exact Hf2).
  assert (Hp4 : pipeName (app s4) = Itoa (Getpid e)) by (rewrite Hpn; exact Hp3).
  split. { rewrite Ha, Hlen. subst s3. reflexivity. }
  split.
  { rewrite Hcm, Hlen. f_equal.
    { subst s3. simpl. exact Hc2. }
    clear - Hargs Hf4 Hp4.
    generalize (length (cmds s)). induction (Confs e) as [|c r IH]; intros n; [reflexivity|].
    simpl. rewrite IH, (Hargs (Key c) s4 Hp4 Hf4). reflexivity. }
  split; [exact Hp4|].
  split.
  { clear - Hrun Ha2. assert (H : forall confs s s', forEach confs (spawnOne e) s = Ret tt s' ->
        app_runing (app s') = app_runing (app s)).
    { induction confs as [|c r IH]; intros x x' Hx; simpl in Hx.
      - injection Hx as <-. reflexivity.
      - unfold bind at 1, spawnOne at 1 in Hx. unfold bind at 1, gets at 1 in Hx.
        unfold bind at 1, startCommand at 1 in Hx. unfold modify at 1 in Hx.
        apply IH in Hx. rewrite Hx. reflexivity. }
    rewrite (H _ _ _ Hrun). subst s3. cbn [app set_app set_app_cmd app_runing].
    rewrite Ha2. reflexivity. }
  split; [exact Hf4|].
  split. { rewrite Hfs. subst s3. simpl. exact Hfs2. }
  split. { rewrite Hic. subst s3. simpl. exact Hic2. }
  split. { rewrite Hlg. subst s3. simpl. exact Hlg2. }
  rewrite Htr. subst s3. cbn [trace set_app]. rewrite Htr2, <- app_assoc. f_equal. f_equal.
  apply map_ext. intros c. unfold workerCommand, workerArgs.
  cbn [app set_app pipeName set_app_cmd flags]. rewrite Ha2, Hf2.
  subst s1. reflexivity.
Qed.

Lemma workerPids_spawned e s0 confs : forall pre,
  workerPids (pre ++ spawnedCmds e s0 (length pre) confs)
             (spawnedWorks (length pre) confs) =
  startPids e (length pre) confs.
Proof.
  induction confs as [|c r IH]; intros pre; [reflexivity|].
  cbn [spawnedWorks spawnedCmds workerPids startPids runing].
  unfold procPid. cbn [cmd].
  rewrite lookup_app_r by lia. rewrite Nat.sub_diag. cbn [lookup list_lookup Process].
  specialize (IH (pre ++ [mkCmd (workerArgs e (Key c) s0) (procStart e (length pre)) None])).
  rewrite length_app in IH. simpl length in IH. rewrite Nat.add_1_r in IH.
  rewrite <- app_assoc in IH. simpl in IH. rewrite IH. reflexivity.
Qed.

(** Writing the pid file and reading it back, with what the write leaves
    unchanged. *)
Lemma logPid_reads_back e s pids :
  openDenied e (pidFilePath e) = false ->
  writeFails e (pidFilePath e) = false ->
  contains ":" (pipeName (app s)) = false ->
  workerPids (cmds s) (app_cmd (app s)) = Some pids ->
  forallb inInt pids = true ->
  exists s',
    logPid e s = Ret None s' /\ getWorkPids e s' = Ret pids s' /\
    app s' = app s /\ cmds s' = cmds s /\ flags s' = flags s /\
    trace s' = trace s /\ isClear s' = isClear s /\ logger s' = logger s /\
    is_Some (fs s' !! pidFilePath e).
Proof.
  intros Ho Hw Hp Hl Hr. unfold logPid. rewrite Ho. cbn [set_fs app cmds].
  destruct (pidList_zero (cmds s) (app_cmd (app s))
              (Itoa (Getpid e) +:+ "|" +:+ pipeName (app s) +:+ ":") pids Hl Hr)
    as (body & -> & Hb & Ha).
  rewrite Hw. eexists. split; [reflexivity|]. split.
  - rewrite <- Ha.
    apply (getWorkPids_body e _ (Itoa (Getpid e) +:+ "|" +:+ pipeName (app s)) body).
    + cbn [fs set_fs]. rewrite lookup_insert_eq. rewrite !app_assoc_s. reflexivity.
    + rewrite !contains_app, Hp, Itoa_no by reflexivity. reflexivity.
    + exact Hb.
  - repeat split; try reflexivity. cbn [fs set_fs]. rewrite lookup_insert_eq. eauto.
Qed.

Lemma doStart_success e s pids :
  openDenied e (pidFilePath e) = false ->
  writeFails e (pidFilePath e) = false ->
  startPids e (length (cmds s)) (Confs e) = Some pids ->
  forallb inInt pids = true ->
  exists s',
    doStart e s = Ret None s' /\
    app_cmd (app s') = spawnedWorks (length (cmds s)) (Confs e) /\
    workerPids (cmds s') (app_cmd (app s')) = Some pids /\
    getWorkPids e s' = Ret pids s' /\
    pipeName (app s') = Itoa (Getpid e) /\
    app_runing (app s') = app_runing (app s) /\
    flags s' = flags s /\ isClear s' = isClear s /\ logger s' = logger s /\
    length (cmds s') = (length (cmds s) + length (Confs e))%nat /\
    is_Some (fs s' !! pidFilePath e) /\
    trace s' = trace s ++ announce e s ++
               map (fun c => workerCommand e s (Key c)) (Confs e).
Proof.
  intros Ho Hw Hs Hr.
  destruct (doStart_spawned e s)
    as (s4 & Hrun & Ha & Hcm & Hpn & Hrn & Hfl & Hfs & Hic & Hlg & Htr).
  assert (Hwp : workerPids (cmds s4) (app_cmd (app s4)) = Some pids).
  { rewrite Ha, Hcm, workerPids_spawned. exact Hs. }
  assert (Hcol : contains ":" (pipeName (app s4)) = false)
    by (rewrite Hpn; apply Itoa_no; reflexivity).
  destruct (logPid_reads_back e s4 pids Ho Hw Hcol Hwp Hr)
    as (s' & Hlp & Hget & Hap & Hcs & Hfs' & Htr' & Hic' & Hlg' & Hsome).
  exists s'. rewrite Hrun. unfold bind at 1. rewrite Hlp.
  split; [reflexivity|].
  rewrite Hap, Hcs, Hfs', Htr', Hic', Hlg'.
  repeat split; auto.
  rewrite Hcm, length_app. f_equal.
  clear. generalize (length (cmds s)). induction (Confs e); intros n; simpl; auto.
Qed.

(** X: a successful spawn. *)
(** X1.  When every command starts and the pid file can be written,
    [doStart] returns without error with one entry per configured unit, in
    the order of the configuration, each marked as running, and the pid file
    it leaves reads back through [getWorkPids] as exactly the pids of the
    started workers. *)
Theorem doStart_all_started e s pids :
  openDenied e (pidFilePath e) = false ->
  writeFails e (pidFilePath e) = false ->
  startPids e (length (cmds s)) (Confs e) = Some pids ->
  forallb inInt pids = true ->
  exists s',
    doStart e s = Ret None s' /\
    map key (app_cmd (app s')) = map Key (Confs e) /\
    Forall (fun w => runing w = true) (app_cmd (app s')) /\
    workerPids (cmds s') (app_cmd (app s')) = Some pids /\
    getWorkPids e s' = Ret pids s'.
Proof.
  intros Ho Hw Hs Hr.
  destruct (doStart_success e s pids Ho Hw Hs Hr) as (s' & H1 & H2 & H3 & H4 & _).
  exists s'. rewrite H2 in *. split; [exact H1|].
  split; [apply spawnedWorks_keys|]. split; [apply spawnedWorks_runing|]. auto.
Qed.

Lemma doStart_all_started_witness :
  openDenied exEnv (pidFilePath exEnv) = false /\
  writeFails exEnv (pidFilePath exEnv) = false /\
  startPids exEnv (length (cmds (initState masterFlags ∅))) (Confs exEnv)
    = Some [2001; 2002; 2003]%Z /\
  forallb inInt [2001; 2002; 2003]%Z = true /\
  exists s',
    doStart exEnv (initState masterFlags ∅) = Ret None s' /\
    map key (app_cmd (app s')) = map Key (Confs exEnv) /\
    Forall (fun w => runing w = true) (app_cmd (app s')) /\
    workerPids (cmds s') (app_cmd (app s')) = Some [2001; 2002; 2003]%Z /\
    getWorkPids exEnv s' = Ret [2001; 2002; 2003]%Z s'.
Proof.
  assert (H1 : openDenied exEnv (pidFilePath exEnv) = false) by reflexivity.
  assert (H2 : writeFails exEnv (pidFilePath exEnv) = false) by reflexivity.
  assert (H3 : startPids exEnv (length (cmds (initState masterFlags ∅))) (Confs exEnv)
               = Some [2001; 2002; 2003]%Z) by (vm_compute; reflexivity).
  assert (H4 : forallb inInt [2001; 2002; 2003]%Z = true) by (vm_compute; reflexivity).
  exact (conj H1 (conj H2 (conj H3 (conj H4
    (doStart_all_started exEnv (initState masterFlags ∅) _ H1 H2 H3 H4))))).
Defined.

(** X2.  On a successful start the pipe name of the application is
    the decimal pid of the master, and [doStart] announces itself and then
    starts, for each configured unit in turn, the executable itself with
    [-daemon], the key of the unit, the master pid as pipe and as pid, the
    application key of the command line and the configuration path; it does
    nothing else that can be observed. *)
Theorem doStart_commands e s pids :
  openDenied e (pidFilePath e) = false ->
  writeFails e (pidFilePath e) = false ->
  startPids e (length (cmds s)) (Confs e) = Some pids ->
  forallb inInt pids = true ->
  exists s',
    doStart e s = Ret None s' /\
    pipeName (app s') = Itoa (Getpid e) /\
    trace s' = trace s ++ announce e s ++
               map (fun c => workerCommand e s (Key c)) (Confs e).
Proof.
  intros Ho Hw Hs Hr.
  destruct (doStart_success e s pids Ho Hw Hs Hr)
    as (s' & H1 & _ & _ & _ & H5 & _ & _ & _ & _ & _ & _ & H12).
  exists s'. auto.
Qed.

Lemma doStart_commands_witness :
  openDenied exEnv (pidFilePath exEnv) = false /\
  writeFails exEnv (pidFilePath exEnv) = false /\
  startPids exEnv (length (cmds (initState masterFlags ∅))) (Confs exEnv)
    = Some [2001; 2002; 2003]%Z /\
  forallb inInt [2001; 2002; 2003]%Z = true /\
  exists s',
    doStart exEnv (initState masterFlags ∅) = Ret None s' /\
    pipeName (app s') = Itoa (Getpid exEnv) /\
    trace s' = trace (initState masterFlags ∅) ++
               announce exEnv (initState masterFlags ∅) ++
               map (fun c => workerCommand exEnv (initState masterFlags ∅) (Key c))
                   (Confs exEnv).
Proof.
  assert (H1 : openDenied exEnv (pidFilePath exEnv) = false) by reflexivity.
  assert (H2 : writeFails exEnv (pidFilePath exEnv) = false) by reflexivity.
  assert (H3 : startPids exEnv (length (cmds (initState masterFlags ∅))) (Confs exEnv)
               = Some [2001; 2002; 2003]%Z) by (vm_compute; reflexivity).
  assert (H4 : forallb inInt [2001; 2002; 2003]%Z = true) by (vm_compute; reflexivity).
  exact (conj H1 (conj H2 (conj H3 (conj H4
    (doStart_commands exEnv (initState masterFlags ∅) _ H1 H2 H3 H4))))).
Defined.

(** X3.  When the pid file cannot be opened, [doStart] still
    starts every worker and still returns no error: the failure is only
    reported (to the log, and to the standard output unless the program runs
    as a service), and the file system is left as it was. *)
Theorem doStart_pid_file_denied e s :
  openDenied e (pidFilePath e) = true ->
  exists s',
    doStart e s = Ret None s' /\
    fs s' = fs s /\
    map key (app_cmd (app s')) = map Key (Confs e) /\
    Forall (fun w => runing w = true) (app_cmd (app s')) /\
    trace s' = trace s ++ announce e s ++
               map (fun c => workerCommand e s (Key c)) (Confs e) ++
               pidFileReport s "cannot be created pid file".
Proof.
  intros Ho.
  destruct (doStart_spawned e s)
    as (s4 & Hrun & Ha & Hcm & Hpn & Hrn & Hfl & Hfs & Hic & Hlg & Htr).
  rewrite Hrun. unfold bind at 1, logPid at 1. rewrite Ho.
  unfold pidFileReport, logs_Err. cbn [String.eqb].
  unfold bind at 1. unfold bind at 1. unfold logs_Error. rewrite Hlg.
  destruct (logger s), (flagService (flags s)); cbn [negb];
    eexists; (split; [reflexivity|]); cbn [fs emit app trace];
    rewrite ?Hfs, ?Ha, ?Htr, ?app_nil_r, <- ?app_assoc;
    (split; [reflexivity|]); (split; [apply spawnedWorks_keys|]);
    (split; [apply spawnedWorks_runing|]); reflexivity.
Qed.

Lemma doStart_pid_file_denied_witness :
  openDenied exEnvDenied (pidFilePath exEnvDenied) = true /\
  exists s',
    doStart exEnvDenied (initState masterFlags ∅) = Ret None s' /\
    fs s' = fs (initState masterFlags ∅) /\
    map key (app_cmd (app s')) = map Key (Confs exEnvDenied) /\
    Forall (fun w => runing w = true) (app_cmd (app s')) /\
    trace s' = trace (initState masterFlags ∅) ++
               announce exEnvDenied (initState masterFlags ∅) ++
               map (fun c => workerCommand exEnvDenied (initState masterFlags ∅) (Key c))
                   (Confs exEnvDenied) ++
               pidFileReport (initState masterFlags ∅) "cannot be created pid file".
Proof.
  assert (H1 : openDenied exEnvDenied (pidFilePath exEnvDenied) = true) by reflexivity.
  exact (conj H1 (doStart_pid_file_denied exEnvDenied (initState masterFlags ∅) H1)).
Defined.

(** ** Start, stop and cleanup, further *)

Lemma clear_removes e s s' :
  clear e s = Ret tt s' -> isClear s = false ->
  fs s' !! pidFilePath e = None /\ isClear s' = true /\ logger s' = false /\
  trace s' = trace s ++ cleanup e.
Proof.
  rewrite clear_spec. intros [= <-] Hc. rewrite Hc.
  cbn [fs emit set_fs isClear logger trace emitAll set_logger set_isClear].
  rewrite lookup_delete_eq, <- app_assoc. auto.
Qed.

Lemma report_returns service msg x :
  exists x',
    (logs_Err "start error log pid," (Some msg) ;;;
     if negb service then do (EPrintln msg) else ret tt) x = Ret tt x' /\
    app x' = app x /\ isClear x' = isClear x /\ fs x' = fs x /\
    exists more, trace x' = trace x ++ more /\
                 forall argv, ~ In (EStartProcess argv) more.
Proof.
  unfold logs_Err, logs_Error, bind. cbn [String.eqb].
  destruct (logger x), service; cbn [negb];
    eexists; (split; [reflexivity|]); (split; [reflexivity|]);
    (split; [reflexivity|]); (split; [reflexivity|]); cbn [trace emit].
  - exists [ELogError ("start error log pid," +:+ "，详情：" +:+ msg)].
    split; [reflexivity|]. intros argv Hin. simpl in Hin. intuition discriminate.
  - exists [ELogError ("start error log pid," +:+ "，详情：" +:+ msg); EPrintln msg].
    split; [rewrite <- app_assoc; reflexivity|].
    intros argv Hin. simpl in Hin. intuition discriminate.
  - exists []. split; [rewrite app_nil_r; reflexivity|]. intros argv [].
  - exists [EPrintln msg].
    split; [reflexivity|]. intros argv Hin. simpl in Hin. intuition discriminate.
Qed.

(** X4.  A master that has no unit configured does not wait: [start]
    starts no process, runs the cleanup at once (the pid file it has just
    written is removed again) and returns [false] without error, whatever the
    schedule of events. *)
Theorem start_without_units e s sched :
  Confs e = [] ->
  isMaster (flags s) = true ->
  isClear s = false ->
  exists s',
    start e sched s = Ret (false, None) s' /\
    fs s' !! pidFilePath e = None /\
    isClear s' = true /\
    app_cmd (app s') = [] /\
    forall argv, ~ In (EStartProcess argv) (skipn (length (trace s)) (trace s')).
Proof.
  intros Hc Hm Hic. unfold start.
  unfold bind at 1, gets at 1. rewrite Hm.
  destruct (doStart_spawned e s)
    as (s4 & Hrun & Ha & Hcm & Hpn & Hrn & Hfl & Hfs & Hic4 & Hlg & Htr).
  rewrite Hc in *. cbn [spawnedWorks spawnedCmds map] in *. rewrite app_nil_r in Htr.
  assert (Hann : forall argv, ~ In (EStartProcess argv) (announce e s)).
  { intros argv Hin. unfold announce in Hin.
    destruct (flagService (flags s)), (logger s); simpl in Hin; intuition discriminate. }
  assert (Hd : exists s5, doStart e s = Ret None s5 /\ app_cmd (app s5) = [] /\
            isClear s5 = false /\
            exists more, trace s5 = trace s ++ more /\
              forall argv, ~ In (EStartProcess argv) more).
  { rewrite Hrun. unfold bind at 1, logPid at 1.
    destruct (openDenied e (pidFilePath e)).
    - destruct (report_returns (flagService (flags s)) "cannot be created pid file" s4)
        as (x' & Hr & Hax & Hix & _ & more & Htx & Hno).
      unfold bind at 1. rewrite Hr. eexists. split; [reflexivity|].
      rewrite Hax, Hix, Ha, Hic4. split; [reflexivity|]. split; [exact Hic|].
      exists (announce e s ++ more). rewrite Htx, Htr, <- app_assoc.
      split; [reflexivity|]. intros argv Hin.
      apply in_app_or in Hin as [Hin|Hin]; [exact (Hann argv Hin) | exact (Hno argv Hin)].
    - cbn [cmds app set_fs]. rewrite Ha. cbn [pidList].
      destruct (writeFails e (pidFilePath e)).
      + destruct (report_returns (flagService (flags s)) "cannot be write pid file"
                    (set_fs (<[pidFilePath e:=""]> (fs s4)) s4))
          as (x' & Hr & Hax & Hix & _ & more & Htx & Hno).
        unfold bind at 1. rewrite Hr. eexists. split; [reflexivity|].
        rewrite Hax, Hix. cbn [app set_fs isClear]. rewrite Ha, Hic4.
        split; [reflexivity|]. split; [exact Hic|].
        exists (announce e s ++ more). rewrite Htx. cbn [trace set_fs].
        rewrite Htr, <- app_assoc.
        split; [reflexivity|]. intros argv Hin.
        apply in_app_or in Hin as [Hin|Hin]; [exact (Hann argv Hin) | exact (Hno argv Hin)].
      + unfold bind. eexists. split; [reflexivity|]. cbn [app set_fs isClear trace].
        rewrite Ha, Hic4, Htr. split; [reflexivity|]. split; [exact Hic|].
        exists (announce e s). split; [reflexivity | exact Hann]. }
  destruct Hd as (s5 & Hds & Ha5 & Hic5 & more & Htr5 & Hno).
  unfold bind at 1. rewrite Hds.
  unfold bind at 1, checkWorkProcess. unfold bind at 1, gets at 1.
  rewrite Ha5. cbn [List.filter map length monitorLoop].
  unfold bind at 1, ret at 1.
  destruct (clear_twice e s5) as (s' & Hcl & _ & _).
  rewrite Hcl. unfold ret.
  destruct (clear_removes e s5 s' Hcl Hic5) as (Hf & Hc' & _ & Htr').
  exists s'. split; [reflexivity|]. split; [exact Hf|]. split; [exact Hc'|]. split.
  - rewrite clear_spec in Hcl. injection Hcl as <-. rewrite Hic5. exact Ha5.
  - intros argv. rewrite Htr', Htr5, <- app_assoc.
    rewrite skipn_app, skipn_all, Nat.sub_diag. cbn [skipn List.app].
    intros Hin. apply in_app_or in Hin as [Hin|Hin]; [exact (Hno argv Hin)|].
    simpl in Hin. intuition discriminate.
Qed.

Lemma start_without_units_witness :
  Confs exEnvEmpty = [] /\
  isMaster (flags (initState masterFlags ∅)) = true /\
  isClear (initState masterFlags ∅) = false /\
  exists s',
    start exEnvEmpty [] (initState masterFlags ∅) = Ret (false, None) s' /\
    fs s' !! pidFilePath exEnvEmpty = None /\
    isClear s' = true /\
    app_cmd (app s') = [] /\
    forall argv,
      ~ In (EStartProcess argv)
           (skipn (length (trace (initState masterFlags ∅))) (trace s')).
Proof.
  assert (H1 : Confs exEnvEmpty = []) by reflexivity.
  assert (H2 : isMaster (flags (initState masterFlags ∅)) = true) by reflexivity.
  assert (H3 : isClear (initState masterFlags ∅) = false) by reflexivity.
  exact (conj H1 (conj H2 (conj H3
    (start_without_units exEnvEmpty (initState masterFlags ∅) [] H1 H2 H3)))).
Defined.

(** X5.  Without a pid file [stop] sends no signal: it sleeps
    and exits with code 0; [reload] sends no signal either, sleeps and goes on
    with [start]. *)
Theorem stop_reload_without_pid_file e s :
  fs s !! pidFilePath e = None ->
  stop e s = Exit 0 (emit (ESleep 30) s) /\
  forall sched,
    reload e sched s = (_ <- start e sched ;; ret tt) (emit (ESleep 30) s).
Proof.
  intros Hf. pose proof (getWorkPids_missing e s Hf) as Hg. split.
  - unfold stop. unfold bind at 1. rewrite Hg. reflexivity.
  - intros sched. unfold reload. unfold bind at 1. rewrite Hg. reflexivity.
Qed.

Lemma stop_reload_without_pid_file_witness :
  fs (initState defaultFlags ∅) !! pidFilePath exEnv = None /\
  stop exEnv (initState defaultFlags ∅) =
    Exit 0 (emit (ESleep 30) (initState defaultFlags ∅)) /\
  forall sched,
    reload exEnv sched (initState defaultFlags ∅) =
    (_ <- start exEnv sched ;; ret tt) (emit (ESleep 30) (initState defaultFlags ∅)).
Proof.
  assert (H1 : fs (initState defaultFlags ∅) !! pidFilePath exEnv = None) by reflexivity.
  exact (conj H1 (stop_reload_without_pid_file exEnv (initState defaultFlags ∅) H1)).
Defined.

Lemma signalEffects_windows e sig pids :
  (GOOS e =? "windows") = true ->
  flat_map (signalEffects e sig) pids =
  map EKill (List.filter (fun pid => negb (findFails e pid)) pids).
Proof.
  intros Hw. induction pids as [|p r IH]; simpl; [reflexivity|].
  rewrite IH. unfold signalEffects, FindProcess. rewrite Hw. cbn [andb].
  rewrite negb_involutive. destruct (findFails e p); reflexivity.
Qed.

(** X6.  On Windows [stop] sends no signal at all: every worker
    of the pid file whose process can be found is killed, the others are
    skipped, and the program sleeps and exits with code 0. *)
Theorem stop_on_windows e s pids :
  (GOOS e =? "windows") = true ->
  getWorkPids e s = Ret pids s ->
  stop e s =
    Exit 0 (emitAll (map EKill (List.filter (fun pid => negb (findFails e pid)) pids)
                     ++ [ESleep 30]) s).
Proof.
  intros Hw Hg. unfold stop. unfold bind at 1. rewrite Hg.
  unfold bind at 1. rewrite signal_fanout, (signalEffects_windows _ _ _ Hw).
  unfold bind, do, modify, osExit. rewrite emit_emitAll. reflexivity.
Qed.

Lemma stop_on_windows_witness :
  (GOOS exEnvWinLocked =? "windows") = true /\
  getWorkPids exEnvWinLocked (exPidFile exEnvWinLocked) =
    Ret [2001; 2002]%Z (exPidFile exEnvWinLocked) /\
  stop exEnvWinLocked (exPidFile exEnvWinLocked) =
    Exit 0 (emitAll
              (map EKill (List.filter (fun pid => negb (findFails exEnvWinLocked pid))
                                      [2001; 2002]%Z)
               ++ [ESleep 30]) (exPidFile exEnvWinLocked)).
Proof.
  assert (H1 : (GOOS exEnvWinLocked =? "windows") = true) by reflexivity.
  assert (H2 : getWorkPids exEnvWinLocked (exPidFile exEnvWinLocked) =
               Ret [2001; 2002]%Z (exPidFile exEnvWinLocked)) by (vm_compute; reflexivity).
  exact (conj H1 (conj H2
    (stop_on_windows exEnvWinLocked (exPidFile exEnvWinLocked) _ H1 H2))).
Defined.

(** X7.  [serviceStop] interrupts the workers of the pid file and
    cleans up, which removes the pid file; once it has run, a second call
    changes nothing: no signal is sent again and the cleanup is not
    repeated. *)
Theorem serviceStop_twice e s pids :
  isClear s = false ->
  getWorkPids e s = Ret pids s ->
  exists s1,
    serviceStop e s = Ret tt s1 /\
    trace s1 = trace s ++ flat_map (signalEffects e SIGINT) pids ++ cleanup e /\
    fs s1 !! pidFilePath e = None /\
    serviceStop e s1 = Ret tt s1.
Proof.
  intros Hc Hg. unfold serviceStop at 1.
  unfold bind at 1. rewrite Hg. unfold bind at 1. rewrite signal_fanout.
  set (s0 := emitAll _ s).
  destruct (clear_twice e s0) as (s1 & Hcl & Hc1 & Hcl1).
  destruct (clear_removes e s0 s1 Hcl Hc) as (Hf & _ & _ & Htr).
  exists s1. split; [exact Hcl|]. split.
  - rewrite Htr. subst s0. cbn [trace emitAll]. rewrite <- app_assoc. reflexivity.
  - split; [exact Hf|].
    unfold serviceStop. unfold bind at 1. rewrite (getWorkPids_missing e s1 Hf).
    cbn [forEach]. unfold bind at 1, ret at 1. exact Hcl1.
Qed.

Lemma serviceStop_twice_witness :
  isClear (exPidFile exEnv) = false /\
  getWorkPids exEnv (exPidFile exEnv) = Ret [2001; 2002]%Z (exPidFile exEnv) /\
  exists s1,
    serviceStop exEnv (exPidFile exEnv) = Ret tt s1 /\
    trace s1 = trace (exPidFile exEnv) ++
               flat_map (signalEffects exEnv SIGINT) [2001; 2002]%Z ++ cleanup exEnv /\
    fs s1 !! pidFilePath exEnv = None /\
    serviceStop exEnv s1 = Ret tt s1.
Proof.
  assert (H1 : isClear (exPidFile exEnv) = false) by reflexivity.
  assert (H2 : getWorkPids exEnv (exPidFile exEnv) = Ret [2001; 2002]%Z (exPidFile exEnv))
    by (vm_compute; reflexivity).
  exact (conj H1 (conj H2 (serviceStop_twice exEnv (exPidFile exEnv) _ H1 H2))).
Defined.

(** X8.  Once [clear] has run the logger is gone: [logs.Info],
    [logs.Error] and [logs.Err] return without writing anything. *)
Theorem logs_dropped_after_clear e s msg err :
  isClear s = false ->
  exists s1,
    clear e s = Ret tt s1 /\
    logs_Info msg s1 = Ret tt s1 /\
    logs_Error msg s1 = Ret tt s1 /\
    logs_Err msg err s1 = Ret tt s1.
Proof.
  intros Hc. destruct (clear_twice e s) as (s1 & Hcl & _ & _).
  destruct (clear_removes e s s1 Hcl Hc) as (_ & _ & Hl & _).
  exists s1. split; [exact Hcl|].
  unfold logs_Err, logs_Info, logs_Error. rewrite Hl. auto.
Qed.

Lemma logs_dropped_after_clear_witness :
  isClear exStarted = false /\
  exists s1,
    clear exEnv exStarted = Ret tt s1 /\
    logs_Info "late" s1 = Ret tt s1 /\
    logs_Error "late" s1 = Ret tt s1 /\
    logs_Err "late" (Some "cause") s1 = Ret tt s1.
Proof.
  assert (H1 : isClear exStarted = false) by (vm_compute; reflexivity).
  exact (conj H1 (logs_dropped_after_clear exEnv exStarted "late" (Some "cause") H1)).
Defined.

(** X9.  [getWorkPids] reads the field between the first and the
    second colon of the pid file: whatever follows a second colon is
    ignored. *)
Theorem getWorkPids_second_colon e s head body rest :
  fs s !! pidFilePath e = Some (head +:+ ":" +:+ body +:+ ":" +:+ rest) ->
  contains ":" head = false ->
  contains ":" body = false ->
  getWorkPids e s = Ret (atoiAll (Split body ",")) s.
Proof.
  intros Hf Hh Hb. unfold getWorkPids. rewrite Hf.
  change (head +:+ ":" +:+ body +:+ ":" +:+ rest)
    with (head +:+ String ":" (body +:+ String ":" rest)).
  rewrite (Split_app _ _ _ Hh), (Split_app _ _ _ Hb). reflexivity.
Qed.

Lemma getWorkPids_second_colon_witness :
  fs exTwoColons !! pidFilePath exEnv
    = Some ("1234|abc" +:+ ":" +:+ "2001,2002" +:+ ":" +:+ "2003") /\
  contains ":" "1234|abc" = false /\
  contains ":" "2001,2002" = false /\
  getWorkPids exEnv exTwoColons = Ret (atoiAll (Split "2001,2002" ",")) exTwoColons.
Proof.
  assert (H1 : fs exTwoColons !! pidFilePath exEnv
               = Some ("1234|abc" +:+ ":" +:+ "2001,2002" +:+ ":" +:+ "2003"))
    by (vm_compute; reflexivity).
  assert (H2 : contains ":" "1234|abc" = false) by reflexivity.
  assert (H3 : contains ":" "2001,2002" = false) by reflexivity.
  exact (conj H1 (conj H2 (conj H3
    (getWorkPids_second_colon exEnv exTwoColons _ _ _ H1 H2 H3)))).
Defined.

(** X10.  [logPid] truncates: when the pid file can be opened, what
    it holds afterwards does not depend on what it held before, and the file
    exists afterwards. *)
Theorem logPid_overwrites e s old :
  openDenied e (pidFilePath e) = false ->
  fs (final (logPid e (set_fs (<[pidFilePath e := old]> (fs s)) s))) !! pidFilePath e =
  fs (final (logPid e s)) !! pidFilePath e /\
  is_Some (fs (final (logPid e s)) !! pidFilePath e).
Proof.
  intros Ho. unfold logPid. rewrite Ho. cbn [fs set_fs cmds app].
  destruct (pidList _ _ _ _); [destruct (writeFails e (pidFilePath e))|];
    cbn [final fs set_fs]; rewrite ?lookup_insert_eq; eauto.
Qed.

Lemma logPid_overwrites_witness :
  openDenied exEnv (pidFilePath exEnv) = false /\
  fs (final (logPid exEnv
               (set_fs (<[pidFilePath exEnv := "9|old:1,2,3,4,5,6,7,8"]> (fs exStarted))
                       exStarted))) !! pidFilePath exEnv =
  fs (final (logPid exEnv exStarted)) !! pidFilePath exEnv /\
  is_Some (fs (final (logPid exEnv exStarted)) !! pidFilePath exEnv).
Proof.
  assert (H1 : openDenied exEnv (pidFilePath exEnv) = false) by reflexivity.
  exact (conj H1 (logPid_overwrites exEnv exStarted "9|old:1,2,3,4,5,6,7,8" H1)).
Defined.

(** ** The instance registry, further *)

Lemma whiteSpace_trimRight sp : In sp whiteSpace -> trimRight sp = "".
Proof.
  intros H. unfold whiteSpace in H. cbn in H.
  repeat (destruct H as [<-|H]; [vm_compute; reflexivity|]). destruct H.
Qed.

Lemma whiteSpace_length sp : In sp whiteSpace -> (0 < String.length sp)%nat.
Proof.
  intros H. unfold whiteSpace in H. cbn in H.
  repeat (destruct H as [<-|H]; [cbn; lia|]). destruct H.
Qed.

Lemma HasSuffix_inv s suf : HasSuffix s suf = true -> exists p, s = p +:+ suf.
Proof.
  induction s as [|c t IH]; cbn [HasSuffix]; intros H.
  - apply orb_true_iff in H as [H|H]; [|discriminate].
    apply String.eqb_eq in H. exists "". exact H.
  - apply orb_true_iff in H as [H|H].
    + apply String.eqb_eq in H. exists "". exact H.
    + destruct (IH H) as [p ->]. exists (String c p). reflexivity.
Qed.

Lemma length_append_s a b :
  String.length (a +:+ b) = (String.length a + String.length b)%nat.
Proof. induction a as [|c t IH]; cbn [append String.length]; [|rewrite IH]; reflexivity. Qed.

(** A string that trimming on the right leaves alone does not end with a
    white-space character. *)
Lemma trimRight_fixed_suffix v sp :
  trimRight v = v -> In sp whiteSpace -> HasSuffix v sp = false.
Proof.
  intros Hv Hsp. destruct (HasSuffix v sp) eqn:E; [|reflexivity]. exfalso.
  destruct (HasSuffix_inv _ _ E) as [p ->].
  rewrite (trimRight_app_space _ _ (whiteSpace_trimRight _ Hsp)) in Hv.
  pose proof (trimRight_length p) as H1. rewrite Hv, length_append_s in H1.
  pose proof (whiteSpace_length _ Hsp). lia.
Qed.

(** A string that trimming on the left leaves alone does not begin with a
    white-space character. *)
Lemma startsWithSpace_prefix v sp :
  startsWithSpace v = false -> In sp whiteSpace -> String.prefix sp v = false.
Proof.
  intros Hv Hsp. unfold whiteSpace in Hsp. cbn in Hsp.
  destruct v as [|c1 t1]; [repeat (destruct Hsp as [<-|Hsp]; [reflexivity|]); destruct Hsp|].
  cbn [startsWithSpace] in Hv. apply orb_false_iff in Hv as [H1 Hv].
  repeat (destruct Hsp as [<-|Hsp];
    [ unfold rune2, rune3; cbn [String.prefix];
      destruct (ascii_dec _ c1) as [<-|]; [|reflexivity];
      first
        [ exfalso; vm_compute in H1; discriminate H1
        | destruct t1 as [|c2 t2]; [reflexivity|];
          cbn [String.prefix];
          apply orb_false_iff in Hv as [H2 Hv];
          destruct (ascii_dec _ c2) as [<-|]; [|reflexivity];
          first
            [ exfalso; vm_compute in H2; discriminate H2
            | destruct t2 as [|c3 t3]; [reflexivity|];
              cbn [String.prefix];
              destruct (ascii_dec _ c3) as [<-|]; [|reflexivity];
              exfalso; vm_compute in Hv; discriminate Hv ] ]
    | ]).
  destruct Hsp.
Qed.

(** X12.  No entry that [mgrList] returns is empty, and none begins or
    ends with a white-space character, ASCII or not, whatever the registry
    file holds. *)
Theorem mgrList_entries e s :
  exists vs,
    mgrList e s = Ret vs s /\
    Forall (fun v => v <> "" /\
                     forall sp, In sp whiteSpace ->
                                String.prefix sp v = false /\ HasSuffix v sp = false) vs.
Proof.
  assert (H : forall rs,
    Forall (fun v => v <> "" /\
                     forall sp, In sp whiteSpace ->
                                String.prefix sp v = false /\ HasSuffix v sp = false)
           (collectLines rs)).
  { intros rs. eapply List.Forall_impl; [|apply collectLines_entries].
    intros v [Hne Ht]. split; [exact Hne|]. intros sp Hsp.
    destruct (TrimSpace_fixed v Ht) as [Hl Hr]. split.
    - apply startsWithSpace_prefix; [apply trimLeft_fixed_inv; exact Hl | exact Hsp].
    - apply trimRight_fixed_suffix; [exact Hr | exact Hsp]. }
  unfold mgrList. destruct (isForce (flags s)); [exists []; split; [reflexivity|constructor]|].
  destruct (fs s !! mgrFilePath e); [|exists []; split; [reflexivity|constructor]].
  eexists. split; [reflexivity|]. apply H.
Qed.

(** X11.  [syncMgr] followed by [mgrList] is a round trip for
    entries that are clean paths, provided the registry file exists;
    [syncMgr] does not create the file: when it is missing the call returns
    an error and changes nothing. *)
Theorem syncMgr_mgrList e s appList :
  openDenied e (mgrFilePath e) = false ->
  writeFails e (mgrFilePath e) = false ->
  isForce (flags s) = false ->
  forallb cleanPath appList = true ->
  (forall c, fs s !! mgrFilePath e = Some c ->
     exists s', syncMgr e appList s = Ret None s' /\ mgrList e s' = Ret appList s') /\
  (fs s !! mgrFilePath e = None ->
     exists msg, syncMgr e appList s = Ret (Some msg) s).
Proof.
  intros Ho Hw Hf Hc. split.
  - intros c Hfs. destruct (syncMgr_rewrites e s appList c Hfs Ho Hw) as (s' & Hr & Hfs').
    exists s'. split; [exact Hr|].
    apply mgrList_holds; [|exact Hc|left; exact Hfs'].
    unfold syncMgr in Hr. rewrite Hfs, Ho in Hr. cbn [fs set_fs] in Hr. rewrite Hw in Hr.
    injection Hr as <-. exact Hf.
  - intros Hn. unfold syncMgr. rewrite Hn. eauto.
Qed.

Lemma syncMgr_mgrList_witness :
  openDenied exEnv (mgrFilePath exEnv) = false /\
  writeFails exEnv (mgrFilePath exEnv) = false /\
  isForce (flags exRegistry) = false /\
  forallb cleanPath ["b.conf"] = true /\
  fs exRegistry !! mgrFilePath exEnv
    = Some (registryLines ["a.conf"; "b.conf"; "c.conf"]) /\
  exists s', syncMgr exEnv ["b.conf"] exRegistry = Ret None s' /\
             mgrList exEnv s' = Ret ["b.conf"] s'.
Proof.
  assert (H1 : openDenied exEnv (mgrFilePath exEnv) = false) by reflexivity.
  assert (H2 : writeFails exEnv (mgrFilePath exEnv) = false) by reflexivity.
  assert (H3 : isForce (flags exRegistry) = false) by reflexivity.
  assert (H4 : forallb cleanPath ["b.conf"] = true) by (vm_compute; reflexivity).
  assert (H5 : fs exRegistry !! mgrFilePath exEnv
               = Some (registryLines ["a.conf"; "b.conf"; "c.conf"]))
    by (vm_compute; reflexivity).
  exact (conj H1 (conj H2 (conj H3 (conj H4 (conj H5
    (proj1 (syncMgr_mgrList exEnv exRegistry ["b.conf"] H1 H2 H3 H4) _ H5)))))).
Defined.

(** ** Monitoring, further *)

(** X13.  When the running flag of the application has been
    cleared, [checkWorkProcess] stops at the first completion: it reports one
    exit and goes to the cleanup, however many workers are still running
    and whatever else is scheduled. *)
Theorem monitor_stops_when_flag_cleared e s h code rest :
  app_runing (app s) = false ->
  wfStore s ->
  In h (map cmd (List.filter runing (app_cmd (app s)))) ->
  (flagService (flags s) = true -> logger s = true) ->
  exists c,
    checkWorkProcess e ([Exited h code] :: rest) s =
    clear e (emit (exitReport (flagService (flags s)) c)
               (set_cmds (setExit h code (cmds s)) s)).
Proof.
  intros Hr Hwf Hin Hlog. unfold checkWorkProcess.
  unfold bind at 1, gets at 1.
  set (waiters := map cmd (List.filter runing (app_cmd (app s)))) in *.
  assert (Hpos : (0 < length waiters)%nat) by (destruct waiters; [destruct Hin | simpl; lia]).
  destruct (length waiters) as [|n] eqn:Hl; [lia|].
  assert (Hlen : (0 < length (app_cmd (app s)))%nat).
  { subst waiters. rewrite length_map in Hl.
    pose proof (List.filter_length_le runing (app_cmd (app s))). lia. }
  destruct (monitorLoop_step e waiters 0 n h code rest s [])
    as (c & Hstep);
    [ constructor; [intros [] | constructor]
    | intros x [<-|[]]; exact Hin
    | reflexivity
    | intros x []
    | exact Hlen
    | exact Hwf
    | exact Hlog
    | ].
  exists c. unfold bind at 1. rewrite Hstep.
  unfold bind at 1, gets at 1. cbn [app emit set_cmds]. rewrite Hr.
  unfold ret. reflexivity.
Qed.

Lemma monitor_stops_when_flag_cleared_witness :
  app_runing (app exFlagCleared) = false /\
  wfStore exFlagCleared /\
  In 1%nat (map cmd (List.filter runing (app_cmd (app exFlagCleared)))) /\
  (flagService (flags exFlagCleared) = true -> logger exFlagCleared = true) /\
  exists c,
    checkWorkProcess exEnv ([Exited 1 7] :: [[Exited 0 0]; [Exited 2 3]]) exFlagCleared =
    clear exEnv (emit (exitReport (flagService (flags exFlagCleared)) c)
                   (set_cmds (setExit 1 7 (cmds exFlagCleared)) exFlagCleared)).
Proof.
  assert (H1 : app_runing (app exFlagCleared) = false) by reflexivity.
  assert (H2 : wfStore exFlagCleared).
  { unfold wfStore. vm_compute. repeat constructor. }
  assert (H3 : In 1%nat (map cmd (List.filter runing (app_cmd (app exFlagCleared)))))
    by (vm_compute; auto).
  assert (H4 : flagService (flags exFlagCleared) = true -> logger exFlagCleared = true)
    by (intros _; reflexivity).
  exact (conj H1 (conj H2 (conj H3 (conj H4
    (monitor_stops_when_flag_cleared exEnv exFlagCleared 1 7 _ H1 H2 H3 H4))))).
Defined.

(** X14.  While fewer workers have exited than are running,
    [checkWorkProcess] does not return and does not clean up: it has
    reported one exit per completion, the pid file is untouched, and exactly
    the waiters of the exited workers are done. *)
Theorem monitor_waits_for_all e s order :
  app_runing (app s) = true ->
  wfStore s ->
  List.NoDup (map cmd (List.filter runing (app_cmd (app s)))) ->
  Forall (fun h => waiterDone (cmds s) h = false)
         (map cmd (List.filter runing (app_cmd (app s)))) ->
  List.NoDup (map fst order) ->
  incl (map fst order) (map cmd (List.filter runing (app_cmd (app s)))) ->
  (length order < length (List.filter runing (app_cmd (app s))))%nat ->
  (flagService (flags s) = true -> logger s = true) ->
  exists lines s',
    checkWorkProcess e (arrival order) s = Blocked s' /\
    trace s' = trace s ++ lines /\
    length lines = length order /\
    isClear s' = isClear s /\ fs s' = fs s /\
    length (List.filter (waiterDone (cmds s'))
              (map cmd (List.filter runing (app_cmd (app s))))) = length order.
Proof.
  intros Hr Hwf Hnw Hnone Hn Hi Hlt Hlog.
  set (waiters := map cmd (List.filter runing (app_cmd (app s)))) in *.
  destruct (monitorLoop_short e waiters order 0%nat (length waiters) s [])
    as (lines & s' & Hrun & Htr & Hll & Hic & Hfs & Hap & Hdn);
    [ exact Hn
    | exact Hi
    | reflexivity
    | intros x []
    | exact Hr
    | subst waiters; rewrite length_map; apply List.filter_length_le
    | subst waiters; rewrite length_map; exact Hlt
    | exact Hwf
    | exact Hlog
    | ].
  exists lines, s'. unfold checkWorkProcess. unfold bind at 1, gets at 1.
    fold waiters. unfold bind. rewrite Hrun.
    repeat split; auto.
    rewrite <- (length_map fst order).
    apply Permutation_length, Stdlib.Sorting.Permutation.NoDup_Permutation.
    + apply List.NoDup_filter. exact Hnw.
    + exact Hn.
    + intros x. rewrite List.filter_In, Hdn. split.
      * intros [Hx [Hd|Hd]]; [|exact Hd].
        rewrite List.Forall_forall in Hnone. rewrite (Hnone x Hx) in Hd. discriminate.
      * intros Hx. split; [apply Hi, Hx | right; exact Hx].
Qed.

Lemma monitor_waits_for_all_witness :
  app_runing (app exStarted) = true /\
  wfStore exStarted /\
  List.NoDup (map cmd (List.filter runing (app_cmd (app exStarted)))) /\
  Forall (fun h => waiterDone (cmds exStarted) h = false)
         (map cmd (List.filter runing (app_cmd (app exStarted)))) /\
  List.NoDup (map fst [(1%nat, 7%Z); (0%nat, 0%Z)]) /\
  incl (map fst [(1%nat, 7%Z); (0%nat, 0%Z)])
       (map cmd (List.filter runing (app_cmd (app exStarted)))) /\
  (length [(1%nat, 7%Z); (0%nat, 0%Z)]
   < length (List.filter runing (app_cmd (app exStarted))))%nat /\
  (flagService (flags exStarted) = true -> logger exStarted = true) /\
  exists lines s',
    checkWorkProcess exEnv (arrival [(1%nat, 7%Z); (0%nat, 0%Z)]) exStarted = Blocked s' /\
    trace s' = trace exStarted ++ lines /\
    length lines = length [(1%nat, 7%Z); (0%nat, 0%Z)] /\
    isClear s' = isClear exStarted /\ fs s' = fs exStarted /\
    length (List.filter (waiterDone (cmds s'))
              (map cmd (List.filter runing (app_cmd (app exStarted)))))
    = length [(1%nat, 7%Z); (0%nat, 0%Z)].
Proof.
  assert (H1 : app_runing (app exStarted) = true) by (vm_compute; reflexivity).
  assert (H2 : wfStore exStarted) by exact exStarted_wf.
  assert (H3 : List.NoDup (map cmd (List.filter runing (app_cmd (app exStarted))))).
  { vm_compute. repeat constructor; simpl; intuition lia. }
  assert (H4 : Forall (fun h => waiterDone (cmds exStarted) h = false)
                 (map cmd (List.filter runing (app_cmd (app exStarted))))).
  { vm_compute. repeat constructor. }
  assert (H5 : List.NoDup (map fst [(1%nat, 7%Z); (0%nat, 0%Z)])).
  { simpl. repeat constructor; simpl; intuition lia. }
  assert (H6 : incl (map fst [(1%nat, 7%Z); (0%nat, 0%Z)])
                 (map cmd (List.filter runing (app_cmd (app exStarted))))).
  { vm_compute. intros x [<-|[<-|[]]]; auto. }
  assert (H7 : (length [(1%nat, 7%Z); (0%nat, 0%Z)]
                < length (List.filter runing (app_cmd (app exStarted))))%nat).
  { vm_compute. lia. }
  assert (H8 : flagService (flags exStarted) = true -> logger exStarted = true).
  { intros _. vm_compute. reflexivity. }
  exact (conj H1 (conj H2 (conj H3 (conj H4 (conj H5 (conj H6 (conj H7 (conj H8
    (monitor_waits_for_all exEnv exStarted [(1%nat, 7%Z); (0%nat, 0%Z)]
       H1 H2 H3 H4 H5 H6 H7 H8))))))))).
Defined.

(** ** Mode resolution, further *)

(** X15.  A service name on the command line turns the run into an
    installation: whatever else is given, [-uninstall] and [-daemon]
    included, [Command] takes the service, stop, reload or install branch,
    never start, daemon or uninstall, and never falls through to serving. *)
Theorem name_shadows_uninstall (args : list string) (raw : Flags) :
  flagName raw <> "" ->
  Command_mode (resolveFlags args raw) = Service \/
  Command_mode (resolveFlags args raw) = Stop \/
  Command_mode (resolveFlags args raw) = Reload \/
  Command_mode (resolveFlags args raw) = Install.
Proof.
  intros H. apply String.eqb_neq in H.
  assert (Hi : installed args raw = true).
  { unfold installed. rewrite H. cbn. rewrite orb_true_r. reflexivity. }
  rewrite resolveFlags_closed. unfold Command_mode.
  cbn [flagStart flagService flagStop flagReload flagDaemon isInstall isUninstall].
  rewrite Hi.
  destruct (flagDevelop raw), (flagStop raw), (flagReload raw), (flagService raw),
    (flagDaemon raw), (isUninstall raw); cbn; auto.
Qed.

Lemma name_shadows_uninstall_witness :
  flagName exUninstallRaw <> "" /\
  (Command_mode (resolveFlags ["-uninstall"; "-name=svc"] exUninstallRaw) = Service \/
   Command_mode (resolveFlags ["-uninstall"; "-name=svc"] exUninstallRaw) = Stop \/
   Command_mode (resolveFlags ["-uninstall"; "-name=svc"] exUninstallRaw) = Reload \/
   Command_mode (resolveFlags ["-uninstall"; "-name=svc"] exUninstallRaw) = Install).
Proof.
  assert (H1 : flagName exUninstallRaw <> "") by discriminate.
  exact (conj H1 (name_shadows_uninstall ["-uninstall"; "-name=svc"] exUninstallRaw H1)).
Defined.

(** X16.  Any argument that begins with [-install], whatever
    follows (as in [-install=false]), turns the install flag on, and with it
    the daemon and start flags off. *)
Theorem install_prefix_wins (args : list string) (raw : Flags) (k : string) :
  In k args ->
  HasPrefix k "-install" = true ->
  isInstall (resolveFlags args raw) = true /\
  flagStart (resolveFlags args raw) = false /\
  flagDaemon (resolveFlags args raw) = false.
Proof.
  intros Hin Hp.
  assert (He : existsb (fun k => HasPrefix k "-install") args = true)
    by (apply existsb_exists; exists k; auto).
  assert (Hi : installed args raw = true).
  { unfold installed. rewrite He. apply orb_true_r. }
  rewrite resolveFlags_closed.
  cbn [flagStart flagDaemon isInstall]. rewrite Hi.
  rewrite !orb_true_r, andb_false_r. cbn.
  destruct (flagDevelop raw), (flagStop raw), (flagReload raw); cbn; auto.
Qed.

Lemma install_prefix_wins_witness :
  In "-install=false" ["-install=false"; "-daemon"] /\
  HasPrefix "-install=false" "-install" = true /\
  isInstall (resolveFlags ["-install=false"; "-daemon"] exDaemonRaw) = true /\
  flagStart (resolveFlags ["-install=false"; "-daemon"] exDaemonRaw) = false /\
  flagDaemon (resolveFlags ["-install=false"; "-daemon"] exDaemonRaw) = false.
Proof.
  assert (H1 : In "-install=false" ["-install=false"; "-daemon"]) by (left; reflexivity).
  assert (H2 : HasPrefix "-install=false" "-install" = true) by reflexivity.
  exact (conj H1 (conj H2
    (install_prefix_wins ["-install=false"; "-daemon"] exDaemonRaw _ H1 H2))).
Defined.

(** ** The application name *)

Lemma stripSlashes_plain s :
  contains "/" s = false -> stripSlashes s = s.
Proof.
  induction s as [|c t IH]; [reflexivity|].
  rewrite contains_cons. intros H. apply orb_false_iff in H as [Hc Ht].
  cbn [stripSlashes]. rewrite (IH Ht). destruct t; [rewrite Hc|]; reflexivity.
Qed.

Lemma stripSlashes_app a b :
  b <> "" -> stripSlashes b = b -> stripSlashes (a +:+ b) = a +:+ b.
Proof.
  intros Hb Hs. induction a as [|c t IH]; [exact Hs|].
  cbn [append stripSlashes]. rewrite IH.
  destruct (t +:+ b) eqn:E; [|reflexivity].
  destruct t; [|discriminate]. simpl in E. contradiction.
Qed.

Lemma afterLastSlash_app dir name :
  contains "/" name = false -> afterLastSlash (dir +:+ "/" +:+ name) = name.
Proof.
  intros Hn. induction dir as [|c t IH].
  - cbn [append afterLastSlash]. rewrite Hn. reflexivity.
  - cbn [append afterLastSlash]. rewrite contains_app. cbn [append contains].
    rewrite Ascii.eqb_refl, orb_true_r. exact IH.
Qed.

Lemma afterLastSlash_plain s :
  contains "/" s = false -> afterLastSlash s = s.
Proof.
  destruct s as [|c t]; [reflexivity|].
  rewrite contains_cons. intros H. apply orb_false_iff in H as [Hc Ht].
  cbn [afterLastSlash]. rewrite Ht, Hc. reflexivity.
Qed.

Lemma path_Ext_plain s : contains "." s = false -> path_Ext s = "".
Proof.
  induction s as [|c t IH]; [reflexivity|].
  rewrite contains_cons. intros H. apply orb_false_iff in H as [Hc Ht].
  cbn [path_Ext]. rewrite (IH Ht), Hc. destruct (contains "/" t); reflexivity.
Qed.

Lemma path_Ext_app stem ext :
  contains "/" ext = false -> contains "." ext = false ->
  path_Ext (stem +:+ "." +:+ ext) = "." +:+ ext.
Proof.
  intros Hs Hd. induction stem as [|c t IH].
  - cbn [append path_Ext]. rewrite (path_Ext_plain _ Hd), Hs. reflexivity.
  - cbn [append path_Ext] in *. rewrite IH. reflexivity.
Qed.

Lemma eqb_app_longer c t suf : (String c t +:+ suf =? suf) = false.
Proof.
  apply String.eqb_neq. intros H.
  apply (f_equal String.length) in H.
  rewrite length_append_s in H. cbn [String.length] in H. lia.
Qed.

Lemma dropSuffix_app stem suf : dropSuffix (stem +:+ suf) suf = Some stem.
Proof.
  induction stem as [|c t IH].
  - cbn [append]. destruct suf; cbn [dropSuffix]; rewrite String.eqb_refl; reflexivity.
  - cbn [append dropSuffix]. fold (append t suf).
    change (String c (t +:+ suf)) with (String c t +:+ suf).
    rewrite eqb_app_longer. cbn [append]. rewrite IH. reflexivity.
Qed.

Lemma TrimSuffix_app stem suf : TrimSuffix (stem +:+ suf) suf = stem.
Proof. unfold TrimSuffix. rewrite dropSuffix_app. reflexivity. Qed.

(** X17.  [AppName] is the last element of the path of the executable
    without its last extension: the directory is dropped, and only what
    follows the last dot of the file name is removed. *)
Theorem AppName_strips e dir stem suffix :
  Args0 e = dir +:+ "/" +:+ stem +:+ suffix ->
  contains "/" stem = false ->
  (suffix = "" /\ stem <> "" /\ contains "." stem = false) \/
  (exists ext, suffix = "." +:+ ext /\
               contains "/" ext = false /\ contains "." ext = false) ->
  AppName e = stem.
Proof.
  intros Ha Hs Hcase.
  assert (Hname : contains "/" (stem +:+ suffix) = false /\ stem +:+ suffix <> "").
  { destruct Hcase as [(-> & Hne & _)|(ext & -> & He & _)].
    - rewrite app_nil_r_s. auto.
    - split.
      + rewrite contains_app, Hs. cbn [append contains]. rewrite He. reflexivity.
      + destruct stem; discriminate. }
  destruct Hname as [Hslash Hne].
  assert (Hbase : path_Base (Args0 e) = stem +:+ suffix).
  { unfold path_Base. rewrite Ha.
    destruct (dir +:+ "/" +:+ stem +:+ suffix =? "") eqn:E.
    { apply String.eqb_eq in E. destruct dir; discriminate. }
    rewrite stripSlashes_app.
    - rewrite afterLastSlash_app by exact Hslash.
      apply String.eqb_neq in Hne. rewrite Hne. reflexivity.
    - discriminate.
    - change ("/" +:+ stem +:+ suffix) with (String "/" (stem +:+ suffix)).
      cbn [stripSlashes]. rewrite (stripSlashes_plain _ Hslash).
      destruct (stem +:+ suffix); [contradiction|reflexivity]. }
  unfold AppName. rewrite Hbase.
  destruct Hcase as [(-> & _ & Hd)|(ext & -> & He & Hd)].
  - rewrite app_nil_r_s, (path_Ext_plain _ Hd).
    rewrite <- (app_nil_r_s stem) at 1. apply TrimSuffix_app.
  - rewrite (path_Ext_app _ _ He Hd). apply TrimSuffix_app.
Qed.

Lemma AppName_strips_witness :
  Args0 exEnvWin = "C:" +:+ "/" +:+ "app" +:+ ".exe" /\
  contains "/" "app" = false /\
  ((".exe" = "" /\ "app" <> "" /\ contains "." "app" = false) \/
   (exists ext, ".exe" = "." +:+ ext /\
                contains "/" ext = false /\ contains "." ext = false)) /\
  AppName exEnvWin = "app".
Proof.
  assert (H1 : Args0 exEnvWin = "C:" +:+ "/" +:+ "app" +:+ ".exe") by reflexivity.
  assert (H2 : contains "/" "app" = false) by reflexivity.
  assert (H3 : (".exe" = "" /\ "app" <> "" /\ contains "." "app" = false) \/
               (exists ext, ".exe" = "." +:+ ext /\
                            contains "/" ext = false /\ contains "." ext = false)).
  { right. exists "exe". repeat split; reflexivity. }
  exact (conj H1 (conj H2 (conj H3 (AppName_strips exEnvWin "C:" "app" ".exe" H1 H2 H3)))).
Defined.

(** ** Choosing an instance *)

Lemma scanPos_refused lg : forall bad rest out,
  forallb (refused lg) bad = true ->
  scanPos lg (bad ++ rest) out =
  scanPos lg rest (out ++ repeat promptAgain (length bad)).
Proof.
  induction bad as [|i bad IH]; intros rest out Hb.
  - simpl. rewrite app_nil_r. reflexivity.
  - cbn [forallb] in Hb. apply andb_true_iff in Hb as [Hi Hb].
    cbn [List.app scanPos length repeat].
    destruct i as [pos|]; cbn [refused] in Hi; [rewrite Hi|];
      rewrite (IH rest _ Hb), <- app_assoc; reflexivity.
Qed.

Lemma forallb_without (P : string -> bool) vs k :
  forallb P vs = true -> forallb P (firstn k vs ++ skipn (S k) vs) = true.
Proof.
  intros H. rewrite forallb_forall in *. intros x Hx. apply H.
  apply in_app_or in Hx as [Hx|Hx].
  - rewrite <- (firstn_skipn k vs). apply in_or_app. left. exact Hx.
  - rewrite <- (firstn_skipn (S k) vs). apply in_or_app. right. exact Hx.
Qed.

(** Rewriting the registry and reading it back. *)
Lemma syncMgr_reads_back e s appList c :
  fs s !! mgrFilePath e = Some c ->
  openDenied e (mgrFilePath e) = false ->
  writeFails e (mgrFilePath e) = false ->
  isForce (flags s) = false ->
  forallb cleanPath appList = true ->
  exists s', syncMgr e appList s = Ret None s' /\
             mgrList e s' = Ret appList s' /\
             fs s' = <[mgrFilePath e := registryLines appList]> (fs s) /\
             trace s' = trace s.
Proof.
  intros Hfs Ho Hw Hf Hc.
  assert (Hr : syncMgr e appList s =
               Ret None (set_fs (<[mgrFilePath e := registryLines appList]> (fs s)) s)).
  { unfold syncMgr. rewrite Hfs, Ho. cbn [fs set_fs]. rewrite Hw.
    rewrite fold_lines, insert_insert_eq. reflexivity. }
  eexists. split; [exact Hr|]. split; [|split; reflexivity].
  apply mgrList_holds; [exact Hf | exact Hc |].
  left. cbn [fs set_fs]. apply lookup_insert_eq.
Qed.

(** X18.  With two or more registered instances [mgrPath] lists
    them, asks for a position, asks again after every answer that cannot be
    read or is out of range, returns the entry at the position chosen
    (counted from 1) and rewrites the registry without it: the other entries
    stay, in order. *)
Theorem mgrPath_selects e s vs bad k rest :
  fs s !! mgrFilePath e = Some (registryLines vs) ->
  forallb cleanPath vs = true ->
  isForce (flags s) = false ->
  openDenied e (mgrFilePath e) = false ->
  writeFails e (mgrFilePath e) = false ->
  (2 <= length vs)%nat ->
  forallb (refused (length vs)) bad = true ->
  (k < length vs)%nat ->
  exists v s',
    vs !! k = Some v /\
    mgrPath e (bad ++ Some (Z.of_nat k + 1)%Z :: rest) s =
      Ret (v, promptList :: listEntries 0 vs ++ [promptAsk]
                ++ repeat promptAgain (length bad)) s' /\
    mgrList e s' = Ret (firstn k vs ++ skipn (S k) vs) s'.
Proof.
  intros Hfs Hc Hf Ho Hw Hlen Hbad Hk.
  destruct (lookup_lt_is_Some_2 vs k Hk) as [v Hv].
  destruct (syncMgr_reads_back e s (firstn k vs ++ skipn (S k) vs) _ Hfs Ho Hw Hf
              (forallb_without _ vs k Hc)) as (s' & Hsync & Hlist & _).
  exists v, s'. split; [exact Hv|]. split; [|exact Hlist].
  unfold mgrPath. unfold bind at 1.
  rewrite (mgrList_holds e s vs Hf Hc (or_introl Hfs)).
  destruct vs as [|v0 [|v1 vr]]; [simpl in Hlen; lia | simpl in Hlen; lia |].
  rewrite scanPos_refused by exact Hbad. cbn [scanPos].
  replace ((Z.of_nat k + 1 <=? 0)%Z) with false by (symmetry; apply Z.leb_gt; lia).
  replace ((Z.of_nat (length (v0 :: v1 :: vr)) <? Z.of_nat k + 1)%Z) with false
    by (symmetry; apply Z.ltb_ge; lia).
  cbn [orb]. replace (Z.to_nat (Z.of_nat k + 1 - 1)) with k by lia.
  rewrite Hv. unfold bind. rewrite Hsync. unfold ret.
  rewrite <- app_comm_cons, <- app_assoc. reflexivity.
Qed.

Lemma mgrPath_selects_witness :
  fs exRegistry !! mgrFilePath exEnv
    = Some (registryLines ["a.conf"; "b.conf"; "c.conf"]) /\
  forallb cleanPath ["a.conf"; "b.conf"; "c.conf"] = true /\
  isForce (flags exRegistry) = false /\
  openDenied exEnv (mgrFilePath exEnv) = false /\
  writeFails exEnv (mgrFilePath exEnv) = false /\
  (2 <= length ["a.conf"; "b.conf"; "c.conf"])%nat /\
  forallb (refused (length ["a.conf"; "b.conf"; "c.conf"])) [None; Some 5%Z; Some 0%Z]
    = true /\
  (1 < length ["a.conf"; "b.conf"; "c.conf"])%nat /\
  exists v s',
    ["a.conf"; "b.conf"; "c.conf"] !! 1%nat = Some v /\
    mgrPath exEnv ([None; Some 5%Z; Some 0%Z] ++ Some (Z.of_nat 1 + 1)%Z :: [Some 1%Z])
            exRegistry =
      Ret (v, promptList :: listEntries 0 ["a.conf"; "b.conf"; "c.conf"] ++ [promptAsk]
                ++ repeat promptAgain (length [None; Some 5%Z; Some 0%Z])) s' /\
    mgrList exEnv s' =
      Ret (firstn 1 ["a.conf"; "b.conf"; "c.conf"]
           ++ skipn 2 ["a.conf"; "b.conf"; "c.conf"]) s'.
Proof.
  assert (H1 : fs exRegistry !! mgrFilePath exEnv
               = Some (registryLines ["a.conf"; "b.conf"; "c.conf"]))
    by (vm_compute; reflexivity).
  assert (H2 : forallb cleanPath ["a.conf"; "b.conf"; "c.conf"] = true)
    by (vm_compute; reflexivity).
  assert (H3 : isForce (flags exRegistry) = false) by reflexivity.
  assert (H4 : openDenied exEnv (mgrFilePath exEnv) = false) by reflexivity.
  assert (H5 : writeFails exEnv (mgrFilePath exEnv) = false) by reflexivity.
  assert (H6 : (2 <= length ["a.conf"; "b.conf"; "c.conf"])%nat) by (simpl; lia).
  assert (H7 : forallb (refused (length ["a.conf"; "b.conf"; "c.conf"]))
                 [None; Some 5%Z; Some 0%Z] = true) by (vm_compute; reflexivity).
  assert (H8 : (1 < length ["a.conf"; "b.conf"; "c.conf"])%nat) by (simpl; lia).
  exact (conj H1 (conj H2 (conj H3 (conj H4 (conj H5 (conj H6 (conj H7 (conj H8
    (mgrPath_selects exEnv exRegistry ["a.conf"; "b.conf"; "c.conf"]
       [None; Some 5%Z; Some 0%Z] 1 [Some 1%Z] H1 H2 H3 H4 H5 H6 H7 H8))))))))).
Defined.

(** X19.  With one registered instance [mgrPath] asks nothing: it
    returns that instance and leaves the registry file empty. *)
Theorem mgrPath_single e s v inputs :
  fs s !! mgrFilePath e = Some (registryLines [v]) ->
  cleanPath v = true ->
  isForce (flags s) = false ->
  openDenied e (mgrFilePath e) = false ->
  writeFails e (mgrFilePath e) = false ->
  exists s',
    mgrPath e inputs s = Ret (v, []) s' /\
    mgrList e s' = Ret [] s' /\
    fs s' !! mgrFilePath e = Some "".
Proof.
  intros Hfs Hc Hf Ho Hw.
  assert (Hcs : forallb cleanPath [v] = true) by (simpl; rewrite Hc; reflexivity).
  destruct (syncMgr_reads_back e s [] _ Hfs Ho Hw Hf eq_refl) as (s' & Hsync & Hlist & Hfs' & _).
  exists s'. split; [|split; [exact Hlist|]].
  - unfold mgrPath. unfold bind at 1.
    rewrite (mgrList_holds e s [v] Hf Hcs (or_introl Hfs)).
    unfold bind. rewrite Hsync. reflexivity.
  - rewrite Hfs'. apply lookup_insert_eq.
Qed.

Lemma mgrPath_single_witness :
  fs exOneEntry !! mgrFilePath exEnv = Some (registryLines ["a.conf"]) /\
  cleanPath "a.conf" = true /\
  isForce (flags exOneEntry) = false /\
  openDenied exEnv (mgrFilePath exEnv) = false /\
  writeFails exEnv (mgrFilePath exEnv) = false /\
  exists s',
    mgrPath exEnv [] exOneEntry = Ret ("a.conf", []) s' /\
    mgrList exEnv s' = Ret [] s' /\
    fs s' !! mgrFilePath exEnv = Some "".
Proof.
  assert (H1 : fs exOneEntry !! mgrFilePath exEnv = Some (registryLines ["a.conf"]))
    by (vm_compute; reflexivity).
  assert (H2 : cleanPath "a.conf" = true) by (vm_compute; reflexivity).
  assert (H3 : isForce (flags exOneEntry) = false) by reflexivity.
  assert (H4 : openDenied exEnv (mgrFilePath exEnv) = false) by reflexivity.
  assert (H5 : writeFails exEnv (mgrFilePath exEnv) = false) by reflexivity.
  exact (conj H1 (conj H2 (conj H3 (conj H4 (conj H5
    (mgrPath_single exEnv exOneEntry "a.conf" [] H1 H2 H3 H4 H5)))))).
Defined.

(** X20.  Under [-force] [mgrPath] ignores the registry: it returns
    the empty path, asks nothing, and empties an existing registry file,
    whatever it held. *)
Theorem mgrPath_force_wipes e s c inputs :
  isForce (flags s) = true ->
  fs s !! mgrFilePath e = Some c ->
  openDenied e (mgrFilePath e) = false ->
  writeFails e (mgrFilePath e) = false ->
  exists s',
    mgrPath e inputs s = Ret ("", []) s' /\
    fs s' !! mgrFilePath e = Some "" /\
    trace s' = trace s.
Proof.
  intros Hf Hfs Ho Hw. unfold mgrPath, bind, mgrList. rewrite Hf.
  unfold syncMgr. rewrite Hfs, Ho. cbn [fs set_fs]. rewrite Hw.
  eexists. split; [reflexivity|]. split; [|reflexivity].
  cbn [fs set_fs fold_left]. apply lookup_insert_eq.
Qed.

Lemma mgrPath_force_wipes_witness :
  isForce (flags exForced) = true /\
  fs exForced !! mgrFilePath exEnv
    = Some (registryLines ["a.conf"; "b.conf"; "c.conf"]) /\
  openDenied exEnv (mgrFilePath exEnv) = false /\
  writeFails exEnv (mgrFilePath exEnv) = false /\
  exists s',
    mgrPath exEnv [Some 2%Z] exForced = Ret ("", []) s' /\
    fs s' !! mgrFilePath exEnv = Some "" /\
    trace s' = trace exForced.
Proof.
  assert (H1 : isForce (flags exForced) = true) by reflexivity.
  assert (H2 : fs exForced !! mgrFilePath exEnv
               = Some (registryLines ["a.conf"; "b.conf"; "c.conf"]))
    by (vm_compute; reflexivity).
  assert (H3 : openDenied exEnv (mgrFilePath exEnv) = false) by reflexivity.
  assert (H4 : writeFails exEnv (mgrFilePath exEnv) = false) by reflexivity.
  exact (conj H1 (conj H2 (conj H3 (conj H4
    (mgrPath_force_wipes exEnv exForced _ [Some 2%Z] H1 H2 H3 H4))))).
Defined.

(** ** Request handling *)

(** X21.  A request that is a preflight ([OPTIONS]), that misses
    the root pattern, or whose method is not the registered one never
    reaches the application: the response is the same whatever the handler
    and the hooks are. *)
Theorem doHandle_rejects before after method pattern f r :
  Method r = "OPTIONS" \/
  (pattern = "/" /\ URLPath r <> "/") \/
  Method r <> method ->
  doHandle before after method pattern f r =
  doHandle None None method pattern None r.
Proof.
  intros H. unfold doHandle.
  destruct (Method r =? "OPTIONS") eqn:Ho; [reflexivity|].
  destruct ((pattern =? "/") && negb (URLPath r =? pattern)) eqn:Hp; [reflexivity|].
  destruct (Method r =? method) eqn:Hm; [|reflexivity].
  exfalso. destruct H as [H|[[-> H]|H]].
  - apply String.eqb_neq in Ho. contradiction.
  - apply String.eqb_neq in H. cbn in Hp. rewrite H in Hp. discriminate.
  - apply String.eqb_eq in Hm. contradiction.
Qed.

Lemma doHandle_rejects_witness :
  (Method exGet = "OPTIONS" \/
   ("/items" = "/" /\ URLPath exGet <> "/") \/
   Method exGet <> "POST") /\
  doHandle (Some exRefuse) (Some exCrash) "POST" "/items" (Some exHandler) exGet =
  doHandle None None "POST" "/items" None exGet.
Proof.
  assert (H1 : Method exGet = "OPTIONS" \/
               ("/items" = "/" /\ URLPath exGet <> "/") \/
               Method exGet <> "POST") by (right; right; discriminate).
  exact (conj H1
    (doHandle_rejects (Some exRefuse) (Some exCrash) "POST" "/items" (Some exHandler)
       exGet H1)).
Defined.

Lemma routed_tests method pattern r :
  routed method pattern r ->
  (Method r =? "OPTIONS") = false /\
  (pattern =? "/") && negb (URLPath r =? pattern) = false /\
  (Method r =? method) = true.
Proof.
  intros (Hm & Ho & Hp). repeat split.
  - apply String.eqb_neq. exact Ho.
  - destruct (pattern =? "/") eqn:E; [|reflexivity].
    apply String.eqb_eq in E. subst pattern. rewrite (Hp eq_refl). reflexivity.
  - apply String.eqb_eq. exact Hm.
Qed.

(** X23.  When the handler panics, what was written so far stays,
    status 500 and its text are added after it, the panic is logged as an
    error, and neither the [After] hook nor the closing log line runs. *)
Theorem doHandle_recovers before after method pattern f r s o0 o1 v :
  routed method pattern r ->
  (before = None /\ o0 = [] \/
   exists b, before = Some b /\ b r = (o0, Returns None)) ->
  f r = (o1, Panics v) ->
  exists s',
    doHandle before after method pattern (Some f) r s =
      Ret (corsHeaders r ++ o0 ++ o1 ++
           [WriteHeader 500; Fprint "Internal Server Error"]) s' /\
    (logger s = true ->
     trace s' = trace s ++
       [ELogInfo (Method r +:+ ":" +:+ RequestURI r +:+ "->start");
        ELogError (Method r +:+ ":" +:+ RequestURI r +:+ "->error=" +:+ v)]).
Proof.
  intros Hr Hb Hf. destruct (routed_tests _ _ _ Hr) as (Ho & Hp & Hm).
  unfold doHandle. rewrite Ho, Hp, Hm.
  assert (Hh : forall s1, hooked before after f r s1 = Ret (o0 ++ o1, Some v) s1).
  { intros s1. unfold hooked. rewrite Hf.
    destruct Hb as [[-> ->]|(b & -> & Hbr)]; [reflexivity|].
    rewrite Hbr. reflexivity. }
  unfold bind, logs_Info, logs_Error. destruct (logger s) eqn:Hl.
  - rewrite Hh. cbn [logger emit]. rewrite Hl. eexists. split.
    + unfold ret. rewrite <- app_assoc. reflexivity.
    + intros _. cbn [trace emit]. rewrite <- app_assoc. reflexivity.
  - rewrite Hh, Hl. eexists. split.
    + unfold ret. rewrite <- app_assoc. reflexivity.
    + discriminate.
Qed.

Lemma doHandle_recovers_witness :
  routed "GET" "/items" exGet /\
  (@None Callback = None /\ @nil RespOp = [] \/
   exists b, @None Callback = Some b /\ b exGet = ([], Returns None)) /\
  exCrash exGet = ([Fprint "hel"], Panics "boom") /\
  exists s',
    doHandle None (Some exHandler) "GET" "/items" (Some exCrash) exGet
             (initState defaultFlags ∅) =
      Ret (corsHeaders exGet ++ [] ++ [Fprint "hel"] ++
           [WriteHeader 500; Fprint "Internal Server Error"]) s' /\
    (logger (initState defaultFlags ∅) = true ->
     trace s' = trace (initState defaultFlags ∅) ++
       [ELogInfo (Method exGet +:+ ":" +:+ RequestURI exGet +:+ "->start");
        ELogError (Method exGet +:+ ":" +:+ RequestURI exGet +:+ "->error=" +:+ "boom")]).
Proof.
  assert (H1 : routed "GET" "/items" exGet).
  { repeat split; [discriminate | discriminate]. }
  assert (H2 : @None Callback = None /\ @nil RespOp = [] \/
               exists b, @None Callback = Some b /\ b exGet = ([], Returns None))
    by (left; split; reflexivity).
  assert (H3 : exCrash exGet = ([Fprint "hel"], Panics "boom")) by reflexivity.
  exact (conj H1 (conj H2 (conj H3
    (doHandle_recovers None (Some exHandler) "GET" "/items" exCrash exGet
       (initState defaultFlags ∅) [] [Fprint "hel"] "boom" H1 H2 H3)))).
Defined.

(** X24.  When the [Before] hook returns an error, neither the
    handler nor the [After] hook runs: the response is what the hook wrote,
    after the CORS headers, with no status added. *)
Theorem doHandle_before_gates before after method pattern f r s b o msg :
  routed method pattern r ->
  before = Some b ->
  b r = (o, Returns (Some msg)) ->
  doHandle before after method pattern (Some f) r s =
  doHandle before None method pattern (Some (fun _ => ([], Returns None))) r s /\
  exists s', doHandle before after method pattern (Some f) r s =
             Ret (corsHeaders r ++ o) s'.
Proof.
  intros Hr -> Hb. destruct (routed_tests _ _ _ Hr) as (Ho & Hp & Hm).
  unfold doHandle. rewrite Ho, Hp, Hm. unfold hooked. rewrite Hb.
  split; [reflexivity|].
  unfold bind, logs_Info. destruct (logger s) eqn:Hl; cbn [logger emit]; rewrite ?Hl;
    eexists; reflexivity.
Qed.

Lemma doHandle_before_gates_witness :
  routed "GET" "/items" exGet /\
  Some exRefuse = Some exRefuse /\
  exRefuse exGet = ([WriteHeader 401], Returns (Some "denied")) /\
  doHandle (Some exRefuse) (Some exCrash) "GET" "/items" (Some exHandler) exGet
           (initState defaultFlags ∅) =
  doHandle (Some exRefuse) None "GET" "/items" (Some (fun _ => ([], Returns None))) exGet
           (initState defaultFlags ∅) /\
  exists s', doHandle (Some exRefuse) (Some exCrash) "GET" "/items" (Some exHandler) exGet
                      (initState defaultFlags ∅) =
             Ret (corsHeaders exGet ++ [WriteHeader 401]) s'.
Proof.
  assert (H1 : routed "GET" "/items" exGet).
  { repeat split; [discriminate | discriminate]. }
  assert (H2 : Some exRefuse = Some exRefuse) by reflexivity.
  assert (H3 : exRefuse exGet = ([WriteHeader 401], Returns (Some "denied")))
    by reflexivity.
  exact (conj H1 (conj H2 (conj H3
    (doHandle_before_gates (Some exRefuse) (Some exCrash) "GET" "/items" exHandler exGet
       (initState defaultFlags ∅) exRefuse [WriteHeader 401] "denied" H1 H2 H3)))).
Defined.

(** ** Static files *)

Lemma HasSuffix_app p suf : HasSuffix (p +:+ suf) suf = true.
Proof.
  induction p as [|c t IH].
  - cbn [append]. destruct suf; cbn [HasSuffix]; rewrite String.eqb_refl; reflexivity.
  - cbn [append HasSuffix]. fold (append t suf). rewrite IH. apply orb_true_r.
Qed.

(** X25.  [NoLookDirHandler] never serves a path that ends in a
    slash: the answer is not-found, whatever the query, and the wrapped
    handler is reached only for the other paths. *)
Theorem NoLookDirHandler_directories rawName r :
  (forall p, URLPath r = p +:+ "/" -> NoLookDirHandler rawName r = Some [NotFound]) /\
  (forall ops, NoLookDirHandler rawName r = Some ops ->
     In ServeHTTP ops -> forall p, URLPath r <> p +:+ "/").
Proof.
  split.
  - intros p Hp. unfold NoLookDirHandler. rewrite Hp, HasSuffix_app. reflexivity.
  - intros ops H Hin p Hp. unfold NoLookDirHandler in H.
    rewrite Hp, HasSuffix_app in H. injection H as <-.
    destruct Hin as [Hin|[]]. discriminate.
Qed.

Lemma NoLookDirHandler_directories_witness :
  URLPath exDir = "/static" +:+ "/" /\
  NoLookDirHandler (Some ["x"]) exDir = Some [NotFound].
Proof.
  assert (H1 : URLPath exDir = "/static" +:+ "/") by reflexivity.
  exact (conj H1
    (proj1 (NoLookDirHandler_directories (Some ["x"]) exDir) "/static" H1)).
Defined.
